(** * bonito: layer registry, model (de)serialisation and training loop

    A shallow embedding of [bonito/nn.py] and [bonito/training.py], with
    the split of the training data made by [bonito/cli/train.py].

    Python values are modelled as an inductive type, dictionaries as
    association lists in insertion order (the order in which keyword
    arguments reach a constructor), the global [layers] registry as a
    [gmap], exceptions as values of a result type, and the places where the
    source mutates shared objects ([from_dict]'s copy of the document, the
    files written by [Trainer.fit]) with an explicit store.

    The first part of the file holds the definitions, the second part the
    properties proved about them. *)

From Stdlib Require Import ZArith List Lia Bool Ascii String.
From Stdlib Require Import DecimalString DecimalZ QArith.
From stdpp Require Import base option list gmap strings.

Set Warnings "-register-all".

Local Open Scope string_scope.
Local Open Scope Z_scope.

(** ** Strings *)

(** [str.lower()] on the ASCII range: [A-Z] are sent to [a-z], every other
    byte is kept. Class identifiers in the source are ASCII. *)
Definition lower_ascii (c : ascii) : ascii :=
  let n := N_of_ascii c in
  if ((65 <=? n) && (n <=? 90))%N then ascii_of_N (n + 32) else c.

Fixpoint lower (s : string) : string :=
  match s with
  | EmptyString => EmptyString
  | String c s' => String (lower_ascii c) (lower s')
  end.

(** ** The layer registry ([nn.py], lines 11-17) *)

Module Registry.
Section Registry.

(** Class objects. A class is identified by the object itself; two
    different classes may carry the same [__name__]. *)
Context {C : Type} `{EqDecision C}.
Variable dunder_name : C -> string.

(** The module-level state touched by [register]: the global dictionary
    [layers] and the [name] attribute that [register] sets on the class
    object. *)
Record state : Type := State {
  layers : gmap string C;
  name_attr : C -> option string
}.

Definition empty : state := State ∅ (fun _ => None).

(** [[
    def register(layer):
        layer.name = layer.__name__.lower()
        layers[layer.name] = layer
        return layer
    ]] *)
Definition register (layer : C) (st : state) : C * state :=
  let name := lower (dunder_name layer) in
  let attrs := fun c => if decide (c = layer) then Some name else name_attr st c in
  (layer, State (<[name := layer]> (layers st)) attrs).

(** A sequence of registrations, in program order. *)
Definition register_all (cs : list C) (st : state) : state :=
  fold_left (fun st c => snd (register c st)) cs st.

(** [layers[name]]: resolution of a name, [None] standing for
    [KeyError]. *)
Definition resolve (st : state) (name : string) : option C :=
  layers st !! name.

End Registry.
End Registry.

(** ** Python values and model documents *)

(** The values a model document (a parsed TOML/JSON tree) is made of.
    A [float] is kept as its IEEE-754 binary64 bit pattern: the code below
    stores and returns floats, it never computes with them. Dictionaries
    have string keys and keep insertion order. *)
Inductive value : Type :=
| VNone
| VBool (b : bool)
| VInt (n : Z)
| VFloat (bits : Z)
| VStr (s : string)
| VList (xs : list value)
| VDict (kvs : list (string * value))
| VTensor (shape : list Z).

(** [VTensor] stands for a parameter tensor emitted by [to_dict] when
    [include_weights] is set; only its shape is represented. *)

(** Python truthiness ([bool(v)]). *)
Definition truthy (v : value) : bool :=
  match v with
  | VNone => false
  | VBool b => b
  | VInt n => negb (n =? 0)
  | VFloat bits => negb ((bits =? 0) || (bits =? 2 ^ 63))
  | VStr s => negb (String.eqb s "")
  | VList xs => match xs with [] => false | _ => true end
  | VDict kvs => match kvs with [] => false | _ => true end
  | VTensor _ => true
  end.

(** *** Dictionary operations on association lists *)

Section Dict.
Context {V : Type}.

(** [d[k]] / [d.get(k)]. *)
Fixpoint dict_get (k : string) (d : list (string * V)) : option V :=
  match d with
  | [] => None
  | (k', v) :: d' => if String.eqb k' k then Some v else dict_get k d'
  end.

(** [k in d]. *)
Definition dict_mem (k : string) (d : list (string * V)) : bool :=
  match dict_get k d with Some _ => true | None => false end.

(** [d.pop(k)]: the value and the dictionary without the key, [None]
    standing for [KeyError]. *)
Fixpoint dict_pop (k : string) (d : list (string * V)) : option (V * list (string * V)) :=
  match d with
  | [] => None
  | (k', v) :: d' =>
      if String.eqb k' k then Some (v, d')
      else match dict_pop k d' with
           | Some (x, d'') => Some (x, (k', v) :: d'')
           | None => None
           end
  end.

(** [d[k] = v]: an existing key keeps its position, a new key goes last. *)
Fixpoint dict_set (k : string) (v : V) (d : list (string * V)) : list (string * V) :=
  match d with
  | [] => [(k, v)]
  | (k', v') :: d' =>
      if String.eqb k' k then (k, v) :: d' else (k', v') :: dict_set k v d'
  end.

Definition dict_keys (d : list (string * V)) : list string := map fst d.

End Dict.

(** ** Layer nodes *)

(** The classes passed to [register] in [nn.py], in source order. *)
Inductive layer_class : Type :=
| CReLU | CTanh | CSwish | CSerial | CReverse | CConvolution
| CLinearCRFEncoder | CSHA | CMHA | CLayerScale | CFeedForward | CBoom
| CSHABlock | CPermute | CLSTM.

#[global] Instance layer_class_eq_dec : EqDecision layer_class.
Proof. solve_decision. Defined.

(** [cls.__name__]. *)
Definition dunder_name (c : layer_class) : string :=
  match c with
  | CReLU => "ReLU" | CTanh => "Tanh" | CSwish => "Swish"
  | CSerial => "Serial" | CReverse => "Reverse"
  | CConvolution => "Convolution"
  | CLinearCRFEncoder => "LinearCRFEncoder"
  | CSHA => "SHA" | CMHA => "MHA" | CLayerScale => "LayerScale"
  | CFeedForward => "FeedForward" | CBoom => "Boom"
  | CSHABlock => "SHABlock" | CPermute => "Permute" | CLSTM => "LSTM"
  end.

(** The torch primitives the layers wrap, as records of the attributes the
    source reads back. Sizes are Python ints. *)
Record Conv1d : Type := mkConv1d {
  in_channels : Z;
  out_channels : Z;
  kernel_size : Z;      (* kernel_size[0] *)
  stride : Z;           (* stride[0] *)
  padding : Z;          (* padding[0] *)
  conv_has_bias : bool  (* conv.bias is not None *)
}.

Record Linear : Type := mkLinear {
  in_features : Z;
  out_features : Z;
  linear_has_bias : bool  (* linear.bias is not None *)
}.

Record torch_LSTM : Type := mkLSTM {
  input_size : Z;
  hidden_size : Z;
  rnn_bias : value;       (* rnn.bias, as passed *)
  bidirectional : bool
}.

(** A layer node: one constructor per registered class, holding what the
    class's [__init__] stores. The [activation] attribute of [Convolution]
    and [LinearCRFEncoder] is either a module built from the registry or
    the raw value that was passed ([layers.get(activation, lambda:
    activation)()]). *)
Inductive layer : Type :=
| ReLU (inplace : value)
| Tanh
| Swish (inplace : value)
| Serial (modules : list layer)
| Reverse (inner : layer + value)
| Convolution (conv : Conv1d) (activation : layer + value)
| LinearCRFEncoder (n_base state_len : Z) (blank_score : value)
    (linear : Linear) (activation : layer + value) (scale : value)
| SHA (dim : Z) (dropout : value)
| MHA (dim heads dim_head : Z) (dropout : value)
| LayerScale (features : Z) (eps : value)
| FeedForward (dim mult : Z) (dropout : value)
| Boom (dim mult : Z) (dropout : value)
| SHABlock (dim : Z) (attn ff : layer)
| Permute (dims : value)
| LSTM (reverse : value) (rnn : torch_LSTM).

(** [type(layer)]. *)
Definition class_of (l : layer) : layer_class :=
  match l with
  | ReLU _ => CReLU | Tanh => CTanh | Swish _ => CSwish
  | Serial _ => CSerial | Reverse _ => CReverse
  | Convolution _ _ => CConvolution
  | LinearCRFEncoder _ _ _ _ _ _ => CLinearCRFEncoder
  | SHA _ _ => CSHA | MHA _ _ _ _ => CMHA | LayerScale _ _ => CLayerScale
  | FeedForward _ _ _ => CFeedForward | Boom _ _ _ => CBoom
  | SHABlock _ _ _ => CSHABlock | Permute _ => CPermute | LSTM _ _ => CLSTM
  end.

(** The state of the registry once [nn.py] has been imported: the
    [register] calls of the module, in source order. *)
Definition registered : Registry.state (C := layer_class) :=
  Registry.register_all dunder_name
    [CReLU; CTanh; CSwish; CSerial; CReverse; CConvolution;
     CLinearCRFEncoder; CSHA; CMHA; CLayerScale; CFeedForward; CBoom;
     CSHABlock; CPermute; CLSTM]
    Registry.empty.

(** The global [layers] dictionary. *)
Definition layers : gmap string layer_class := Registry.layers registered.

Arguments registered : simpl never.
Arguments layers : simpl never.

(** ** Exceptions and results *)

(** An argument handed to a constructor by [from_dict]: a document value,
    or, under the key [sublayers], an already built layer or list of
    layers. *)
Inductive arg : Type :=
| AVal (v : value)
| ALayer (l : layer)
| ALayers (ls : list layer).

(** What an exception carries. The message of the exception raised by
    [from_dict] is the f-string
    [f'Failed to build layer of type {typ} with args {model_dict}'],
    kept as its two interpolated parts. *)
Inductive detail : Type :=
| DKey (k : value)
| DUnexpectedKeyword (callee : string) (kw : string)
| DMissingArguments (callee : string) (names : list string)
| DNoAttribute (type_name attr : string)
| DUnhashable (v : value)
| DText (msg : string)
| DFailedToBuild (typ : layer_class) (args : list (string * arg)).

(** A raised exception: the name of its class, its content and its
    [__cause__] (set by [raise ... from e]). *)
Inductive exn : Type :=
| Exn (cls : string) (d : detail) (cause : option exn).

Definition exn_class (e : exn) : string := let 'Exn c _ _ := e in c.
Definition exn_detail (e : exn) : detail := let 'Exn _ d _ := e in d.
Definition exn_cause (e : exn) : option exn := let 'Exn _ _ c := e in c.

(** [isinstance(e, Exception)]: every built-in exception class but the
    three that derive from [BaseException] directly. *)
Definition is_Exception (e : exn) : bool :=
  negb (existsb (String.eqb (exn_class e))
          ["KeyboardInterrupt"; "SystemExit"; "GeneratorExit"]).

Inductive outcome (A : Type) : Type :=
| Ret (a : A)
| Raise (e : exn).
Arguments Ret {A} a.
Arguments Raise {A} e.

Definition obind {A B} (m : outcome A) (k : A -> outcome B) : outcome B :=
  match m with
  | Ret a => k a
  | Raise e => Raise e
  end.

Notation "'let*' x ':=' m 'in' k" := (obind m (fun x => k))
  (at level 10, x name, m at level 99, k at level 200, only parsing).

Definition KeyError (k : value) : exn := Exn "KeyError" (DKey k) None.
Definition TypeError (d : detail) : exn := Exn "TypeError" d None.
Definition AttributeError (ty attr : string) : exn :=
  Exn "AttributeError" (DNoAttribute ty attr) None.

(** ** Calling a class with keyword arguments *)

(** A parameter list: names with their defaults ([None] for a required
    parameter). *)
Definition signature : Type := list (string * option value).

(** Python's binding of a call [callee] with keyword arguments only: the first keyword that
    names no parameter is a [TypeError], then the required parameters left
    without a value are a [TypeError]; the result lists the parameters in
    signature order. *)
Definition unexpected_keyword (sig : signature) (kwargs : list (string * arg)) : option string :=
  head (List.filter (fun k => negb (dict_mem k sig)) (dict_keys kwargs)).

Definition missing_arguments (sig : signature) (kwargs : list (string * arg)) : list string :=
  dict_keys (List.filter (fun p => match snd p with
                              | None => negb (dict_mem (fst p) kwargs)
                              | Some _ => false
                              end) sig).

Definition bound_value (kwargs : list (string * arg)) (p : string * option value) : string * arg :=
  (fst p, match dict_get (fst p) kwargs with
          | Some a => a
          | None => match snd p with Some v => AVal v | None => AVal VNone end
          end).

Definition bind_arguments (callee : string) (sig : signature) (kwargs : list (string * arg))
  : outcome (list (string * arg)) :=
  match unexpected_keyword sig kwargs with
  | Some k => Raise (TypeError (DUnexpectedKeyword callee k))
  | None =>
      match missing_arguments sig kwargs with
      | [] => Ret (map (bound_value kwargs) sig)
      | names => Raise (TypeError (DMissingArguments callee names))
      end
  end.

(** The value bound to a parameter. *)
Definition param (name : string) (env : list (string * arg)) : arg :=
  match dict_get name env with Some a => a | None => AVal VNone end.

(** A size handed to a torch primitive must be a Python int. Range checks
    made by the primitives themselves (torch is an external collaborator)
    are not part of the model. *)
Definition as_int (what : string) (a : arg) : outcome Z :=
  match a with
  | AVal (VInt n) => Ret n
  | _ => Raise (TypeError (DText what))
  end.

(** A plain value; a module passed where a hyperparameter is expected is
    rejected by the primitive that receives it. *)
Definition as_value (what : string) (a : arg) : outcome value :=
  match a with
  | AVal v => Ret v
  | _ => Raise (TypeError (DText what))
  end.

Definition float_0 : value := VFloat 0.                       (* 0. *)
Definition float_1e_5 : value := VFloat 4532020583610935537.  (* 1e-5 *)

(** The signatures of the registered classes ([__init__] without [self]).
    [ReLU], [Tanh] and [SiLU] are torch's: [inplace=False] for the first
    and the last, no parameter for [Tanh]. *)
Definition signature_of (c : layer_class) : signature :=
  match c with
  | CReLU => [("inplace", Some (VBool false))]
  | CTanh => []
  | CSwish => [("inplace", Some (VBool false))]
  | CSerial => [("sublayers", None)]
  | CReverse => [("sublayers", None)]
  | CConvolution =>
      [("insize", None); ("size", None); ("winlen", None);
       ("stride", Some (VInt 1)); ("padding", Some (VInt 0));
       ("bias", Some (VBool true)); ("activation", Some VNone)]
  | CLinearCRFEncoder =>
      [("insize", None); ("n_base", None); ("state_len", None);
       ("bias", Some (VBool true)); ("scale", Some VNone);
       ("activation", Some VNone); ("blank_score", Some VNone)]
  | CSHA => [("dim", None); ("dropout", Some float_0)]
  | CMHA => [("dim", None); ("heads", Some (VInt 4)); ("dim_head", Some (VInt 64));
             ("dropout", Some float_0)]
  | CLayerScale => [("features", None); ("eps", Some float_1e_5)]
  | CFeedForward => [("dim", None); ("mult", Some (VInt 4)); ("dropout", Some float_0)]
  | CBoom => [("dim", None); ("mult", Some (VInt 4)); ("dropout", Some float_0)]
  | CSHABlock =>
      [("dim", None); ("attn_dropout", Some float_0); ("ff_dropout", Some float_0);
       ("num_attn_heads", Some (VInt 1)); ("ff_mult", Some (VInt 4));
       ("boom", Some (VBool false))]
  | CPermute => [("dims", None)]
  | CLSTM => [("size", None); ("insize", None); ("bias", Some (VBool true));
              ("reverse", Some (VBool false))]
  end.

(** *** torch primitives *)

(** [torch.nn.Conv1d(in_channels, out_channels, kernel_size, stride=,
    padding=, bias=)]. *)
Definition torch_nn_Conv1d (in_channels out_channels kernel_size stride padding bias : arg)
  : outcome Conv1d :=
  let* i := as_int "in_channels" in_channels in
  let* o := as_int "out_channels" out_channels in
  let* k := as_int "kernel_size" kernel_size in
  let* s := as_int "stride" stride in
  let* p := as_int "padding" padding in
  let* b := as_value "bias" bias in
  Ret (mkConv1d i o k s p (truthy b)).

(** [torch.nn.Linear(in_features, out_features, bias=)]. *)
Definition torch_nn_Linear (in_features : arg) (out_features : Z) (bias : arg)
  : outcome Linear :=
  let* i := as_int "in_features" in_features in
  let* b := as_value "bias" bias in
  Ret (mkLinear i out_features (truthy b)).

(** [torch.nn.LSTM(input_size, hidden_size, bias=, bidirectional=)]: the
    first positional argument is the input size, the second the hidden
    size. *)
Definition torch_nn_LSTM (input_size hidden_size : arg) (bias : arg) (bidirectional : bool)
  : outcome torch_LSTM :=
  let* i := as_int "input_size" input_size in
  let* h := as_int "hidden_size" hidden_size in
  let* b := as_value "bias" bias in
  Ret (mkLSTM i h b bidirectional).

(** Python's [b ** e] on ints as far as it stays an int: a negative
    exponent gives a float (or [ZeroDivisionError] for base 0), which
    [torch.nn.Linear] does not take as a size. *)
Definition int_pow (b e : Z) : outcome Z :=
  if e <? 0 then
    if b =? 0 then Raise (Exn "ZeroDivisionError" (DText "0 to a negative power") None)
    else Raise (TypeError (DText "out_features"))
  else Ret (b ^ e).

(** [dim ** -0.5]: the scale of an attention block; zero has no negative
    power. The float itself is not kept. *)
Definition inv_sqrt_defined (dim : Z) : outcome unit :=
  if dim =? 0 then Raise (Exn "ZeroDivisionError" (DText "0 to a negative power") None)
  else Ret tt.

(** ** The constructors of the registered classes *)

(** [hash(v)] is defined: lists and dictionaries cannot be dictionary
    keys. *)
Definition hashable (v : value) : bool :=
  match v with
  | VList _ | VDict _ => false
  | _ => true
  end.

(** [layers.get(activation, lambda: activation)()]: a registered name is
    replaced by an instance built without arguments, anything else is kept
    as it is. [call0] is the call of a class without arguments. *)
Definition get_activation (call0 : layer_class -> outcome layer) (activation : arg)
  : outcome (layer + value) :=
  match activation with
  | AVal v =>
      if hashable v then
        match v with
        | VStr s =>
            match layers !! s with
            | Some c => let* l := call0 c in Ret (inl l)
            | None => Ret (inr v)
            end
        | _ => Ret (inr v)
        end
      else Raise (TypeError (DUnhashable v))
  | ALayer l => Ret (inl l)
  | ALayers _ => Raise (TypeError (DText "unhashable type: 'list'"))
  end.

(** [Serial.__init__]: [super().__init__( *sublayers)]. Unpacking a
    [Serial] yields its modules; every unpacked element must be a module.
    (torch also lets [None] stand for a child; a raw list holding [None]
    can only come from a direct call, never from [from_dict], and is
    rendered as the rejection of a non-module child.) *)
Definition Serial_init (sublayers : arg) : outcome layer :=
  match sublayers with
  | ALayers ls => Ret (Serial ls)
  | ALayer (Serial ms) => Ret (Serial ms)
  | ALayer _ => Raise (TypeError (DText "argument after * must be an iterable"))
  | AVal (VList []) | AVal (VDict []) | AVal (VStr "") => Ret (Serial [])
  | AVal (VList _) | AVal (VDict _) | AVal (VStr _) | AVal (VTensor _) =>
      Raise (TypeError (DText "is not a Module subclass"))
  | AVal _ => Raise (TypeError (DText "argument after * must be an iterable"))
  end.

(** [[
    self.layer = Serial(sublayers) if isinstance(sublayers, list) else sublayers
    ]] *)
Definition Reverse_init (sublayers : arg) : outcome layer :=
  match sublayers with
  | ALayers _ | AVal (VList _) =>
      let* s := Serial_init sublayers in Ret (Reverse (inl s))
  | ALayer l => Ret (Reverse (inl l))
  | AVal v => Ret (Reverse (inr v))
  end.

Section Init.
Variable call0 : layer_class -> outcome layer.

(** [[
    self.conv = torch.nn.Conv1d(insize, size, winlen, stride=stride, padding=padding, bias=bias)
    self.activation = layers.get(activation, lambda: activation)()
    ]] *)
Definition Convolution_init (insize size winlen stride padding bias activation : arg)
  : outcome layer :=
  let* conv := torch_nn_Conv1d insize size winlen stride padding bias in
  let* act := get_activation call0 activation in
  Ret (Convolution conv act).

(** [[
    size = (n_base + 1) * n_base**state_len if blank_score is None else n_base**(state_len + 1)
    self.linear = torch.nn.Linear(insize, size, bias=bias)
    self.activation = layers.get(activation, lambda: activation)()
    self.scale = scale
    ]] *)
Definition LinearCRFEncoder_init (insize n_base state_len bias scale activation blank_score : arg)
  : outcome layer :=
  let* nb := as_int "n_base" n_base in
  let* sl := as_int "state_len" state_len in
  let* bs := as_value "blank_score" blank_score in
  let* size := match bs with
               | VNone => let* p := int_pow nb sl in Ret ((nb + 1) * p)
               | _ => int_pow nb (sl + 1)
               end in
  let* linear := torch_nn_Linear insize size bias in
  let* act := get_activation call0 activation in
  let* sc := as_value "scale" scale in
  Ret (LinearCRFEncoder nb sl bs linear act sc).

End Init.

(** [SHA.__init__(dim, dropout)]: [dim ** -0.5], two [dim]-sized
    primitives, a dropout and a [LayerScale(dim)]. *)
Definition SHA_init (dim dropout : arg) : outcome layer :=
  let* d := as_int "dim" dim in
  let* _ := inv_sqrt_defined d in
  let* p := as_value "dropout" dropout in
  Ret (SHA d p).

(** [MHA.__init__(dim, heads, dim_head, dropout)]:
    [inner_dim = heads * dim_head], [dim_head ** -0.5]. *)
Definition MHA_init (dim heads dim_head dropout : arg) : outcome layer :=
  let* h := as_int "heads" heads in
  let* dh := as_int "dim_head" dim_head in
  let* _ := inv_sqrt_defined dh in
  let* d := as_int "dim" dim in
  let* p := as_value "dropout" dropout in
  Ret (MHA d h dh p).

(** [LayerScale.__init__(features, eps)]:
    [torch.zeros(1, 1, features).fill_(eps)]. *)
Definition LayerScale_init (features eps : arg) : outcome layer :=
  let* f := as_int "features" features in
  let* e := as_value "eps" eps in
  Ret (LayerScale f e).

Definition FeedForward_init (dim mult dropout : arg) : outcome layer :=
  let* d := as_int "dim" dim in
  let* m := as_int "mult" mult in
  let* p := as_value "dropout" dropout in
  Ret (FeedForward d m p).

Definition Boom_init (dim mult dropout : arg) : outcome layer :=
  let* d := as_int "dim" dim in
  let* m := as_int "mult" mult in
  let* p := as_value "dropout" dropout in
  Ret (Boom d m p).

(** [[
    is_multiheaded = num_attn_heads > 1
    if is_multiheaded:
        self.attn = MHA(dim=dim, dropout=attn_dropout, heads=num_attn_heads)
    else:
        self.attn = SHA(dim=dim, dropout=attn_dropout)
    if boom:
        self.ff = Boom(dim=dim, dropout=ff_dropout, mult=ff_mult)
    else:
        self.ff = FeedForward(dim=dim, dropout=ff_dropout, mult=ff_mult)
    ]] *)
Definition SHABlock_init (dim attn_dropout ff_dropout num_attn_heads ff_mult boom : arg)
  : outcome layer :=
  let* d := as_int "dim" dim in
  let* n := as_int "num_attn_heads" num_attn_heads in
  let* attn := if 1 <? n
               then MHA_init dim num_attn_heads (AVal (VInt 64)) attn_dropout
               else SHA_init dim attn_dropout in
  let* b := as_value "boom" boom in
  let* ff := if truthy b
             then Boom_init dim ff_mult ff_dropout
             else FeedForward_init dim ff_mult ff_dropout in
  Ret (SHABlock d attn ff).

Definition Permute_init (dims : arg) : outcome layer :=
  let* d := as_value "dims" dims in Ret (Permute d).

(** [RNNWrapper.__init__(rnn_type, *args, reverse=, bidirectional=,
    **kwargs)] with [rnn_type = torch.nn.LSTM]: the positional arguments
    are forwarded in order, [rnn_type( *args, bidirectional=bidirectional,
    **kwargs)]. The weight initialisations that follow do not touch the
    structure. *)
Definition RNNWrapper_init (arg0 arg1 : arg) (reverse : arg) (bidirectional : bool) (bias : arg)
  : outcome (value * torch_LSTM) :=
  let* r := as_value "reverse" reverse in
  if truthy r && bidirectional then
    Raise (Exn "Exception"
             (DText "'reverse' and 'bidirectional' should not both be set to True") None)
  else
    let* rnn := torch_nn_LSTM arg0 arg1 bias bidirectional in
    Ret (r, rnn).

(** [[
    def __init__(self, size, insize, bias=True, reverse=False):
        super().__init__(torch.nn.LSTM, size, insize, bias=bias, reverse=reverse)
    ]] *)
Definition LSTM_init (size insize bias reverse : arg) : outcome layer :=
  let* w := RNNWrapper_init size insize reverse false bias in
  Ret (LSTM (fst w) (snd w)).

(** The body of [__init__] of each class on its bound parameters. *)
Definition init (call0 : layer_class -> outcome layer) (c : layer_class)
  (env : list (string * arg)) : outcome layer :=
  let p name := param name env in
  match c with
  | CReLU => let* v := as_value "inplace" (p "inplace") in Ret (ReLU v)
  | CTanh => Ret Tanh
  | CSwish => let* v := as_value "inplace" (p "inplace") in Ret (Swish v)
  | CSerial => Serial_init (p "sublayers")
  | CReverse => Reverse_init (p "sublayers")
  | CConvolution =>
      Convolution_init call0 (p "insize") (p "size") (p "winlen") (p "stride")
        (p "padding") (p "bias") (p "activation")
  | CLinearCRFEncoder =>
      LinearCRFEncoder_init call0 (p "insize") (p "n_base") (p "state_len") (p "bias")
        (p "scale") (p "activation") (p "blank_score")
  | CSHA => SHA_init (p "dim") (p "dropout")
  | CMHA => MHA_init (p "dim") (p "heads") (p "dim_head") (p "dropout")
  | CLayerScale => LayerScale_init (p "features") (p "eps")
  | CFeedForward => FeedForward_init (p "dim") (p "mult") (p "dropout")
  | CBoom => Boom_init (p "dim") (p "mult") (p "dropout")
  | CSHABlock =>
      SHABlock_init (p "dim") (p "attn_dropout") (p "ff_dropout") (p "num_attn_heads")
        (p "ff_mult") (p "boom")
  | CPermute => Permute_init (p "dims")
  | CLSTM => LSTM_init (p "size") (p "insize") (p "bias") (p "reverse")
  end.

Definition call_with (call0 : layer_class -> outcome layer) (c : layer_class)
  (kwargs : list (string * arg)) : outcome layer :=
  let* env := bind_arguments (dunder_name c) (signature_of c) kwargs in
  init call0 c env.

(** [c()]: a call without arguments. A class that reaches its activation
    lookup has required parameters, so the inner lookup is never run. *)
Definition call0 (c : layer_class) : outcome layer :=
  call_with (fun _ => Raise (TypeError (DText "no arguments"))) c [].

(** [typ( **kwargs)]. *)
Definition call (typ : layer_class) (kwargs : list (string * arg)) : outcome layer :=
  call_with call0 typ kwargs.

(** ** Serialisation: [to_dict] ([nn.py], lines 353-356) *)

(** [layer.name]: the class attribute set by [register]. *)
Definition name_of (c : layer_class) : option string :=
  Registry.name_attr registered c.

Definition layer_name (l : layer) : outcome string :=
  match name_of (class_of l) with
  | Some n => Ret n
  | None => Raise (AttributeError (dunder_name (class_of l)) "name")
  end.

(** [bool(module)]: a module is true unless it has a length of zero, which
    only the sequential container defines. *)
Definition truthy_layer (l : layer) : bool :=
  match l with
  | Serial [] => false
  | _ => true
  end.

(** [self.activation.name if self.activation else None]. *)
Definition activation_name (a : layer + value) : outcome value :=
  match a with
  | inl l => if truthy_layer l then let* n := layer_name l in Ret (VStr n) else Ret VNone
  | inr v => if truthy v then Raise (AttributeError "object" "name") else Ret VNone
  end.

(** [{'type': name, **d}]. *)
Definition dict_update {V} (base d : list (string * V)) : list (string * V) :=
  fold_left (fun acc kv => dict_set (fst kv) (snd kv) acc) d base.

Definition Convolution_to_dict (conv : Conv1d) (activation : layer + value)
  (include_weights : bool) : outcome (list (string * value)) :=
  let* act := activation_name activation in
  let res :=
    [("insize", VInt (in_channels conv));
     ("size", VInt (out_channels conv));
     ("bias", VBool (conv_has_bias conv));
     ("winlen", VInt (kernel_size conv));
     ("stride", VInt (stride conv));
     ("padding", VInt (padding conv));
     ("activation", act)] in
  Ret (if include_weights then
         dict_set "params"
           (VDict [("W", VTensor [out_channels conv; in_channels conv; kernel_size conv]);
                   ("b", if conv_has_bias conv then VTensor [out_channels conv]
                         else VList [])]) res
       else res).

Definition LinearCRFEncoder_to_dict (n_base state_len : Z) (blank_score : value)
  (linear : Linear) (activation : layer + value) (scale : value)
  (include_weights : bool) : outcome (list (string * value)) :=
  let* act := activation_name activation in
  let res :=
    [("insize", VInt (in_features linear));
     ("n_base", VInt n_base);
     ("state_len", VInt state_len);
     ("bias", VBool (linear_has_bias linear));
     ("scale", scale);
     ("activation", act);
     ("blank_score", blank_score)] in
  Ret (if include_weights then
         dict_set "params"
           (VDict [("W", VTensor [out_features linear; in_features linear]);
                   ("b", if linear_has_bias linear then VTensor [out_features linear]
                         else VList [])]) res
       else res).

(** The bias tensors of the recurrent primitive exist only when it was
    built with a true [bias]. *)
Definition LSTM_to_dict (reverse : value) (rnn : torch_LSTM) (include_weights : bool)
  : outcome (list (string * value)) :=
  let res :=
    [("size", VInt (hidden_size rnn));
     ("insize", VInt (input_size rnn));
     ("bias", rnn_bias rnn);
     ("reverse", reverse)] in
  if include_weights then
    if truthy (rnn_bias rnn) then
      Ret (dict_set "params"
             (VDict [("iW", VTensor [4; hidden_size rnn; input_size rnn]);
                     ("sW", VTensor [4; hidden_size rnn; hidden_size rnn]);
                     ("b", VTensor [4; hidden_size rnn])]) res)
    else Raise (AttributeError "LSTM" "bias_ih_l0")
  else Ret res.

(** [[
    def to_dict(layer, include_weights=False):
        if hasattr(layer, 'to_dict'):
            return {'type': layer.name, **layer.to_dict(include_weights)}
        return {'type': layer.name}
    ]]
    with the [to_dict] methods of [Serial], [Reverse], [Convolution],
    [LinearCRFEncoder], [Permute] and [LSTM]; the other classes define
    none. *)
Fixpoint to_dict (node : layer) (include_weights : bool) {struct node} : outcome value :=
  let each :=
    fix each (ms : list layer) : outcome (list value) :=
      match ms with
      | [] => Ret []
      | m :: ms' =>
          let* d := to_dict m include_weights in
          let* ds := each ms' in
          Ret (d :: ds)
      end in
  let method : option (outcome (list (string * value))) :=
    match node with
    | Serial ms =>
        Some (let* ds := each ms in Ret [("sublayers", VList ds)])
    | Reverse inner =>
        Some (match inner with
              | inl (Serial ms) => let* ds := each ms in Ret [("sublayers", VList ds)]
              | inl l => let* d := to_dict l include_weights in Ret [("sublayers", d)]
              | inr v => Raise (AttributeError "object" "name")
              end)
    | Convolution conv act => Some (Convolution_to_dict conv act include_weights)
    | LinearCRFEncoder nb sl bs linear act sc =>
        Some (LinearCRFEncoder_to_dict nb sl bs linear act sc include_weights)
    | Permute dims => Some (Ret [("dims", dims)])
    | LSTM reverse rnn => Some (LSTM_to_dict reverse rnn include_weights)
    | _ => None
    end in
  match method with
  | Some m =>
      let* name := layer_name node in
      let* d := m in
      Ret (VDict (dict_update [("type", VStr name)] d))
  | None =>
      let* name := layer_name node in
      Ret (VDict [("type", VStr name)])
  end.

(** ** Deserialisation: [from_dict] ([nn.py], lines 359-374) *)

(** [from_dict] is run in a monad that, besides raising, records the
    constructor calls [typ( **model_dict)] in the order they are made. *)
Inductive event : Type :=
| Called (typ : layer_class) (kwargs : list (string * arg)).

Definition M (A : Type) : Type := list event * outcome A.

Definition mret {A} (a : A) : M A := ([], Ret a).
Definition mraise {A} (e : exn) : M A := ([], Raise e).
Definition mbind {A B} (m : M A) (k : A -> M B) : M B :=
  match m with
  | (log, Ret a) => let '(log', r) := k a in (app log log', r)
  | (log, Raise e) => (log, Raise e)
  end.
Definition mlift {A} (log : list event) (r : outcome A) : M A := (log, r).

Notation "'let+' x ':=' m 'in' k" := (mbind m (fun x => k))
  (at level 10, x name, m at level 99, k at level 200, only parsing).

(** [layer_types[type_name]]. *)
Definition lookup_type (layer_types : gmap string layer_class) (type_name : value)
  : outcome layer_class :=
  if hashable type_name then
    match type_name with
    | VStr s =>
        match layer_types !! s with
        | Some typ => Ret typ
        | None => Raise (KeyError type_name)
        end
    | _ => Raise (KeyError type_name)
    end
  else Raise (TypeError (DUnhashable type_name)).

(** [[
    try:
        layer = typ( **model_dict)
    except Exception as e:
        raise Exception(f'Failed to build layer of type {typ} with args {model_dict}') from e
    ]] *)
Definition build (typ : layer_class) (model_dict : list (string * arg)) : M layer :=
  mlift [Called typ model_dict]
    match call typ model_dict with
    | Ret layer => Ret layer
    | Raise e =>
        if is_Exception e
        then Raise (Exn "Exception" (DFailedToBuild typ model_dict) (Some e))
        else Raise e
    end.

(** [[
    if 'sublayers' in model_dict:
        sublayers = model_dict['sublayers']
        model_dict['sublayers'] = ...
    ]]
    on the entries [rest] left by the [pop]: the keyword arguments the
    constructor will receive. [sub] is the deserialisation of the value
    under ['sublayers'], when the key is present. *)
Definition with_sublayers (rest : list (string * value)) (sub : option (M arg))
  : M (list (string * arg)) :=
  let model_dict := map (fun kv => (fst kv, AVal (snd kv))) rest in
  match sub with
  | Some m =>
      if dict_mem "sublayers" rest
      then let+ a := m in mret (dict_set "sublayers" a model_dict)
      else mret model_dict
  | None => mret model_dict
  end.

(** The part of [from_dict] that follows [model_dict = model_dict.copy()],
    on the entries [kvs] of the copy. *)
Definition from_dict_body (layer_types : gmap string layer_class)
  (kvs : list (string * value)) (sub : option (M arg)) : M layer :=
  match dict_pop "type" kvs with
  | None => mraise (KeyError (VStr "type"))
  | Some (type_name, rest) =>
      let+ typ := mlift [] (lookup_type layer_types type_name) in
      let+ model_dict := with_sublayers rest sub in
      build typ model_dict
  end.

(** [[
    def from_dict(model_dict, layer_types=None):
        model_dict = model_dict.copy()
        if layer_types is None:
            layer_types = layers
        type_name = model_dict.pop('type')
        typ = layer_types[type_name]
        if 'sublayers' in model_dict:
            sublayers = model_dict['sublayers']
            model_dict['sublayers'] = [
                from_dict(x, layer_types) for x in sublayers
            ] if isinstance(sublayers, list) else from_dict(sublayers, layer_types)
        ...
    ]]
    A document is an immutable tree here; the copy and the mutation of the
    copy are modelled in [Store] below. Only dictionaries and lists have a
    [copy] method, and a list has no [pop('type')]. *)
Fixpoint from_dict_in (layer_types : gmap string layer_class) (model_dict : value)
  {struct model_dict} : M layer :=
  match model_dict with
  | VDict kvs =>
      let sub :=
        (fix find (kvs : list (string * value)) : option (M arg) :=
           match kvs with
           | [] => None
           | (k, v) :: kvs' =>
               if String.eqb k "sublayers" then
                 Some match v with
                      | VList xs =>
                          let+ ls :=
                            (fix each (xs : list value) : M (list layer) :=
                               match xs with
                               | [] => mret []
                               | x :: xs' =>
                                   let+ l := from_dict_in layer_types x in
                                   let+ ls := each xs' in
                                   mret (l :: ls)
                               end) xs in
                          mret (ALayers ls)
                      | _ =>
                          let+ l := from_dict_in layer_types v in
                          mret (ALayer l)
                      end
               else find kvs'
           end) kvs in
      from_dict_body layer_types kvs sub
  | VList _ => mraise (TypeError (DText "'str' object cannot be interpreted as an integer"))
  | _ => mraise (AttributeError "object" "copy")
  end.

Definition from_dict (model_dict : value) (layer_types : option (gmap string layer_class))
  : M layer :=
  from_dict_in (match layer_types with Some t => t | None => layers end) model_dict.

(** ** [from_dict] on a store of mutable objects *)

(** Python dictionaries and lists are mutable objects reached through
    references. This second rendering of [from_dict] keeps them in a store,
    so that [model_dict.copy()], [model_dict.pop('type')] and the
    assignment to [model_dict['sublayers']] are the mutations the source
    performs on the objects it performs them on. *)
Module Store.

Definition loc : Type := positive.

(** A value: an immediate, a reference to a dictionary or list in the
    store, or a built layer. *)
Inductive hval (L : Type) : Type :=
| HNone
| HBool (b : bool)
| HInt (n : Z)
| HFloat (bits : Z)
| HStr (s : string)
| HRef (l : loc)
| HLayer (layer : L).
Arguments HNone {L}.
Arguments HBool {L} b.
Arguments HInt {L} n.
Arguments HFloat {L} bits.
Arguments HStr {L} s.
Arguments HRef {L} l.
Arguments HLayer {L} layer.

Inductive obj (L : Type) : Type :=
| ODict (kvs : list (string * hval L))
| OList (xs : list (hval L)).
Arguments ODict {L} kvs.
Arguments OList {L} xs.

(** Exceptions, by class name and cause. *)
Inductive error : Type :=
| Error (cls : string) (cause : option error).

Definition error_is_Exception (e : error) : bool :=
  let 'Error c _ := e in
  negb (existsb (String.eqb c) ["KeyboardInterrupt"; "SystemExit"; "GeneratorExit"]).

(** The result of a run: a value, a raised exception, or the recursion
    budget of the model exhausted. *)
Inductive result (A : Type) : Type :=
| Done (a : A)
| Failed (e : error)
| OutOfFuel.
Arguments Done {A} a.
Arguments Failed {A} e.
Arguments OutOfFuel {A}.

Section FromDict.

(** The layer objects and the classes that build them. A constructor reads
    its keyword arguments (and, through them, the store); it has no access
    to the dictionary they were unpacked from. *)
Context {L T : Type}.
Variable construct : gmap loc (obj L) -> T -> list (string * hval L) -> L + error.

(** A computation on the store. *)
Definition run (A : Type) : Type := gmap loc (obj L) -> gmap loc (obj L) * result A.

Definition rret {A} (a : A) : run A := fun h => (h, Done a).
Definition rfail {A} (e : error) : run A := fun h => (h, Failed e).
Definition rbind {A B} (m : run A) (k : A -> run B) : run B :=
  fun h =>
    match m h with
    | (h', Done a) => k a h'
    | (h', Failed e) => (h', Failed e)
    | (h', OutOfFuel) => (h', OutOfFuel)
    end.

Notation "'let!' x ':=' m 'in' k" := (rbind m (fun x => k))
  (at level 10, x name, m at level 99, k at level 200, only parsing).

(** Allocation of a new object. *)
Definition alloc (o : obj L) : run loc :=
  fun h => let l := fresh (dom h) in (<[l := o]> h, Done l).

Definition read (l : loc) : run (option (obj L)) :=
  fun h => (h, Done (h !! l)).

Definition write (l : loc) (o : obj L) : run unit :=
  fun h => (<[l := o]> h, Done tt).

(** [model_dict.copy()]: a new object with the same entries. Immediates
    and modules have no [copy]. *)
Definition copy (v : hval L) : run loc :=
  match v with
  | HRef l =>
      let! o := read l in
      match o with
      | Some o => alloc o
      | None => rfail (Error "ReferenceError" None)
      end
  | _ => rfail (Error "AttributeError" None)
  end.

(** [model_dict.pop('type')] on the object at [l]. *)
Definition pop_type (l : loc) : run (hval L) :=
  let! o := read l in
  match o with
  | Some (ODict kvs) =>
      match dict_pop "type" kvs with
      | Some (v, rest) => let! _ := write l (ODict rest) in rret v
      | None => rfail (Error "KeyError" None)
      end
  | _ => rfail (Error "TypeError" None)
  end.

(** [layer_types[type_name]]. *)
Definition lookup_type (layer_types : gmap string T) (type_name : hval L) : run T :=
  match type_name with
  | HStr s =>
      match layer_types !! s with
      | Some typ => rret typ
      | None => rfail (Error "KeyError" None)
      end
  | HRef _ => rfail (Error "TypeError" None)
  | _ => rfail (Error "KeyError" None)
  end.

(** The entries of the dictionary at [l]. *)
Definition entries (l : loc) : run (list (string * hval L)) :=
  let! o := read l in
  match o with
  | Some (ODict kvs) => rret kvs
  | _ => rfail (Error "TypeError" None)
  end.

(** [model_dict['sublayers'] = v] on the object at [l]. *)
Definition set_sublayers (l : loc) (v : hval L) : run unit :=
  let! kvs := entries l in
  write l (ODict (dict_set "sublayers" v kvs)).

(** The [try] block: [typ( **model_dict)], a failure being chained into a
    new [Exception]. *)
Definition build (typ : T) (l : loc) : run L :=
  let! kwargs := entries l in
  fun h =>
    match construct h typ kwargs with
    | inl layer => (h, Done layer)
    | inr e =>
        if error_is_Exception e
        then (h, Failed (Error "Exception" (Some e)))
        else (h, Failed e)
    end.

(** [[from_dict(x, layer_types) for x in sublayers]] on the list object at
    [s], from index [i] on: the list is read again at every step, as the
    iteration over a Python list does. [n] bounds the number of steps. *)
Fixpoint comprehension (rec : hval L -> run L) (s : loc) (n i : nat)
  : run (list (hval L)) :=
  match n with
  | O => fun h => (h, OutOfFuel)
  | S n' =>
      let! o := read s in
      match o with
      | Some (OList xs) =>
          match xs !! i with
          | Some x =>
              let! layer := rec x in
              let! rest := comprehension rec s n' (S i) in
              rret (HLayer layer :: rest)
          | None => rret []
          end
      | _ => rfail (Error "TypeError" None)
      end
  end.

(** [from_dict], with a bound on the depth of the recursion. *)
Fixpoint from_dict (fuel : nat) (layer_types : gmap string T) (model_dict : hval L)
  {struct fuel} : run L :=
  match fuel with
  | O => fun h => (h, OutOfFuel)
  | S fuel' =>
      let! model_dict := copy model_dict in
      let! type_name := pop_type model_dict in
      let! typ := lookup_type layer_types type_name in
      let! kvs := entries model_dict in
      let! _ :=
        match dict_get "sublayers" kvs with
        | Some sublayers =>
            let! o := match sublayers with
                      | HRef s => read s
                      | _ => rret None
                      end in
            match sublayers, o with
            | HRef s, Some (OList xs) =>
                let! ls := comprehension (from_dict fuel' layer_types) s
                             (S (length xs)) 0%nat in
                let! built := alloc (OList ls) in
                set_sublayers model_dict (HRef built)
            | _, _ =>
                let! layer := from_dict fuel' layer_types sublayers in
                set_sublayers model_dict (HLayer layer)
            end
        | None => rret tt
        end in
      build typ model_dict
  end.

End FromDict.

(** *** The constructors of [nn.py] on the store *)

(** The plain value behind a stored one, read to a bounded depth. *)
Fixpoint value_of (depth : nat) (h : gmap loc (obj layer)) (v : hval layer) : value :=
  match v with
  | HNone => VNone
  | HBool b => VBool b
  | HInt n => VInt n
  | HFloat bits => VFloat bits
  | HStr s => VStr s
  | HLayer _ => VNone
  | HRef l =>
      match depth with
      | O => VNone
      | S depth' =>
          match h !! l with
          | Some (OList xs) => VList (map (value_of depth' h) xs)
          | Some (ODict kvs) =>
              VDict (map (fun kv => (fst kv, value_of depth' h (snd kv))) kvs)
          | None => VNone
          end
      end
  end.

Fixpoint layers_of (xs : list (hval layer)) : option (list layer) :=
  match xs with
  | [] => Some []
  | HLayer n :: xs' => option_map (cons n) (layers_of xs')
  | _ :: _ => None
  end.

(** A keyword argument as the constructors of [nn.py] take it: a built
    layer, a non-empty list of built layers, or a plain value. *)
Definition argument_of (h : gmap loc (obj layer)) (v : hval layer) : arg :=
  match v with
  | HLayer n => ALayer n
  | HRef l =>
      match h !! l with
      | Some (OList (x :: xs)) =>
          match layers_of (x :: xs) with
          | Some ls => ALayers ls
          | None => AVal (value_of 64 h v)
          end
      | _ => AVal (value_of 64 h v)
      end
  | _ => AVal (value_of 64 h v)
  end.

Fixpoint error_of (e : exn) : error :=
  match e with
  | Exn cls _ cause => Error cls (option_map error_of cause)
  end.

(** [typ( **model_dict)] for the classes of the registry. *)
Definition construct (h : gmap loc (obj layer)) (typ : layer_class)
  (kwargs : list (string * hval layer)) : layer + error :=
  match call typ (map (fun kv => (fst kv, argument_of h (snd kv))) kwargs) with
  | Ret layer => inl layer
  | Raise e => inr (error_of e)
  end.

End Store.

(** ** Strings, continued: the operations [training.py] uses *)

Definition is_digit (c : ascii) : bool :=
  let n := N_of_ascii c in ((48 <=? n) && (n <=? 57))%N.

Definition newline : ascii := "010"%char.

(** ASCII white space, as [str.strip] and [int] see it. *)
Definition is_space (c : ascii) : bool :=
  let n := N_of_ascii c in
  (((9 <=? n) && (n <=? 13)) || ((28 <=? n) && (n <=? 32)))%N.



Fixpoint ends_with (suffix s : string) : bool :=
  String.eqb suffix s ||
  match s with
  | EmptyString => false
  | String _ s' => ends_with suffix s'
  end.

(** [s.replace(old, new)] for a non-empty [old]: the occurrences of [old]
    are replaced from left to right, without overlap. [skip] counts the
    characters of an occurrence still to be passed over. *)
Fixpoint replace_from (old new : string) (skip : nat) (s : string) : string :=
  match s with
  | EmptyString => EmptyString
  | String c s' =>
      match skip with
      | S k => replace_from old new k s'
      | O =>
          if String.prefix old s
          then new ++ replace_from old new (String.length old - 1) s'
          else String c (replace_from old new 0 s')
      end
  end.

Definition replace (old new s : string) : string := replace_from old new 0 s.

(** [os.path.join(dirname, name)] for a relative [name]. *)
Definition path_join (dirname name : string) : string :=
  if String.eqb dirname "" then name
  else if ends_with "/" dirname then dirname ++ name
  else dirname ++ "/" ++ name.

(** [str(n)] of an int, as used by ["weights_%s.tar" % epoch]. *)
Definition str_int (n : Z) : string := NilZero.string_of_int (Z.to_int n).

(** [int(s)]: optional surrounding white space, an optional sign, then
    decimal digits, single underscores being allowed between digits.
    [None] stands for [ValueError]. *)
Fixpoint lstrip (s : string) : string :=
  match s with
  | String c s' => if is_space c then lstrip s' else s
  | EmptyString => EmptyString
  end.

Fixpoint rstrip (s : string) : string :=
  match s with
  | EmptyString => EmptyString
  | String c s' =>
      let r := rstrip s' in
      if String.eqb r "" && is_space c then EmptyString else String c r
  end.

Fixpoint int_digits (acc : Z) (after_digit : bool) (s : string) : option Z :=
  match s with
  | EmptyString => if after_digit then Some acc else None
  | String c s' =>
      if is_digit c then
        int_digits (10 * acc + (Z.of_N (N_of_ascii c) - 48)) true s'
      else if Ascii.eqb c "_" then
        if after_digit then int_digits acc false s' else None
      else None
  end.

Definition int (s : string) : option Z :=
  match rstrip (lstrip s) with
  | String "+" r => int_digits 0 false r
  | String "-" r => option_map Z.opp (int_digits 0 false r)
  | r => int_digits 0 false r
  end.

(** *** [re.sub(".*_([0-9]+).tar", "\\1", w)] *)

(** The longest run of digits at the head of a string, and what follows. *)
Fixpoint digits_prefix (s : string) : string * string :=
  match s with
  | String c s' =>
      if is_digit c
      then let '(ds, r) := digits_prefix s' in (String c ds, r)
      else (EmptyString, s)
  | EmptyString => (EmptyString, EmptyString)
  end.

(** [[0-9]+] followed by [.tar], on the digits [ds] and the rest [r]: the
    group takes as many digits as it can, [k] at first, and gives digits
    back until one character other than a newline and then [tar] follow.
    The result is the group and the number of characters matched. *)
Fixpoint digits_then_tar (k : nat) (ds r : string) : option (string * nat) :=
  match k with
  | O => None
  | S k' =>
      match substring k (String.length ds - k) ds ++ r with
      | String c (String "t" (String "a" (String "r" _))) =>
          if Ascii.eqb c newline then digits_then_tar k' ds r
          else Some (substring 0 k ds, (k + 4)%nat)
      | _ => digits_then_tar k' ds r
      end
  end.

(** [_([0-9]+).tar] at the head of [s]. *)
Definition tail_at (s : string) : option (string * nat) :=
  match s with
  | String "_" s' =>
      let '(ds, r) := digits_prefix s' in
      match digits_then_tar (String.length ds) ds r with
      | Some (g, n) => Some (g, S n)
      | None => None
      end
  | _ => None
  end.

(** The whole pattern at the head of [s]: [.*] runs as far as it can over
    characters other than newlines and comes back until the rest of the
    pattern matches. *)
Fixpoint match_at (s : string) : option (string * nat) :=
  match s with
  | EmptyString => None
  | String c s' =>
      match (if Ascii.eqb c newline then None else match_at s') with
      | Some (g, n) => Some (g, S n)
      | None => tail_at s
      end
  end.

(** The substitution: every match, searched from left to right, is
    replaced by its group; the characters between matches are kept. *)
Fixpoint sub_from (skip : nat) (s : string) : string :=
  match s with
  | EmptyString => EmptyString
  | String c s' =>
      match skip with
      | S k => sub_from k s'
      | O =>
          match match_at s with
          | Some (g, n) => g ++ sub_from (n - 1) s'
          | None => String c (sub_from 0 s')
          end
      end
  end.

Definition re_sub_epoch (w : string) : string := sub_from 0 w.

(** ** Checkpoints: [load_state] ([training.py], lines 86-114) *)

(** A parameter tensor: its shape and its entries, the latter kept as
    opaque numbers. *)
Record tensor : Type := mkTensor {
  tensor_shape : list Z;
  tensor_data : list Z
}.

#[global] Instance tensor_eq_dec : EqDecision tensor.
Proof. solve_decision. Defined.

(** A state dictionary: parameter names to tensors, in order. *)
Definition state_dict : Type := list (string * tensor).

(** What a file of the training directory holds: a saved state dictionary
    or something [torch.load] cannot read. *)
Inductive file : Type :=
| Checkpoint (sd : state_dict)
| Unreadable.

(** A directory: its entries by name. *)
Definition directory : Type := list (string * file).

(** The model seen from [load_state]: its own state dictionary. *)
Record model : Type := mkModel {
  model_state : state_dict
}.

(** [fnmatch(name, "weights_*.tar")]. *)
Definition fnmatch_weights (name : string) : bool :=
  String.prefix "weights_" name && ends_with ".tar" name
  && (12 <=? String.length name)%nat.

(** [glob(os.path.join(dirname, "weights_*.tar"))]; [dirname] itself is
    taken to hold no wildcard. *)
Definition glob_weights (dirname : string) (dir : directory) : list string :=
  map (path_join dirname) (List.filter fnmatch_weights (dict_keys dir)).

Fixpoint map_outcome {A B} (f : A -> outcome B) (xs : list A) : outcome (list B) :=
  match xs with
  | [] => Ret []
  | x :: xs' =>
      let* y := f x in
      let* ys := map_outcome f xs' in
      Ret (y :: ys)
  end.

Definition ValueError (s : string) : exn := Exn "ValueError" (DText s) None.

(** [int(re.sub(".*_([0-9]+).tar", "\\1", w))]. *)
Definition weight_number_of (w : string) : outcome Z :=
  match int (re_sub_epoch w) with
  | Some n => Ret n
  | None => Raise (ValueError (re_sub_epoch w))
  end.

(** [max] of a non-empty list of ints. *)
Definition max_list (n : Z) (ns : list Z) : Z := fold_left Z.max ns n.

(** [[
    weight_no = None
    weight_files = glob(os.path.join(dirname, "weights_*.tar"))
    if weight_files:
        weight_no = max([int(re.sub(".*_([0-9]+).tar", "\\1", w)) for w in weight_files])
    ]] *)
Definition weight_no (dirname : string) (dir : directory) : outcome (option Z) :=
  match glob_weights dirname dir with
  | [] => Ret None
  | weight_files =>
      let* ns := map_outcome weight_number_of weight_files in
      match ns with
      | [] => Ret None
      | n :: ns' => Ret (Some (max_list n ns'))
      end
  end.

(** ['weights_%s.tar' % epoch]: the name of the checkpoint of an epoch. *)
Definition weights_file (epoch : Z) : string := "weights_" ++ str_int epoch ++ ".tar".

(** [torch.load(os.path.join(dirname, 'weights_%s.tar' % weight_no))]. *)
Definition torch_load (dir : directory) (name : string) : outcome state_dict :=
  match dict_get name dir with
  | Some (Checkpoint sd) => Ret sd
  | Some Unreadable => Raise (Exn "UnpicklingError" (DText name) None)
  | None => Raise (Exn "FileNotFoundError" (DText name) None)
  end.

Definition shapes (sd : state_dict) : list (list Z) := map (fun kv => tensor_shape (snd kv)) sd.

(** Modelled from the spec: [match_names] is imported from [bonito.util],
    which is not among the sources. Section 4.3 has it compute "a
    name-correspondence between saved parameter keys and the target model's
    expected parameter keys", "based on structural position and tensor
    shape compatibility, not exact string equality", and fail with
    [CheckpointMismatch] "if a required parameter has no compatible
    counterpart by shape": the i-th saved key is paired with the i-th
    expected key, provided the shapes agree position by position. *)
Definition match_names (saved : state_dict) (m : model) : outcome (list (string * string)) :=
  if decide (shapes saved = shapes (model_state m))
  then Ret (combine (dict_keys saved) (dict_keys (model_state m)))
  else Raise (Exn "CheckpointMismatch" (DText "shape") None).

(** [model.load_state_dict(sd)] of torch, strict: the names must be those
    of the model's own state dictionary and the shapes must agree; the
    model then holds the given tensors. *)
Definition load_state_dict (m : model) (sd : state_dict) : outcome model :=
  let expected := dict_keys (model_state m) in
  let missing := List.filter (fun k => negb (dict_mem k sd)) expected in
  let unexpected := List.filter (fun k => negb (dict_mem k (model_state m))) (dict_keys sd) in
  match missing, unexpected with
  | [], [] =>
      let loaded := map (fun kv => (fst kv, match dict_get (fst kv) sd with
                                            | Some t => t
                                            | None => snd kv
                                            end)) (model_state m) in
      if decide (shapes loaded = shapes (model_state m))
      then Ret (mkModel loaded)
      else Raise (Exn "RuntimeError" (DText "size mismatch") None)
  | _, _ => Raise (Exn "RuntimeError" (DText "Missing or unexpected key(s) in state_dict") None)
  end.

(** [[
    state_dict = {k2: state_dict[k1] for k1, k2 in match_names(state_dict, model).items()}
    new_state_dict = OrderedDict()
    for k, v in state_dict.items():
        name = k.replace('module.', '')
        new_state_dict[name] = v
    ]] *)
Definition rename (sd : state_dict) (names : list (string * string)) : outcome state_dict :=
  fold_left
    (fun acc kk =>
       let* d := acc in
       match dict_get (fst kk) sd with
       | Some t => Ret (dict_set (snd kk) t d)
       | None => Raise (KeyError (VStr (fst kk)))
       end)
    names (Ret []).

Definition strip_module (sd : state_dict) : state_dict :=
  fold_left (fun acc kv => dict_set (replace "module." "" (fst kv)) (snd kv) acc) sd [].

(** The branch [if weight_no:] of [load_state]. *)
Definition load_weights (dir : directory) (n : Z) (m : model) : outcome model :=
  let* sd := torch_load dir (weights_file n) in
  let* names := match_names sd m in
  let* sd := rename sd names in
  let new_state_dict := strip_module sd in
  load_state_dict m new_state_dict.


(** [load_state(dirname, device, model)]: the epoch to resume from, and the
    model with the weights of that epoch. *)
Definition load_state (dirname : string) (dir : directory) (m : model) : outcome (Z * model) :=
  let* no := weight_no dirname dir in
  match no with
  | Some n =>
      if n =? 0 then Ret (0, m)
      else let* m' := load_weights dir n m in Ret (n, m')
  | None => Ret (0, m)
  end.

(** ** Validation: [Trainer.validate_one_step] ([training.py], lines 180-194) *)

Section Validation.

(** The collaborators of the step: the model's forward pass and decoders,
    the loss, the reference decoder of [bonito.util] and the alignment
    engine behind [accuracy]. *)
Context {Data Scores Column Target Lengths Loss : Type}.
Variable forward : Data -> Scores.
Variable criterion : Scores -> list Target -> Lengths -> Loss.
Variable decode_batch : option (Scores -> list string).
Variable decode : Column -> string.
Variable permute : Scores -> list Column.
Variable decode_ref : Target -> string.
Variable align : string -> string -> nat * nat.


(** [[
    if hasattr(self.model, 'decode_batch'):
        seqs = self.model.decode_batch(scores)
    else:
        seqs = [self.model.decode(x) for x in permute(scores, 'TNC', 'NTC')]
    ]] *)
Definition called_sequences (scores : Scores) : list string :=
  match decode_batch with
  | Some f => f scores
  | None => map decode (permute scores)
  end.



End Validation.

(** ** The training loop: [Trainer.fit] ([training.py], lines 214-245) *)

(** What a file of the working directory holds. *)
Inductive workfile : Type :=
| WCheckpoint (sd : state_dict)   (* written in full by [torch.save] *)
| WPartial                        (* left behind by an interrupted write *)
| WLog (rows : list string).      (* a CSV log *)

Definition weights_path (workdir : string) (epoch : Z) : string :=
  path_join workdir (weights_file epoch).

Definition losses_path (workdir : string) (epoch : Z) : string :=
  path_join workdir ("losses_" ++ str_int epoch ++ ".csv").

Definition training_path (workdir : string) : string :=
  path_join workdir "training.csv".

(** Modelled from the spec: [CSVLogger] is [bonito.io]'s, which is not
    among the sources. Section 6: "one row appended per epoch (or per step,
    for the finer-grained loss log) to an append-only tabular file". *)
Definition append_rows (path : string) (rows : list string) (fs : gmap string workfile)
  : gmap string workfile :=
  match fs !! path with
  | Some (WLog old) => <[path := WLog (old ++ rows)]> fs
  | _ => <[path := WLog rows]> fs
  end.

(** [except KeyboardInterrupt]. *)
Definition is_KeyboardInterrupt (e : exn) : bool :=
  String.eqb (exn_class e) "KeyboardInterrupt".

(** How a call to [torch.save] ends: the file written in full, or an
    exception, the file being then untouched or left incomplete. *)
Inductive save_result : Type :=
| Saved
| SaveRaised (e : exn) (touched : bool).

Section Fit.

(** What the collaborators of an epoch do: the rows [train_one_epoch]
    logs and how it ends, the state of the model once trained, how
    [torch.save] and [validate_one_epoch] end, and the row of the summary
    log with the way writing it ends. *)
Context {Train Val : Type}.
Variable train_one_epoch : Z -> list string * outcome Train.
Variable trained_state : Z -> state_dict.
Variable torch_save : Z -> save_result.
Variable validate_one_epoch : Z -> outcome Val.
Variable training_log : Z -> Train -> Val -> outcome string.
Variable workdir : string.

(** The statements of the [try] block for one epoch, ending with the
    files as they are left. *)
Definition try_epoch (epoch : Z) (fs : gmap string workfile)
  : gmap string workfile * outcome (Train * Val) :=
  let '(rows, trained) := train_one_epoch epoch in
  let fs := append_rows (losses_path workdir epoch) rows fs in
  match trained with
  | Raise e => (fs, Raise e)
  | Ret t =>
      match torch_save epoch with
      | SaveRaised e touched =>
          (if touched then <[weights_path workdir epoch := WPartial]> fs else fs, Raise e)
      | Saved =>
          let fs := <[weights_path workdir epoch := WCheckpoint (trained_state epoch)]> fs in
          match validate_one_epoch epoch with
          | Raise e => (fs, Raise e)
          | Ret v => (fs, Ret (t, v))
          end
      end
  end.

(** [[
    for epoch in range(1 + last_epoch, epochs + 1 + last_epoch):
        try:
            ...
        except KeyboardInterrupt:
            break
        print(...)
        with bonito.io.CSVLogger(os.path.join(workdir, 'training.csv')) as training_log:
            training_log.append({...})
    ]]
    [n] is the number of epochs still to run. *)
Fixpoint fit_loop (n : nat) (epoch : Z) (fs : gmap string workfile)
  : gmap string workfile * outcome unit :=
  match n with
  | O => (fs, Ret tt)
  | S n' =>
      match try_epoch epoch fs with
      | (fs, Raise e) =>
          if is_KeyboardInterrupt e then (fs, Ret tt) else (fs, Raise e)
      | (fs, Ret (t, v)) =>
          match training_log epoch t v with
          | Raise e => (fs, Raise e)
          | Ret row => fit_loop n' (epoch + 1) (append_rows (training_path workdir) [row] fs)
          end
      end
  end.

(** [fit(workdir, epochs, lr, last_epoch)], once the optimizer and the
    scheduler are set up. *)
Definition fit (epochs last_epoch : Z) (fs : gmap string workfile)
  : gmap string workfile * outcome unit :=
  fit_loop (Z.to_nat epochs) (1 + last_epoch) fs.

End Fit.

(** The two inner loops of [from_dict], named: the list comprehension and
    the deserialisation of the value found under ['sublayers']. *)
Fixpoint from_dict_each (layer_types : gmap string layer_class) (xs : list value)
  : M (list layer) :=
  match xs with
  | [] => mret []
  | x :: xs' =>
      let+ l := from_dict_in layer_types x in
      let+ ls := from_dict_each layer_types xs' in
      mret (l :: ls)
  end.

Definition from_dict_sublayers (layer_types : gmap string layer_class) (sublayers : value)
  : M arg :=
  match sublayers with
  | VList xs => let+ ls := from_dict_each layer_types xs in mret (ALayers ls)
  | _ => let+ l := from_dict_in layer_types sublayers in mret (ALayer l)
  end.

(** The keyword arguments [from_dict] hands to the constructor for a
    document whose entries, ['type'] removed, are [rest]. *)
Definition keyword_arguments (layer_types : gmap string layer_class)
  (rest : list (string * value)) : M (list (string * arg)) :=
  with_sublayers rest
    (option_map (from_dict_sublayers layer_types) (dict_get "sublayers" rest)).

(** A store holding the document
    [{'type': 'reverse', 'sublayers': [{'type': 'tanh'}]}] at location 1. *)
Definition example_store : gmap Store.loc (Store.obj layer) :=
  <[1%positive := Store.ODict [("type", Store.HStr "reverse");
                               ("sublayers", Store.HRef 2%positive)]]>
  (<[2%positive := Store.OList [Store.HRef 3%positive]]>
  (<[3%positive := Store.ODict [("type", Store.HStr "tanh")]]> ∅)).


(** A training directory with the checkpoints of epochs 3, 1, 7 and 2
    among other files, and the one-parameter model they belong to. *)
Definition example_model : model :=
  mkModel [("encoder.w", mkTensor [2] [0; 0])].

Definition example_directory : directory :=
  [("config.toml", Unreadable);
   ("weights_3.tar", Checkpoint [("encoder.w", mkTensor [2] [3; 3])]);
   ("weights_1.tar", Checkpoint [("encoder.w", mkTensor [2] [1; 1])]);
   ("training.csv", Unreadable);
   ("weights_7.tar", Checkpoint [("encoder.w", mkTensor [2] [7; 7])]);
   ("weights_2.tar", Checkpoint [("encoder.w", mkTensor [2] [2; 2])])].

(** A model whose parameter lives in a child named [submodule], and a
    directory with the checkpoint of epoch 1 saved from the same model
    under a [DataParallel] wrapper, every key carrying the prefix
    [module.]. *)
Definition submodule_model : model :=
  mkModel [("submodule.w", mkTensor [2] [0; 0])].

Definition wrapped_directory : directory :=
  [("weights_1.tar", Checkpoint [("module.submodule.w", mkTensor [2] [5; 5])])].

Section FitRuns.
Context {Train Val : Type}.
Variable train_one_epoch : Z -> list string * outcome Train.
Variable torch_save : Z -> save_result.
Variable validate_one_epoch : Z -> outcome Val.
Variable training_log : Z -> Train -> Val -> outcome string.

(** An epoch that runs to its end: training, checkpoint, validation and
    the summary row all succeed. *)
Definition epoch_completes (epoch : Z) : Prop :=
  exists rows t v row,
    train_one_epoch epoch = (rows, Ret t)
    /\ torch_save epoch = Saved
    /\ validate_one_epoch epoch = Ret v
    /\ training_log epoch t v = Ret row.


End FitRuns.

(** A run of five epochs in which the user interrupts the validation of
    the third. *)
Definition interrupt : exn := Exn "KeyboardInterrupt" (DText "") None.

Definition example_train (epoch : Z) : list string * outcome unit :=
  (["chunks,time,grad_norm,loss"], Ret tt).

Definition example_state (epoch : Z) : state_dict :=
  [("encoder.w", mkTensor [1] [epoch])].

Definition example_save (epoch : Z) : save_result := Saved.

Definition example_validate (epoch : Z) : outcome unit :=
  if epoch =? 3 then Raise interrupt else Ret tt.

Definition example_log (epoch : Z) (t v : unit) : outcome string :=
  Ret ("epoch " ++ str_int epoch).

(** ** Nodes that survive the round trip *)

(** The activations a document can name: none, or one of the three
    registered classes that are built without arguments. *)
Definition default_activation (a : layer + value) : Prop :=
  a = inr VNone \/ a = inl (ReLU (VBool false)) \/ a = inl Tanh
  \/ a = inl (Swish (VBool false)).

(** The output size [LinearCRFEncoder.__init__] computes. *)
Definition crf_size (n_base state_len : Z) (blank_score : value) : Z :=
  match blank_score with
  | VNone => (n_base + 1) * n_base ^ state_len
  | _ => n_base ^ (state_len + 1)
  end.

(** Nodes made of activations with their default arguments, [Serial],
    [Reverse], [Convolution], [LinearCRFEncoder], [Permute], and [LSTM]
    with equal sizes: the classes that define [to_dict] or take no
    argument, in the states their constructors produce. *)
Fixpoint serialisable (node : layer) : Prop :=
  let all :=
    fix all (ms : list layer) : Prop :=
      match ms with
      | [] => True
      | m :: ms' => serialisable m /\ all ms'
      end in
  match node with
  | ReLU v | Swish v => v = VBool false
  | Tanh => True
  | Serial ms => all ms
  | Reverse (inl (Serial ms)) => all ms
  | Reverse (inl l) => serialisable l
  | Reverse (inr _) => False
  | Convolution _ act => default_activation act
  | LinearCRFEncoder nb sl bs linear act _ =>
      default_activation act
      /\ out_features linear = crf_size nb sl bs
      /\ 0 <= match bs with VNone => sl | _ => sl + 1 end
  | Permute _ => True
  | LSTM _ rnn => input_size rnn = hidden_size rnn /\ bidirectional rnn = false
  | _ => False
  end.

(** The [to_dict] method of the class of a node, when the class defines
    one, with the calls to [to_dict] on the children left folded. *)
Definition to_dict_method (node : layer) (include_weights : bool)
  : option (outcome (list (string * value))) :=
  match node with
  | Serial ms =>
      Some (let* ds := map_outcome (fun m => to_dict m include_weights) ms in
            Ret [("sublayers", VList ds)])
  | Reverse inner =>
      Some (match inner with
            | inl (Serial ms) =>
                let* ds := map_outcome (fun m => to_dict m include_weights) ms in
                Ret [("sublayers", VList ds)]
            | inl l => let* d := to_dict l include_weights in Ret [("sublayers", d)]
            | inr v => Raise (AttributeError "object" "name")
            end)
  | Convolution conv act => Some (Convolution_to_dict conv act include_weights)
  | LinearCRFEncoder nb sl bs linear act sc =>
      Some (LinearCRFEncoder_to_dict nb sl bs linear act sc include_weights)
  | Permute dims => Some (Ret [("dims", dims)])
  | LSTM reverse rnn => Some (LSTM_to_dict reverse rnn include_weights)
  | _ => None
  end.

(** The round trip at a node: the node serialises without weights and the
    document deserialises to the node. *)
Definition round_trips (node : layer) : Prop :=
  exists d log, to_dict node false = Ret d /\ from_dict d None = (log, Ret node).

(** ** Classes and their [to_dict] methods *)

(** [hasattr(layer, 'to_dict')]: the classes of [nn.py] that define the
    method. *)
Definition defines_to_dict (c : layer_class) : bool :=
  match c with
  | CSerial | CReverse | CConvolution | CLinearCRFEncoder | CPermute | CLSTM => true
  | _ => false
  end.

(** The classes whose [to_dict] adds a ['params'] entry when
    [include_weights] is set. *)
Definition has_parameters (c : layer_class) : bool :=
  match c with
  | CConvolution | CLinearCRFEncoder | CLSTM => true
  | _ => false
  end.

(** A network with one node of each serialisable kind. *)
Definition example_network : layer :=
  Serial [Convolution (mkConv1d 1 4 5 1 2 true) (inl (Swish (VBool false)));
          Reverse (inl (LSTM (VBool true) (mkLSTM 4 4 (VBool true) false)));
          LinearCRFEncoder 4 2 VNone (mkLinear 4 80 true) (inl Tanh) (VFloat 0);
          Permute (VList [VInt 1; VInt 0; VInt 2])].

(** ** [load_state] for any name matcher *)

Section LoadStateBy.

(** [match_names] of [bonito.util], a collaborator of [load_state]: the
    dictionary it returns, saved name to expected name, as the list of its
    items. *)
Variable match_names_by : state_dict -> model -> outcome (list (string * string)).

(** The branch [if weight_no:] of [load_state], lines 100 to 109. *)
Definition load_weights_by (dir : directory) (n : Z) (m : model) : outcome model :=
  let* sd := torch_load dir (weights_file n) in
  let* names := match_names_by sd m in
  let* sd := rename sd names in
  let new_state_dict := strip_module sd in
  load_state_dict m new_state_dict.


End LoadStateBy.

(** ** File names [load_state] does not read as an epoch *)



(** ** Validation for any scoring function *)

Section ValidationBy.

(** [validate_one_step] with [accuracy] of [bonito.util] as a
    collaborator: [accuracy_by ref seq] is the call
    [accuracy(ref, seq, min_coverage=0.5)], [zero] the literal [0.];
    [criterion] gives the losses as the step returns them, the conversion
    by [item()] made. *)
Context {Data Scores Column Target Lengths Loss Acc : Type}.
Variable forward : Data -> Scores.
Variable criterion : Scores -> list Target -> Lengths -> Loss.
Variable decode_batch : option (Scores -> list string).
Variable decode : Column -> string.
Variable permute : Scores -> list Column.
Variable decode_ref : Target -> string.
Variable accuracy_by : string -> string -> outcome Acc.
Variable zero : Acc.

(** [accuracy(ref, seq, min_coverage=0.5) if len(seq) else 0.] *)
Definition score_example_by (rs : string * string) : outcome Acc :=
  let '(ref, seq) := rs in
  if negb (String.length seq =? 0)%nat then accuracy_by ref seq else Ret zero.

Definition validate_one_step_by (batch : Data * list Target * Lengths)
  : outcome (list string * list string * list Acc * Loss) :=
  let '(data, targets, lengths) := batch in
  let scores := forward data in
  let losses := criterion scores targets lengths in
  let seqs := called_sequences decode_batch decode permute scores in
  let refs := map decode_ref targets in
  let* accs := map_outcome score_example_by (combine refs seqs) in
  Ret (seqs, refs, accs, losses).

End ValidationBy.

(** ** [Trainer.validate_one_epoch] ([training.py], lines 196-202) *)

(** What [validate_one_step] returns as [losses]: a number, or a
    dictionary of numbers. *)
Inductive losses (F : Type) : Type :=
| LossValue (x : F)
| LossDict (d : list (string * F)).
Arguments LossValue {F} x.
Arguments LossDict {F} d.

Section ValidateEpoch.

(** The validation step on a batch, and numpy's [mean] and [median]. *)
Context {Batch F : Type}.
Variable validate_step : Batch -> outcome (list string * list string * list F * losses F).
Variable mean median : list F -> F.

(** [x['ctc_loss'] if isinstance(x, dict) else x] *)
Definition ctc_loss_of (x : losses F) : outcome F :=
  match x with
  | LossValue v => Ret v
  | LossDict d =>
      match dict_get "ctc_loss" d with
      | Some v => Ret v
      | None => Raise (KeyError (VStr "ctc_loss"))
      end
  end.

(** [[
    seqs, refs, accs, losses = zip( *(self.validate_one_step(batch) for batch in self.valid_loader))
    seqs, refs, accs = (sum(x, []) for x in (seqs, refs, accs))
    loss = np.mean([(x['ctc_loss'] if isinstance(x, dict) else x) for x in losses])
    return loss, np.mean(accs), np.median(accs)
    ]]
    The generator is run to its end by the unpacking in the call of [zip];
    [zip] of no argument yields nothing, and the assignment to four names
    then fails. *)
Definition validate_one_epoch (valid_loader : list Batch) : outcome (F * F * F) :=
  let* results := map_outcome validate_step valid_loader in
  match results with
  | [] => Raise (ValueError "not enough values to unpack (expected 4, got 0)")
  | _ =>
      let accs := concat (map (fun r => snd (fst r)) results) in
      let* ls := map_outcome ctc_loss_of (map snd results) in
      Ret (mean ls, mean accs, median accs)
  end.

End ValidateEpoch.

(** ** [fit] for any logger *)

Section FitBy.

(** [Trainer.fit] with [CSVLogger] of [bonito.io] as a collaborator:
    [csv_log path rows fs] is what the files are once a logger opened on
    [path] has been given [rows] and closed. The other collaborators are
    those of [fit] above. *)
Context {Train Val : Type}.
Variable csv_log : string -> list string -> gmap string workfile -> gmap string workfile.
Variable train_one_epoch : Z -> list string * outcome Train.
Variable trained_state : Z -> state_dict.
Variable torch_save : Z -> save_result.
Variable validate_one_epoch : Z -> outcome Val.
Variable training_log : Z -> Train -> Val -> outcome string.
Variable workdir : string.

(** [[
    with bonito.io.CSVLogger(os.path.join(workdir, 'losses_{}.csv'.format(epoch))) as loss_log:
        train_loss, duration = self.train_one_epoch(loss_log, lr_scheduler)
    model_state = self.model.module.state_dict() if hasattr(self.model, 'module') else self.model.state_dict()
    torch.save(model_state, os.path.join(workdir, "weights_%s.tar" % epoch))
    val_loss, val_mean, val_median = self.validate_one_epoch()
    ]] *)
Definition try_epoch_by (epoch : Z) (fs : gmap string workfile)
  : gmap string workfile * outcome (Train * Val) :=
  let '(rows, trained) := train_one_epoch epoch in
  let fs := csv_log (losses_path workdir epoch) rows fs in
  match trained with
  | Raise e => (fs, Raise e)
  | Ret t =>
      match torch_save epoch with
      | SaveRaised e touched =>
          (if touched then <[weights_path workdir epoch := WPartial]> fs else fs, Raise e)
      | Saved =>
          let fs := <[weights_path workdir epoch := WCheckpoint (trained_state epoch)]> fs in
          match validate_one_epoch epoch with
          | Raise e => (fs, Raise e)
          | Ret v => (fs, Ret (t, v))
          end
      end
  end.

(** [[
    for epoch in range(1 + last_epoch, epochs + 1 + last_epoch):
        try:
            ...
        except KeyboardInterrupt:
            break
        print(...)
        with bonito.io.CSVLogger(os.path.join(workdir, 'training.csv')) as training_log:
            training_log.append({...})
    ]]
    [n] is the number of epochs still to run. *)
Fixpoint fit_loop_by (n : nat) (epoch : Z) (fs : gmap string workfile)
  : gmap string workfile * outcome unit :=
  match n with
  | O => (fs, Ret tt)
  | S n' =>
      match try_epoch_by epoch fs with
      | (fs, Raise e) =>
          if is_KeyboardInterrupt e then (fs, Ret tt) else (fs, Raise e)
      | (fs, Ret (t, v)) =>
          match training_log epoch t v with
          | Raise e => (fs, Raise e)
          | Ret row => fit_loop_by n' (epoch + 1) (csv_log (training_path workdir) [row] fs)
          end
      end
  end.

Definition fit_by (epochs last_epoch : Z) (fs : gmap string workfile)
  : gmap string workfile * outcome unit :=
  fit_loop_by (Z.to_nat epochs) (1 + last_epoch) fs.

End FitBy.

(** A logger writes the file it was opened on and no other. *)
Definition writes_own_file
  (csv_log : string -> list string -> gmap string workfile -> gmap string workfile) : Prop :=
  forall path rows fs path', path' <> path -> csv_log path rows fs !! path' = fs !! path'.

(** ** Epochs of [fit] that end in an exception *)

Section FitRaises.
Context {Train Val : Type}.
Variable train_one_epoch : Z -> list string * outcome Train.
Variable torch_save : Z -> save_result.
Variable validate_one_epoch : Z -> outcome Val.
Variable training_log : Z -> Train -> Val -> outcome string.

(** The exception [e] is raised inside the [try] block of the epoch: while
    training, while saving the checkpoint, or while validating. *)
Definition epoch_raises (epoch : Z) (e : exn) : Prop :=
  (exists rows, train_one_epoch epoch = (rows, Raise e))
  \/ (exists rows t touched,
        train_one_epoch epoch = (rows, Ret t) /\ torch_save epoch = SaveRaised e touched)
  \/ (exists rows t,
        train_one_epoch epoch = (rows, Ret t) /\ torch_save epoch = Saved
        /\ validate_one_epoch epoch = Raise e).

(** The [try] block of the epoch runs to its end and [e] is raised while
    the row of the summary log is written. *)
Definition logging_raises (epoch : Z) (e : exn) : Prop :=
  exists rows t v,
    train_one_epoch epoch = (rows, Ret t) /\ torch_save epoch = Saved
    /\ validate_one_epoch epoch = Ret v /\ training_log epoch t v = Raise e.

End FitRaises.


(** ** [ChunkDataSet] ([training.py], lines 23-37) *)

Definition IndexError (s : string) : exn := Exn "IndexError" (DText s) None.

(** [a[i]] for an integer [i] on the first axis of an array: a negative
    index counts from the end, an index out of range is an [IndexError]. *)
Definition index {A} (a : list A) (i : Z) : outcome A :=
  let n := Z.of_nat (length a) in
  let j := if i <? 0 then i + n else i in
  if (0 <=? j) && (j <? n) then
    match a !! Z.to_nat j with
    | Some x => Ret x
    | None => Raise (IndexError "index out of bounds")
    end
  else Raise (IndexError "index out of bounds").

Section ChunkDataSet.

(** The entries of the three arrays, and the casts
    [astype(np.float32)] and [astype(np.int64)]. *)
Context {Sample Label Len Sample32 Label64 Len64 : Type}.
Variable to_float32 : Sample -> Sample32.
Variable to_int64 : Label -> Label64.
Variable len_to_int64 : Len -> Len64.

(** The attributes of a dataset: [chunks] has the shape [(N, 1, L)],
    [targets] the shape [(N, T)], [lengths] the shape [(N,)]. *)
Record ChunkDataSet : Type := mkChunkDataSet {
  ds_chunks : list (list (list Sample));
  ds_targets : list (list Label);
  ds_lengths : list Len
}.

(** [[
    self.chunks = np.expand_dims(chunks, axis=1)
    self.targets = targets
    self.lengths = lengths
    ]] *)
Definition ChunkDataSet_init (chunks : list (list Sample)) (targets : list (list Label))
  (lengths : list Len) : ChunkDataSet :=
  mkChunkDataSet (map (fun row => [row]) chunks) targets lengths.

(** [[
    return (
        self.chunks[i].astype(np.float32),
        self.targets[i].astype(np.int64),
        self.lengths[i].astype(np.int64),
    )
    ]] *)
Definition ChunkDataSet_getitem (self : ChunkDataSet) (i : Z)
  : outcome (list (list Sample32) * list Label64 * Len64) :=
  let* c := index (ds_chunks self) i in
  let* t := index (ds_targets self) i in
  let* l := index (ds_lengths self) i in
  Ret (map (map to_float32) c, map to_int64 t, len_to_int64 l).

(** [return len(self.lengths)] *)
Definition ChunkDataSet_len (self : ChunkDataSet) : Z :=
  Z.of_nat (length (ds_lengths self)).

End ChunkDataSet.
Arguments ChunkDataSet : clear implicits.

(** ** The split of the training data ([cli/train.py], lines 38-40) *)

(** The position a slice bound [s] stands for in a sequence of length
    [n]: a negative bound counts from the end, and the result is clipped to
    the sequence. *)
Definition slice_bound (n : nat) (s : Z) : nat :=
  let k := if s <? 0 then s + Z.of_nat n else s in
  Z.to_nat (Z.min (Z.max k 0) (Z.of_nat n)).

(** [x[:s]] and [x[s:]]. *)
Definition slice_to {A} (s : Z) (x : list A) : list A := firstn (slice_bound (length x) s) x.
Definition slice_from {A} (s : Z) (x : list A) : list A := skipn (slice_bound (length x) s) x.

Section Split.
Context {Sample Label Len : Type}.

(** [[
    valid_data = [x[split:] for x in train_data]
    train_data = [x[:split] for x in train_data]
    train_loader = DataLoader(ChunkDataSet( *train_data), ...)
    valid_loader = DataLoader(ChunkDataSet( *valid_data), ...)
    ]]
    for [train_data = (chunks, targets, lengths)]; the result is the
    training set and the validation set. [split] is
    [np.floor(len(train_data[0]) * 0.97).astype(np.int32)]. *)
Definition split_data (split : Z) (chunks : list (list Sample)) (targets : list (list Label))
  (lengths : list Len)
  : ChunkDataSet Sample Label Len * ChunkDataSet Sample Label Len :=
  (ChunkDataSet_init (slice_to split chunks) (slice_to split targets) (slice_to split lengths),
   ChunkDataSet_init (slice_from split chunks) (slice_from split targets)
     (slice_from split lengths)).

End Split.

(** ** Training: [train_one_step] and [train_one_epoch] ([training.py], lines 128-178) *)

(** A cell of a row of the loss log. *)
Inductive cell (F : Type) : Type :=
| CInt (n : Z)
| CNum (x : F).
Arguments CInt {F} n.
Arguments CNum {F} x.

Section Training.

(** The state of the trainer (model, optimizer, gradient scaler), the
    batches and the floating-point numbers, with the collaborators of a
    step: clearing the gradients, the forward pass with the criterion, and
    the backward pass with the optimizer step, which gives the gradient
    norm. *)
Context {Batch Trainer F : Type}.
Variable zero_grad : Trainer -> Trainer.
Variable forward_loss : Batch -> Trainer -> outcome (losses F).
Variable optimise : F -> Trainer -> Trainer * outcome F.

(** [[
    self.optimizer.zero_grad()
    with amp.autocast(enabled=self.use_amp):
        scores = self.model(data.to(self.device))
        losses = self.criterion(scores, targets.to(self.device), lengths.to(self.device))
    if not isinstance(losses, dict):
        losses = {'loss': losses}
    self.scaler.scale(losses['loss']).backward()
    ...
    return losses, grad_norm
    ]] *)
Definition train_one_step (batch : Batch) (s : Trainer) : Trainer * outcome (list (string * F) * F) :=
  let s := zero_grad s in
  match forward_loss batch s with
  | Raise e => (s, Raise e)
  | Ret l =>
      let d := match l with
               | LossDict d => d
               | LossValue x => [("loss", x)]
               end in
      match dict_get "loss" d with
      | None => (s, Raise (KeyError (VStr "loss")))
      | Some x =>
          let '(s', g) := optimise x s in
          (s', let* grad_norm := g in Ret (d, grad_norm))
      end
  end.

(** [self.model.train()], the size of a batch ([batch[0].shape[0]]), the
    clock ([perf_counter], by the number of readings made before), and the
    arithmetic of the smoothed loss. *)
Variable model_train : Trainer -> Trainer.
Variable batch_size : Batch -> Z.
Variable perf_counter : nat -> F.
Variable fsub fadd fmul : F -> F -> F.
Variable f_0_01 f_0_99 : F.

(** What the loop of [train_one_epoch] has in hand between two batches:
    the trainer, the chunks seen, the smoothed loss, the number of calls to
    [lr_scheduler.step()], the readings of the clock and the rows given to
    the loss log. *)
Record progress : Type := mkProgress {
  trainer : Trainer;
  chunks_seen : Z;
  smoothed_loss : option F;
  scheduler_steps : nat;
  clock_readings : nat;
  logged : list (list (string * cell F))
}.

(** One turn of the loop
    [[
    chunks += batch[0].shape[0]
    losses, grad_norm = self.train_one_step(batch)
    losses = {k: v.item() for k,v in losses.items()}
    if lr_scheduler is not None: lr_scheduler.step()
    smoothed_loss = losses['loss'] if smoothed_loss is None else (0.01 * losses['loss'] + 0.99 * smoothed_loss)
    ...
    if loss_log is not None:
        loss_log.append({'chunks': chunks, 'time': perf_counter() - t0, 'grad_norm': grad_norm, **losses})
    ]]
    (the progress bar is display only). [loss_log] and [lr_scheduler] say
    whether the two arguments are given. *)
Definition train_batch (loss_log lr_scheduler : bool) (batch : Batch) (p : progress)
  : progress * outcome unit :=
  let chunks := chunks_seen p + batch_size batch in
  let '(s, r) := train_one_step batch (trainer p) in
  match r with
  | Raise e =>
      (mkProgress s chunks (smoothed_loss p) (scheduler_steps p) (clock_readings p) (logged p),
       Raise e)
  | Ret (losses, grad_norm) =>
      let steps := if lr_scheduler then S (scheduler_steps p) else scheduler_steps p in
      match dict_get "loss" losses with
      | None =>
          (mkProgress s chunks (smoothed_loss p) steps (clock_readings p) (logged p),
           Raise (KeyError (VStr "loss")))
      | Some loss =>
          let smoothed := match smoothed_loss p with
                          | None => loss
                          | Some sm => fadd (fmul f_0_01 loss) (fmul f_0_99 sm)
                          end in
          if loss_log then
            let row := dict_update
                         [("chunks", CInt chunks);
                          ("time", CNum (fsub (perf_counter (clock_readings p))
                                           (perf_counter 0)));
                          ("grad_norm", CNum grad_norm)]
                         (map (fun kv => (fst kv, CNum (snd kv))) losses) in
            (mkProgress s chunks (Some smoothed) steps (S (clock_readings p))
               (app (logged p) [row]), Ret tt)
          else
            (mkProgress s chunks (Some smoothed) steps (clock_readings p) (logged p), Ret tt)
      end
  end.

(** [for batch in self.train_loader: ...] *)
Fixpoint train_batches (loss_log lr_scheduler : bool) (train_loader : list Batch)
  (p : progress) : progress * outcome unit :=
  match train_loader with
  | [] => (p, Ret tt)
  | batch :: rest =>
      match train_batch loss_log lr_scheduler batch p with
      | (p', Ret _) => train_batches loss_log lr_scheduler rest p'
      | (p', Raise e) => (p', Raise e)
      end
  end.

(** [[
    t0 = perf_counter()
    chunks = 0
    self.model.train()
    ...
    smoothed_loss = None
    for batch in self.train_loader: ...
    return smoothed_loss, perf_counter() - t0
    ]]
    The result comes with the progress made, also when a batch raises. *)
Definition train_one_epoch (loss_log lr_scheduler : bool) (train_loader : list Batch) (s : Trainer)
  : progress * outcome (option F * F) :=
  let '(p, r) := train_batches loss_log lr_scheduler train_loader
                   (mkProgress (model_train s) 0 None 0 1 []) in
  (p, let* _ := r in
      Ret (smoothed_loss p, fsub (perf_counter (clock_readings p)) (perf_counter 0))).

End Training.

(** The total of the sizes of the first [k] batches. *)
Definition chunks_after {Batch} (batch_size : Batch -> Z) (train_loader : list Batch) (k : nat)
  : Z :=
  fold_right Z.add 0 (map batch_size (firstn k train_loader)).

(** ** The working directory between [fit] and [load_state] *)





(** The files of a run of [fit] over the epochs [last_epoch + 1] to
    [last_epoch + epochs]: the summary log, and the loss log and the
    checkpoint of each epoch. *)
Definition run_file (workdir : string) (epochs last_epoch : Z) (path : string) : Prop :=
  path = training_path workdir
  \/ exists e, last_epoch < e <= last_epoch + epochs
               /\ (path = losses_path workdir e \/ path = weights_path workdir e).

(** * Properties *)

(** ** The registry *)

Section RegistryFacts.
Context {C : Type} `{EqDecision C}.
Variable dunder_name : C -> string.

Lemma register_all_snoc (cs : list C) (c : C) (st : Registry.state) :
  Registry.register_all dunder_name (cs ++ [c]) st
  = snd (Registry.register dunder_name c (Registry.register_all dunder_name cs st)).
Proof. unfold Registry.register_all. by rewrite fold_left_app. Qed.

(** After a run of registrations whose canonical names are pairwise
    distinct, every registered class is found under its own name. *)
Lemma register_all_lookup (cs : list C) (st : Registry.state) (c : C) :
  NoDup (map (fun c => lower (dunder_name c)) cs) -> In c cs ->
  Registry.layers (Registry.register_all dunder_name cs st) !! lower (dunder_name c) = Some c.
Proof.
  induction cs as [|x cs IH] using rev_ind; intros Hnd Hin; [by destruct Hin|].
  rewrite register_all_snoc. cbn.
  rewrite map_app in Hnd. apply NoDup_app in Hnd as (Hnd & Hfresh & _).
  apply in_app_or in Hin as [Hin | [-> | []]].
  - rewrite lookup_insert_ne; [by apply IH|].
    intros Heq. apply (Hfresh (lower (dunder_name c))).
    + apply list_elem_of_In, in_map_iff. by exists c.
    + rewrite <- Heq. cbn. left.
  - by rewrite lookup_insert_eq.
Qed.

End RegistryFacts.

(** C9. [register] returns the class it is given, enters it in [layers]
    under its lowercased [__name__], and, the canonical names being unique,
    a later resolution of that name yields the class in whatever order
    the classes were registered. *)
Theorem register_resolves {C : Type} `{EqDecision C} (dunder_name : C -> string)
  (cs cs' : list C) (st : Registry.state) (c : C) :
  NoDup (map (fun c => lower (dunder_name c)) cs) ->
  Permutation cs' cs ->
  In c cs ->
  fst (Registry.register dunder_name c st) = c
  /\ Registry.resolve (snd (Registry.register dunder_name c st)) (lower (dunder_name c)) = Some c
  /\ Registry.resolve (Registry.register_all dunder_name cs' st) (lower (dunder_name c)) = Some c.
Proof.
  intros Hnd Hperm Hin. split; [done|]. split.
  - unfold Registry.resolve. cbn. by rewrite lookup_insert_eq.
  - unfold Registry.resolve. apply register_all_lookup.
    + by rewrite Hperm.
    + eapply Permutation_in; [|exact Hin]. by symmetry.
Qed.

Lemma register_resolves_witness :
  NoDup (map (fun c => lower (dunder_name c)) [CReLU; CTanh; CLSTM])
  /\ Permutation [CLSTM; CReLU; CTanh] [CReLU; CTanh; CLSTM]
  /\ In CTanh [CReLU; CTanh; CLSTM]
  /\ Registry.resolve
       (Registry.register_all dunder_name [CLSTM; CReLU; CTanh] Registry.empty) "tanh"
     = Some CTanh.
Proof.
  assert (Hnd : NoDup (map (fun c => lower (dunder_name c)) [CReLU; CTanh; CLSTM])).
  { compute_done. }
  assert (Hp : Permutation [CLSTM; CReLU; CTanh] [CReLU; CTanh; CLSTM]).
  { change [CLSTM; CReLU; CTanh] with (app [CLSTM] [CReLU; CTanh]).
    change [CReLU; CTanh; CLSTM] with (app [CReLU; CTanh] [CLSTM]).
    apply Permutation_app_comm. }
  assert (Hin : In CTanh [CReLU; CTanh; CLSTM]) by (cbn; tauto).
  split; [exact Hnd|]. split; [exact Hp|]. split; [exact Hin|].
  exact (proj2 (proj2 (register_resolves dunder_name _ _ Registry.empty CTanh Hnd Hp Hin))).
Defined.

(** ** Dictionaries *)

Section DictFacts.
Context {V : Type}.
Implicit Types (d : list (string * V)) (k : string).

Lemma dict_pop_get k d v rest :
  dict_pop k d = Some (v, rest) -> dict_get k d = Some v.
Proof.
  revert v rest. induction d as [|[k' v'] d IH]; intros v rest; cbn; [done|].
  destruct (String.eqb k' k); [congruence|].
  destruct (dict_pop k d) as [[x d'']|]; [|done].
  intros [= -> <-]. by eapply IH.
Qed.

Lemma dict_get_pop k d v :
  dict_get k d = Some v -> exists rest, dict_pop k d = Some (v, rest).
Proof.
  induction d as [|[k' v'] d IH]; cbn; [done|].
  destruct (String.eqb k' k); [intros [= ->]; eauto|].
  intros Hg. destruct (IH Hg) as [rest ->]. eauto.
Qed.

Lemma dict_pop_get_ne k k' d v rest :
  k <> k' -> dict_pop k d = Some (v, rest) -> dict_get k' rest = dict_get k' d.
Proof.
  intros Hne. revert v rest. induction d as [|[k0 v0] d IH]; intros v rest; cbn; [done|].
  destruct (String.eqb_spec k0 k) as [->|Hk].
  - intros [= <- <-]. destruct (String.eqb_spec k k'); [done|done].
  - destruct (dict_pop k d) as [[x d'']|]; [|done].
    intros [= <- <-]. cbn. destruct (String.eqb k0 k'); [done|]. by eapply IH.
Qed.

Lemma dict_pop_keys k d v rest :
  dict_pop k d = Some (v, rest) -> forall k', In k' (dict_keys rest) -> In k' (dict_keys d).
Proof.
  revert v rest. induction d as [|[k0 v0] d IH]; intros v rest; cbn; [done|].
  destruct (String.eqb k0 k).
  - intros [= <- <-] k' Hin. by right.
  - destruct (dict_pop k d) as [[x d'']|]; [|done].
    intros [= <- <-] k' [Hin|Hin]; [by left|right; by eapply IH].
Qed.

Lemma dict_set_keys k (v : V) d :
  dict_mem k d = true -> dict_keys (dict_set k v d) = dict_keys d.
Proof.
  unfold dict_mem, dict_keys. induction d as [|[k0 v0] d IH]; cbn; [done|].
  destruct (String.eqb_spec k0 k) as [->|Hk]; [done|].
  intros Hm. cbn. by rewrite IH.
Qed.

Lemma dict_get_set_eq k (v : V) d : dict_get k (dict_set k v d) = Some v.
Proof.
  induction d as [|[k0 v0] d IH]; cbn; [by rewrite String.eqb_refl|].
  destruct (String.eqb_spec k0 k) as [->|Hk]; cbn.
  - by rewrite String.eqb_refl.
  - destruct (String.eqb_spec k0 k); [done|]. apply IH.
Qed.

End DictFacts.

Lemma dict_keys_map {A B} (f : A -> B) (d : list (string * A)) :
  dict_keys (map (fun kv => (fst kv, f (snd kv))) d) = dict_keys d.
Proof. unfold dict_keys. rewrite map_map. by apply map_ext. Qed.

Lemma dict_mem_map {A B} (f : A -> B) (d : list (string * A)) k :
  dict_mem k (map (fun kv => (fst kv, f (snd kv))) d) = dict_mem k d.
Proof.
  unfold dict_mem. induction d as [|[k0 v0] d IH]; cbn; [done|].
  by destruct (String.eqb k0 k).
Qed.

(** ** [from_dict] unfolded *)

Lemma from_dict_in_dict (layer_types : gmap string layer_class) (kvs : list (string * value)) :
  from_dict_in layer_types (VDict kvs)
  = from_dict_body layer_types kvs
      (option_map (from_dict_sublayers layer_types) (dict_get "sublayers" kvs)).
Proof.
  cbn [from_dict_in]. f_equal.
  induction kvs as [|[k v] kvs IH]; [done|].
  cbn [dict_get]. destruct (String.eqb k "sublayers"); [|exact IH].
  cbn [option_map]. f_equal. destruct v; try reflexivity.
  cbn [from_dict_sublayers]. f_equal.
  induction xs as [|x xs IHxs]; [done|].
  cbn [from_dict_each]. by rewrite <- IHxs.
Qed.

(** [from_dict] on a dictionary with a ['type'] entry: resolve the type,
    build the keyword arguments (the sublayers first), call the class. *)
Lemma from_dict_in_typed layer_types kvs type_name rest :
  dict_pop "type" kvs = Some (type_name, rest) ->
  from_dict_in layer_types (VDict kvs)
  = mbind (mlift [] (lookup_type layer_types type_name)) (fun typ =>
    mbind (keyword_arguments layer_types rest) (fun model_dict =>
    build typ model_dict)).
Proof.
  intros Hpop. rewrite from_dict_in_dict. unfold from_dict_body, keyword_arguments.
  rewrite Hpop. by rewrite (dict_pop_get_ne "type" "sublayers" kvs type_name rest).
Qed.

Lemma mbind_lift_ret {A B} (a : A) (k : A -> M B) :
  mbind (mlift [] (Ret a)) k = k a.
Proof. unfold mbind, mlift. by destruct (k a). Qed.

Lemma keyword_arguments_keys layer_types rest log model_dict :
  keyword_arguments layer_types rest = (log, Ret model_dict) ->
  dict_keys model_dict = dict_keys rest.
Proof.
  unfold keyword_arguments, with_sublayers.
  destruct (dict_get "sublayers" rest) as [s|] eqn:Hs; cbn [option_map].
  - assert (Hm : dict_mem "sublayers" rest = true) by (unfold dict_mem; by rewrite Hs).
    rewrite Hm. unfold mbind, mret.
    destruct (from_dict_sublayers layer_types s) as [l [a|e]]; [|done].
    intros [= _ <-]. rewrite dict_set_keys; [apply dict_keys_map|].
    by rewrite dict_mem_map.
  - intros [= _ <-]. apply dict_keys_map.
Qed.

(** The sublayers are deserialised while the keyword arguments are built:
    their constructor calls are the whole log of that step, and what they
    built is the argument passed under ['sublayers']. *)
Lemma keyword_arguments_sublayers layer_types rest log model_dict sublayers :
  keyword_arguments layer_types rest = (log, Ret model_dict) ->
  dict_get "sublayers" rest = Some sublayers ->
  exists a, from_dict_sublayers layer_types sublayers = (log, Ret a)
            /\ dict_get "sublayers" model_dict = Some a.
Proof.
  unfold keyword_arguments, with_sublayers. intros Hk Hs. rewrite Hs in Hk.
  cbn [option_map] in Hk.
  assert (Hm : dict_mem "sublayers" rest = true) by (unfold dict_mem; by rewrite Hs).
  rewrite Hm in Hk. unfold mbind, mret in Hk.
  destruct (from_dict_sublayers layer_types sublayers) as [l [a|e]]; [|done].
  injection Hk as <- <-. exists a. rewrite app_nil_r. split; [done|].
  apply dict_get_set_eq.
Qed.

(** ** C2: an unknown type name *)

(** C2, as the code has it. A document whose ['type'] names no entry of the
    registry makes [from_dict] fail with the [KeyError] of the dictionary
    lookup, which carries the name; no constructor is called. *)
Theorem from_dict_unknown_type (layer_types : option (gmap string layer_class))
  (kvs : list (string * value)) (name : string) :
  dict_get "type" kvs = Some (VStr name) ->
  default layers layer_types !! name = None ->
  from_dict (VDict kvs) layer_types = ([], Raise (Exn "KeyError" (DKey (VStr name)) None)).
Proof.
  intros Hty Hreg. destruct (dict_get_pop _ _ _ Hty) as [rest Hpop].
  unfold from_dict. rewrite (from_dict_in_typed _ _ _ _ Hpop).
  unfold lookup_type. cbn [hashable].
  change (match layer_types with Some t => t | None => layers end)
    with (default layers layer_types).
  by rewrite Hreg.
Qed.

Lemma from_dict_unknown_type_witness :
  dict_get "type" [("type", VStr "gru"); ("size", VInt 4)] = Some (VStr "gru")
  /\ default layers None !! "gru" = None
  /\ from_dict (VDict [("type", VStr "gru"); ("size", VInt 4)]) None
     = ([], Raise (Exn "KeyError" (DKey (VStr "gru")) None)).
Proof.
  assert (H1 : dict_get "type" [("type", VStr "gru"); ("size", VInt 4)] = Some (VStr "gru"))
    by reflexivity.
  assert (H2 : default layers None !! "gru" = None) by (vm_compute; reflexivity).
  split; [exact H1|]. split; [exact H2|].
  exact (from_dict_unknown_type None _ "gru" H1 H2).
Defined.

(** The document [{'type': 'gru'}] names an unregistered type; the error
    is a [KeyError], not an [UnknownLayerType]. *)
Lemma unknown_type_not_dedicated_error :
  layers !! "gru" = None
  /\ snd (from_dict (VDict [("type", VStr "gru")]) None)
     = Raise (Exn "KeyError" (DKey (VStr "gru")) None)
  /\ ~ (exists e, snd (from_dict (VDict [("type", VStr "gru")]) None) = Raise e
                  /\ exn_class e = "UnknownLayerType").
Proof.
  split; [vm_compute; reflexivity|].
  assert (H : snd (from_dict (VDict [("type", VStr "gru")]) None)
              = Raise (Exn "KeyError" (DKey (VStr "gru")) None)) by (vm_compute; reflexivity).
  split; [exact H|]. intros (e & He & Hc). rewrite H in He.
  injection He as <-. discriminate Hc.
Qed.

(** ** What a constructor can raise *)

(** Every exception raised by a constructor of the registry derives from
    [Exception], so the [except Exception] clause of [from_dict] catches
    it. *)
Definition raises_Exception {A} (o : outcome A) : Prop :=
  forall e, o = Raise e -> is_Exception e = true.

Create HintDb raises discriminated.

Lemma raises_Ret {A} (a : A) : raises_Exception (Ret a).
Proof. by intros e. Qed.

Lemma raises_TypeError {A} d : raises_Exception (A := A) (Raise (TypeError d)).
Proof. by intros e [= <-]. Qed.

Lemma raises_ZeroDivisionError {A} d :
  raises_Exception (A := A) (Raise (Exn "ZeroDivisionError" d None)).
Proof. by intros e [= <-]. Qed.

Lemma raises_plain_Exception {A} d :
  raises_Exception (A := A) (Raise (Exn "Exception" d None)).
Proof. by intros e [= <-]. Qed.

Lemma raises_obind {A B} (m : outcome A) (k : A -> outcome B) :
  raises_Exception m -> (forall a, raises_Exception (k a)) -> raises_Exception (obind m k).
Proof.
  intros Hm Hk e. destruct m as [a|e']; cbn; [apply Hk|]. intros [= <-]. by apply Hm.
Qed.

Lemma raises_if {A} (b : bool) (x y : outcome A) :
  raises_Exception x -> raises_Exception y -> raises_Exception (if b then x else y).
Proof. by destruct b. Qed.

#[local] Hint Resolve raises_Ret raises_TypeError raises_ZeroDivisionError
  raises_plain_Exception raises_obind raises_if : raises.

Lemma raises_as_int what a : raises_Exception (as_int what a).
Proof. destruct a as [[]| |]; cbn; auto with raises. Qed.

Lemma raises_as_value what a : raises_Exception (as_value what a).
Proof. destruct a; cbn; auto with raises. Qed.

Lemma raises_int_pow b e : raises_Exception (int_pow b e).
Proof. unfold int_pow. auto with raises. Qed.

Lemma raises_inv_sqrt_defined d : raises_Exception (inv_sqrt_defined d).
Proof. unfold inv_sqrt_defined. auto with raises. Qed.

#[local] Hint Resolve raises_as_int raises_as_value raises_int_pow
  raises_inv_sqrt_defined : raises.

Lemma raises_bind_arguments callee sig kwargs :
  raises_Exception (bind_arguments callee sig kwargs).
Proof.
  unfold bind_arguments. destruct (unexpected_keyword sig kwargs); [auto with raises|].
  destruct (missing_arguments sig kwargs); auto with raises.
Qed.

Lemma raises_Serial_init a : raises_Exception (Serial_init a).
Proof.
  destruct a as [v|l|ls]; cbn; [| |auto with raises].
  - destruct v as [| | | |s|xs|kvs|]; auto with raises.
    + destruct s as [|c s]; auto with raises.
    + destruct xs; auto with raises.
    + destruct kvs; auto with raises.
  - destruct l; auto with raises.
Qed.

#[local] Hint Resolve raises_bind_arguments raises_Serial_init : raises.

Lemma raises_Reverse_init a : raises_Exception (Reverse_init a).
Proof.
  destruct a as [v|l|ls]; [destruct v|..];
    cbv beta iota delta [Reverse_init]; auto with raises.
Qed.

Lemma raises_get_activation call0 a :
  (forall c, raises_Exception (call0 c)) -> raises_Exception (get_activation call0 a).
Proof.
  intros H0. destruct a as [v|l|ls]; cbn; [|auto with raises..].
  destruct (hashable v); [|auto with raises].
  destruct v; auto with raises.
  destruct (layers !! s); auto with raises.
Qed.

Lemma raises_SHA_init a b : raises_Exception (SHA_init a b).
Proof. unfold SHA_init. auto 10 with raises. Qed.

Lemma raises_MHA_init a b c d : raises_Exception (MHA_init a b c d).
Proof. unfold MHA_init. auto 10 with raises. Qed.

Lemma raises_FeedForward_init a b c : raises_Exception (FeedForward_init a b c).
Proof. unfold FeedForward_init. auto 10 with raises. Qed.

Lemma raises_Boom_init a b c : raises_Exception (Boom_init a b c).
Proof. unfold Boom_init. auto 10 with raises. Qed.

#[local] Hint Resolve raises_Reverse_init raises_get_activation raises_SHA_init
  raises_MHA_init raises_FeedForward_init raises_Boom_init : raises.

Lemma raises_init call0 c env :
  (forall c, raises_Exception (call0 c)) -> raises_Exception (init call0 c env).
Proof.
  intros H0. destruct c; cbn [init]; auto with raises.
  - unfold Convolution_init, torch_nn_Conv1d. auto 20 with raises.
  - unfold LinearCRFEncoder_init, torch_nn_Linear.
    repeat (apply raises_obind; [auto with raises|intros ?]); auto with raises.
    destruct a1; auto 10 with raises.
  - unfold LayerScale_init. auto 10 with raises.
  - unfold SHABlock_init. auto 20 with raises.
  - unfold Permute_init. auto 10 with raises.
  - unfold LSTM_init, RNNWrapper_init, torch_nn_LSTM. auto 20 with raises.
Qed.

Lemma raises_call_with call0 c kwargs :
  (forall c, raises_Exception (call0 c)) -> raises_Exception (call_with call0 c kwargs).
Proof.
  intros H0. unfold call_with. apply raises_obind; [auto with raises|].
  intros env. by apply raises_init.
Qed.

Lemma raises_call c kwargs : raises_Exception (call c kwargs).
Proof.
  apply raises_call_with. intros c0. apply raises_call_with.
  intros c1. auto with raises.
Qed.

(** ** C3: a constructor that rejects the document's fields *)

Lemma build_raise typ model_dict e :
  call typ model_dict = Raise e ->
  build typ model_dict
  = ([Called typ model_dict],
     Raise (Exn "Exception" (DFailedToBuild typ model_dict) (Some e))).
Proof.
  intros Hc. unfold build, mlift. rewrite Hc.
  by rewrite (raises_call typ model_dict e Hc).
Qed.

(** [from_dict] wraps the exception of the constructor it called. *)
Lemma from_dict_wraps (layer_types : option (gmap string layer_class))
  (kvs rest : list (string * value)) (type_name : value) (typ : layer_class)
  (log : list event) (model_dict : list (string * arg)) (e : exn) :
  dict_pop "type" kvs = Some (type_name, rest) ->
  lookup_type (default layers layer_types) type_name = Ret typ ->
  keyword_arguments (default layers layer_types) rest = (log, Ret model_dict) ->
  call typ model_dict = Raise e ->
  from_dict (VDict kvs) layer_types
  = (app log [Called typ model_dict],
     Raise (Exn "Exception" (DFailedToBuild typ model_dict) (Some e))).
Proof.
  intros Hpop Hty Hkw Hcall. unfold from_dict.
  change (match layer_types with Some t => t | None => layers end)
    with (default layers layer_types).
  rewrite (from_dict_in_typed _ _ _ _ Hpop), Hty, mbind_lift_ret, Hkw.
  unfold mbind. by rewrite (build_raise _ _ _ Hcall).
Qed.

(** C3. When the type resolves and the constructor rejects the arguments
    built from the document, [from_dict] raises an [Exception] whose cause
    is the constructor's own exception and whose message holds the class
    and the whole argument dictionary. The sublayers have been deserialised
    by then: their constructor calls precede the parent's in the log, and
    what they built is the parent's ['sublayers'] argument. *)
Theorem from_dict_construction_error (layer_types : option (gmap string layer_class))
  (kvs rest : list (string * value)) (type_name : value) (typ : layer_class)
  (log : list event) (model_dict : list (string * arg)) (e : exn) :
  dict_pop "type" kvs = Some (type_name, rest) ->
  lookup_type (default layers layer_types) type_name = Ret typ ->
  keyword_arguments (default layers layer_types) rest = (log, Ret model_dict) ->
  call typ model_dict = Raise e ->
  from_dict (VDict kvs) layer_types
  = (app log [Called typ model_dict],
     Raise (Exn "Exception" (DFailedToBuild typ model_dict) (Some e)))
  /\ forall sublayers, dict_get "sublayers" rest = Some sublayers ->
       exists a, from_dict_sublayers (default layers layer_types) sublayers = (log, Ret a)
                 /\ dict_get "sublayers" model_dict = Some a.
Proof.
  intros Hpop Hty Hkw Hcall. split.
  - by apply from_dict_wraps with rest type_name.
  - intros sublayers Hs. by eapply keyword_arguments_sublayers.
Qed.

(** A [reverse] document whose sublayers are fine but which carries a key
    the class does not take. *)
Lemma from_dict_construction_error_witness :
  let rest := [("sublayers", VList [VDict [("type", VStr "tanh")]]); ("width", VInt 3)] in
  let kvs := ("type", VStr "reverse") :: rest in
  let model_dict := [("sublayers", ALayers [Tanh]); ("width", AVal (VInt 3))] in
  let e := TypeError (DUnexpectedKeyword "Reverse" "width") in
  dict_pop "type" kvs = Some (VStr "reverse", rest)
  /\ lookup_type (default layers None) (VStr "reverse") = Ret CReverse
  /\ keyword_arguments (default layers None) rest = ([Called CTanh []], Ret model_dict)
  /\ call CReverse model_dict = Raise e
  /\ from_dict (VDict kvs) None
     = ([Called CTanh []; Called CReverse model_dict],
        Raise (Exn "Exception" (DFailedToBuild CReverse model_dict) (Some e))).
Proof.
  intros rest kvs model_dict e.
  assert (H1 : dict_pop "type" kvs = Some (VStr "reverse", rest)) by reflexivity.
  assert (H2 : lookup_type (default layers None) (VStr "reverse") = Ret CReverse)
    by (vm_compute; reflexivity).
  assert (H3 : keyword_arguments (default layers None) rest
               = ([Called CTanh []], Ret model_dict)) by (vm_compute; reflexivity).
  assert (H4 : call CReverse model_dict = Raise e) by (vm_compute; reflexivity).
  split; [exact H1|]. split; [exact H2|]. split; [exact H3|]. split; [exact H4|].
  exact (proj1 (from_dict_construction_error None kvs rest (VStr "reverse") CReverse
                  [Called CTanh []] model_dict e H1 H2 H3 H4)).
Defined.

(** When a sublayer cannot be deserialised, its error is the result and
    the parent's constructor is never called. *)
Lemma from_dict_sublayer_error (layer_types : option (gmap string layer_class))
  (kvs rest : list (string * value)) (type_name : value) (typ : layer_class)
  (log : list event) (e : exn) :
  dict_pop "type" kvs = Some (type_name, rest) ->
  lookup_type (default layers layer_types) type_name = Ret typ ->
  keyword_arguments (default layers layer_types) rest = (log, Raise e) ->
  from_dict (VDict kvs) layer_types = (log, Raise e).
Proof.
  intros Hpop Hty Hkw. unfold from_dict.
  change (match layer_types with Some t => t | None => layers end)
    with (default layers layer_types).
  by rewrite (from_dict_in_typed _ _ _ _ Hpop), Hty, mbind_lift_ret, Hkw.
Qed.

(** ** C4: keys the constructor does not know *)

Lemma unexpected_keyword_some sig (kwargs : list (string * arg)) k :
  In k (dict_keys kwargs) -> dict_mem k sig = false ->
  exists k', unexpected_keyword sig kwargs = Some k'
             /\ In k' (dict_keys kwargs) /\ dict_mem k' sig = false.
Proof.
  intros Hin Hk. unfold unexpected_keyword.
  destruct (List.filter (fun k => negb (dict_mem k sig)) (dict_keys kwargs))
    as [|k' l] eqn:Hf.
  - assert (Hin' : In k (List.filter (fun k => negb (dict_mem k sig)) (dict_keys kwargs))).
    { apply filter_In. by rewrite Hk. }
    rewrite Hf in Hin'. destruct Hin'.
  - exists k'. split; [done|].
    assert (Hin' : In k' (List.filter (fun k => negb (dict_mem k sig)) (dict_keys kwargs))).
    { rewrite Hf. by left. }
    apply filter_In in Hin' as [? Hn]. split; [done|]. by apply negb_true_iff.
Qed.

(** C4, as the code has it. Every key of the document other than ['type']
    reaches the constructor as a keyword argument. If one of them names no
    parameter of the resolved class, the constructor rejects the call and
    [from_dict] fails with the [Exception] wrapping that [TypeError]: the
    key is not ignored. *)
Theorem from_dict_extra_key (layer_types : option (gmap string layer_class))
  (kvs rest : list (string * value)) (type_name : value) (typ : layer_class)
  (log : list event) (model_dict : list (string * arg)) (k : string) :
  dict_pop "type" kvs = Some (type_name, rest) ->
  lookup_type (default layers layer_types) type_name = Ret typ ->
  keyword_arguments (default layers layer_types) rest = (log, Ret model_dict) ->
  In k (dict_keys rest) ->
  dict_mem k (signature_of typ) = false ->
  exists k',
    In k' (dict_keys rest) /\ dict_mem k' (signature_of typ) = false
    /\ snd (from_dict (VDict kvs) layer_types)
       = Raise (Exn "Exception" (DFailedToBuild typ model_dict)
                  (Some (TypeError (DUnexpectedKeyword (dunder_name typ) k')))).
Proof.
  intros Hpop Hty Hkw Hin Hk.
  pose proof (keyword_arguments_keys _ _ _ _ Hkw) as Hkeys.
  rewrite <- Hkeys in Hin.
  destruct (unexpected_keyword_some _ _ _ Hin Hk) as (k' & Hu & Hin' & Hk').
  exists k'. rewrite Hkeys in Hin'. split; [done|]. split; [done|].
  assert (Hcall : call typ model_dict
                  = Raise (TypeError (DUnexpectedKeyword (dunder_name typ) k'))).
  { unfold call, call_with, bind_arguments. by rewrite Hu. }
  by rewrite (from_dict_wraps _ _ _ _ _ _ _ _ Hpop Hty Hkw Hcall).
Qed.

Lemma from_dict_extra_key_witness :
  let rest := [("dims", VList [VInt 0; VInt 2; VInt 1]); ("comment", VStr "x")] in
  let kvs := ("type", VStr "permute") :: rest in
  let model_dict := [("dims", AVal (VList [VInt 0; VInt 2; VInt 1]));
                     ("comment", AVal (VStr "x"))] in
  dict_pop "type" kvs = Some (VStr "permute", rest)
  /\ lookup_type (default layers None) (VStr "permute") = Ret CPermute
  /\ keyword_arguments (default layers None) rest = ([], Ret model_dict)
  /\ In "comment" (dict_keys rest)
  /\ dict_mem "comment" (signature_of CPermute) = false
  /\ exists k',
       In k' (dict_keys rest) /\ dict_mem k' (signature_of CPermute) = false
       /\ snd (from_dict (VDict kvs) None)
          = Raise (Exn "Exception" (DFailedToBuild CPermute model_dict)
                     (Some (TypeError (DUnexpectedKeyword (dunder_name CPermute) k')))).
Proof.
  intros rest kvs model_dict.
  assert (H1 : dict_pop "type" kvs = Some (VStr "permute", rest)) by reflexivity.
  assert (H2 : lookup_type (default layers None) (VStr "permute") = Ret CPermute)
    by (vm_compute; reflexivity).
  assert (H3 : keyword_arguments (default layers None) rest = ([], Ret model_dict))
    by reflexivity.
  assert (H4 : In "comment" (dict_keys rest)) by (cbn; tauto).
  assert (H5 : dict_mem "comment" (signature_of CPermute) = false) by reflexivity.
  split; [exact H1|]. split; [exact H2|]. split; [exact H3|]. split; [exact H4|].
  split; [exact H5|].
  exact (from_dict_extra_key None kvs rest (VStr "permute") CPermute [] model_dict
           "comment" H1 H2 H3 H4 H5).
Defined.

(** The document [{'type': 'permute', 'dims': [0, 2, 1]}] builds a
    [Permute]; with the extra key ['comment'] it does not build anything. *)
Lemma extra_key_changes_result :
  let doc := VDict [("type", VStr "permute"); ("dims", VList [VInt 0; VInt 2; VInt 1])] in
  let doc' := VDict [("type", VStr "permute"); ("dims", VList [VInt 0; VInt 2; VInt 1]);
                     ("comment", VStr "x")] in
  snd (from_dict doc None) = Ret (Permute (VList [VInt 0; VInt 2; VInt 1]))
  /\ snd (from_dict doc' None) <> snd (from_dict doc None).
Proof.
  intros doc doc'.
  assert (H : snd (from_dict doc None) = Ret (Permute (VList [VInt 0; VInt 2; VInt 1])))
    by (vm_compute; reflexivity).
  split; [exact H|]. rewrite H.
  assert (H' : exists e, snd (from_dict doc' None) = Raise e) by (eexists; vm_compute; reflexivity).
  destruct H' as [e ->]. discriminate.
Qed.

(** ** C10: [from_dict] does not change the document it is given *)

Section StoreFacts.
Context {L T : Type}.
Variable construct : gmap Store.loc (Store.obj L) -> T -> list (string * Store.hval L) -> L + Store.error.

Implicit Types (h : gmap Store.loc (Store.obj L)) (l : Store.loc).

(** A computation keeps [h] when, started in any store that contains the
    objects of [h] as they are, it ends in such a store. *)
Definition keeps {A} h (m : Store.run (L := L) A) : Prop :=
  forall h1, h ⊆ h1 -> h ⊆ fst (m h1).

Lemma keeps_rret {A} h (a : A) : keeps h (Store.rret a).
Proof. by intros h1. Qed.

Lemma keeps_rfail {A} h e : keeps h (Store.rfail (A := A) e).
Proof. by intros h1. Qed.

Lemma keeps_read h l : keeps h (Store.read l).
Proof. by intros h1. Qed.

Lemma keeps_OutOfFuel {A} h : keeps h (fun h1 => (h1, Store.OutOfFuel (A := A))).
Proof. by intros h1. Qed.

(** Sequencing, with a property [Q] of the intermediate value that holds
    whenever the first computation is run in a store containing [h]. *)
Lemma keeps_rbind {A B} h (Q : A -> Prop) (m : Store.run A) (k : A -> Store.run B) :
  keeps h m ->
  (forall h1 h2 a, h ⊆ h1 -> m h1 = (h2, Store.Done a) -> Q a) ->
  (forall a, Q a -> keeps h (k a)) ->
  keeps h (Store.rbind m k).
Proof.
  intros Hm HQ Hk h1 Hh. unfold Store.rbind.
  pose proof (Hm h1 Hh) as Hm1.
  destruct (m h1) as [h2 [a|e|]] eqn:Hrun; cbn in *; [|done..].
  apply Hk; [exact (HQ h1 h2 a Hh Hrun)|done].
Qed.

Lemma keeps_rbind' {A B} h (m : Store.run A) (k : A -> Store.run B) :
  keeps h m -> (forall a, keeps h (k a)) -> keeps h (Store.rbind m k).
Proof. intros Hm Hk. apply (keeps_rbind h (fun _ => True)); auto. Qed.

(** Allocation takes a location that is not in use. *)
Lemma keeps_alloc h o : keeps h (Store.alloc o).
Proof.
  intros h1 Hh. cbn. etrans; [exact Hh|].
  apply insert_subseteq, not_elem_of_dom, is_fresh.
Qed.

Lemma alloc_fresh h h1 h2 o l :
  h ⊆ h1 -> Store.alloc o h1 = (h2, Store.Done l) -> h !! l = None.
Proof.
  intros Hh [= _ <-]. apply not_elem_of_dom. intros Hin.
  apply (is_fresh (dom h1)). by apply (subseteq_dom _ _ Hh).
Qed.

(** Writing to an object that [h] does not hold. *)
Lemma keeps_write h l o : h !! l = None -> keeps h (Store.write l o).
Proof.
  intros Hl h1 Hh. cbn. apply map_subseteq_spec. intros l' o' Hl'.
  destruct (decide (l = l')) as [<-|Hne]; [congruence|].
  rewrite lookup_insert_ne; [|done]. by eapply lookup_weaken.
Qed.

Lemma keeps_copy h v : keeps h (Store.copy v).
Proof.
  destruct v; cbn; try apply keeps_rfail.
  apply keeps_rbind'; [apply keeps_read|].
  intros [o|]; [apply keeps_alloc|apply keeps_rfail].
Qed.

Lemma copy_fresh h h1 h2 v l :
  h ⊆ h1 -> Store.copy v h1 = (h2, Store.Done l) -> h !! l = None.
Proof.
  intros Hh. destruct v; try discriminate. cbn. unfold Store.rbind, Store.read.
  destruct (h1 !! l0); [|discriminate]. by apply alloc_fresh.
Qed.

Lemma keeps_entries h l : keeps h (Store.entries l).
Proof.
  apply keeps_rbind'; [apply keeps_read|].
  intros [[kvs|xs]|]; (apply keeps_rret || apply keeps_rfail).
Qed.

Lemma keeps_pop_type h l : h !! l = None -> keeps h (Store.pop_type l).
Proof.
  intros Hl. apply keeps_rbind'; [apply keeps_read|].
  intros [[kvs|xs]|]; try apply keeps_rfail.
  destruct (dict_pop "type" kvs) as [[v rest]|]; [|apply keeps_rfail].
  apply keeps_rbind'; [by apply keeps_write|]. intros _. apply keeps_rret.
Qed.

Lemma keeps_lookup_type h (layer_types : gmap string T) v :
  keeps h (Store.lookup_type layer_types v).
Proof.
  destruct v; cbn; try apply keeps_rfail.
  destruct (layer_types !! s); [apply keeps_rret|apply keeps_rfail].
Qed.

Lemma keeps_set_sublayers h l v : h !! l = None -> keeps h (Store.set_sublayers l v).
Proof.
  intros Hl. apply keeps_rbind'; [apply keeps_entries|].
  intros kvs. by apply keeps_write.
Qed.

Lemma keeps_build h typ l : keeps h (Store.build construct typ l).
Proof.
  apply keeps_rbind'; [apply keeps_entries|].
  intros kwargs h1 Hh. cbn.
  destruct (construct h1 typ kwargs) as [layer|e]; [done|].
  by destruct (Store.error_is_Exception e).
Qed.

Lemma keeps_comprehension h (rec : Store.hval L -> Store.run L) s n i :
  (forall x, keeps h (rec x)) -> keeps h (Store.comprehension rec s n i).
Proof.
  intros Hrec. revert i. induction n as [|n IH]; intros i; [apply keeps_OutOfFuel|].
  cbn [Store.comprehension]. apply keeps_rbind'; [apply keeps_read|].
  intros [[kvs|xs]|]; try apply keeps_rfail.
  destruct (xs !! i) as [x|]; [|apply keeps_rret].
  apply keeps_rbind'; [apply Hrec|]. intros layer.
  apply keeps_rbind'; [apply IH|]. intros rest. apply keeps_rret.
Qed.

Lemma keeps_from_dict h fuel (layer_types : gmap string T) v :
  keeps h (Store.from_dict construct fuel layer_types v).
Proof.
  revert h v. induction fuel as [|fuel IH]; intros h v; [apply keeps_OutOfFuel|].
  cbn [Store.from_dict].
  apply (keeps_rbind h (fun l => h !! l = None)); [apply keeps_copy| |].
  { intros h1 h2 l Hh Hc. by eapply copy_fresh. }
  intros l Hl.
  apply keeps_rbind'; [by apply keeps_pop_type|]. intros type_name.
  apply keeps_rbind'; [apply keeps_lookup_type|]. intros typ.
  apply keeps_rbind'; [apply keeps_entries|]. intros kvs.
  apply keeps_rbind'; [|intros _; apply keeps_build].
  destruct (dict_get "sublayers" kvs) as [sublayers|]; [|apply keeps_rret].
  apply keeps_rbind'.
  { destruct sublayers; (apply keeps_read || apply keeps_rret). }
  intros o.
  assert (Hsingle : keeps h
            (Store.rbind (Store.from_dict construct fuel layer_types sublayers)
               (fun layer => Store.set_sublayers l (Store.HLayer layer)))).
  { apply keeps_rbind'; [apply IH|]. intros layer. by apply keeps_set_sublayers. }
  destruct sublayers; try exact Hsingle.
  destruct o as [[kvs'|xs]|]; try exact Hsingle.
  apply keeps_rbind'; [apply keeps_comprehension; intros x; apply IH|].
  intros ls. apply keeps_rbind'; [apply keeps_alloc|].
  intros built. by apply keeps_set_sublayers.
Qed.

End StoreFacts.

(** C10. Whatever the document, the registry, the constructors and the
    outcome (a layer, an exception, or the recursion bound reached), every
    object of the store [from_dict] was started in, the document it was
    given and its nested documents among them, is the same object with the
    same content when [from_dict] ends: the [pop] and the assignment to
    ['sublayers'] act on the copy. *)
Theorem from_dict_leaves_document {L T : Type}
  (construct : gmap Store.loc (Store.obj L) -> T -> list (string * Store.hval L)
               -> L + Store.error)
  (fuel : nat) (layer_types : gmap string T) (model_dict : Store.hval L)
  (h : gmap Store.loc (Store.obj L)) (l : Store.loc) (o : Store.obj L) :
  h !! l = Some o ->
  fst (Store.from_dict construct fuel layer_types model_dict h) !! l = Some o.
Proof.
  intros Hl. eapply lookup_weaken; [exact Hl|].
  by apply keeps_from_dict.
Qed.

Lemma from_dict_leaves_document_witness :
  let o := Store.ODict [("type", Store.HStr "reverse"); ("sublayers", Store.HRef 2%positive)] in
  example_store !! 1%positive = Some o
  /\ fst (Store.from_dict Store.construct 5 layers (Store.HRef 1%positive) example_store)
       !! 1%positive = Some o.
Proof.
  intros o.
  assert (H : example_store !! 1%positive = Some o) by reflexivity.
  split; [exact H|].
  exact (from_dict_leaves_document Store.construct 5 layers (Store.HRef 1%positive)
           example_store 1%positive o H).
Defined.

(** The run on the example: the layer is built, the three objects of the
    document are as they were, and the copies (locations 4 and 5) are the
    objects that lost their ['type'] and received the built sublayers. *)
Example from_dict_on_example_store :
  let r := Store.from_dict Store.construct 5 layers (Store.HRef 1%positive) example_store in
  snd r = Store.Done (Reverse (inl (Serial [Tanh])))
  /\ snd r = Store.Done
       (match snd (from_dict (VDict [("type", VStr "reverse");
                                     ("sublayers", VList [VDict [("type", VStr "tanh")]])]) None)
        with Ret n => n | Raise _ => Tanh end)
  /\ map_to_list (fst r)
     = [(5%positive, Store.ODict []);
        (3%positive, Store.ODict [("type", Store.HStr "tanh")]);
        (6%positive, Store.OList [Store.HLayer Tanh]);
        (4%positive, Store.ODict [("sublayers", Store.HRef 6%positive)]);
        (2%positive, Store.OList [Store.HRef 3%positive]);
        (1%positive, Store.ODict [("type", Store.HStr "reverse");
                                  ("sublayers", Store.HRef 2%positive)])].
Proof. vm_compute. repeat split; reflexivity. Qed.

(** ** C1: the round trip through [to_dict] and [from_dict] *)

(** C1 at an [LSTM]. [LSTM(size, insize)] hands [size] to [torch.nn.LSTM]
    as the input size and [insize] as the hidden size, while [to_dict]
    writes the hidden size under ['size'] and the input size under
    ['insize']: the node rebuilt from the document has the two sizes
    exchanged, and is the original only if they are equal. *)
Theorem LSTM_round_trip_swaps_sizes (size insize : Z) :
  let n := LSTM (VBool false) (mkLSTM size insize (VBool true) false) in
  let n' := LSTM (VBool false) (mkLSTM insize size (VBool true) false) in
  call CLSTM [("size", AVal (VInt size)); ("insize", AVal (VInt insize))] = Ret n
  /\ to_dict n false
     = Ret (VDict [("type", VStr "lstm"); ("size", VInt insize); ("insize", VInt size);
                   ("bias", VBool true); ("reverse", VBool false)])
  /\ (let* d := to_dict n false in snd (from_dict d None)) = Ret n'
  /\ (n' = n <-> size = insize).
Proof.
  intros n n'. split; [vm_compute; reflexivity|].
  split; [vm_compute; reflexivity|].
  split; [vm_compute; reflexivity|].
  unfold n, n'. split; [intros [= -> _]; reflexivity|intros ->; reflexivity].
Qed.

(** The instance [LSTM(size=2, insize=3)]: input size 2 and hidden size 3
    become input size 3 and hidden size 2. *)
Example LSTM_2_3_round_trip :
  (let* n := call CLSTM [("size", AVal (VInt 2)); ("insize", AVal (VInt 3))] in
   let* d := to_dict n false in
   let* n' := snd (from_dict d None) in
   Ret (n, n'))
  = Ret (LSTM (VBool false) (mkLSTM 2 3 (VBool true) false),
         LSTM (VBool false) (mkLSTM 3 2 (VBool true) false)).
Proof. vm_compute. reflexivity. Qed.

(** The attention classes define no [to_dict]: the document is the type
    name alone, from which the required [dim] cannot be recovered. *)
Example SHA_round_trip_fails :
  call CSHA [("dim", AVal (VInt 4))] = Ret (SHA 4 float_0)
  /\ to_dict (SHA 4 float_0) false = Ret (VDict [("type", VStr "sha")])
  /\ snd (from_dict (VDict [("type", VStr "sha")]) None)
     = Raise (Exn "Exception" (DFailedToBuild CSHA [])
                (Some (TypeError (DMissingArguments "SHA" ["dim"])))).
Proof. vm_compute. repeat split; reflexivity. Qed.

(** ** Strings: decimal numerals *)













(** ** Strings: the epoch pattern *)

#[local] Arguments String.append _ _ : simpl nomatch.




Lemma length_append (a b : string) :
  String.length (a ++ b) = (String.length a + String.length b)%nat.
Proof. induction a as [|x a IH]; simpl; [done|by f_equal]. Qed.















(** ** C5: the epoch [load_state] resumes from *)







(** The two cases of the specification, run: an empty directory gives 0,
    the epochs 3, 1, 7, 2 give 7 and the weights of epoch 7. *)
Example load_state_examples :
  load_state "runs/model_a" [] example_model = Ret (0, example_model)
  /\ load_state "runs/model_a" example_directory example_model
     = Ret (7, mkModel [("encoder.w", mkTensor [2] [7; 7])]).
Proof. vm_compute. split; reflexivity. Qed.

(** ** C6: the [module.] prefix *)

(** C6 at a model with a child named [submodule]. The saved key
    [module.submodule.w] is the expected key [submodule.w] with the wrapper
    prefix, and [match_names] pairs the two; but [k.replace('module.', '')]
    is then applied to the expected name and removes the [module.] inside
    [submodule.w]: the state dictionary handed to [load_state_dict] has the
    key [subw], the load is refused and [load_state] raises. *)
Theorem load_state_module_in_name :
  dict_keys (model_state submodule_model) = ["submodule.w"]
  /\ (let* sd := torch_load wrapped_directory (weights_file 1) in Ret (dict_keys sd))
     = Ret ["module." ++ "submodule.w"]
  /\ (let* sd := torch_load wrapped_directory (weights_file 1) in
      match_names sd submodule_model)
     = Ret [("module.submodule.w", "submodule.w")]
  /\ (let* sd := torch_load wrapped_directory (weights_file 1) in
      let* names := match_names sd submodule_model in
      let* sd := rename sd names in
      Ret (strip_module sd))
     = Ret [("subw", mkTensor [2] [5; 5])]
  /\ load_state "run" wrapped_directory submodule_model
     = Raise (Exn "RuntimeError" (DText "Missing or unexpected key(s) in state_dict") None).
Proof. vm_compute. repeat split; reflexivity. Qed.

(** The same checkpoint loads when the child is named [encoder]: the
    prefix is dealt with by the pairing of names, not by the [replace]. *)
Example load_state_wrapped_prefix :
  load_state "run"
    [("weights_1.tar", Checkpoint [("module.encoder.w", mkTensor [2] [5; 5])])]
    (mkModel [("encoder.w", mkTensor [2] [0; 0])])
  = Ret (1, mkModel [("encoder.w", mkTensor [2] [5; 5])]).
Proof. vm_compute. reflexivity. Qed.

(** ** C7: scoring a validation batch *)



Section ValidationFacts.
Context {Data Scores Column Target Lengths Loss : Type}.
Variable forward : Data -> Scores.
Variable criterion : Scores -> list Target -> Lengths -> Loss.
Variable decode_batch : option (Scores -> list string).
Variable decode : Column -> string.
Variable permute : Scores -> list Column.
Variable decode_ref : Target -> string.
Variable align : string -> string -> nat * nat.




End ValidationFacts.



(** ** C8: interrupting [fit] *)

Lemma append_inj_l (a b c : string) : a ++ b = a ++ c -> b = c.
Proof. induction a as [|x a IH]; simpl; [done|]. intros [= H]. by apply IH. Qed.

Lemma append_inj_r (a b s : string) : a ++ s = b ++ s -> a = b.
Proof.
  revert b. induction a as [|x a IH]; intros [|y b]; simpl; [done|..].
  - intros H. apply (f_equal String.length) in H. simpl in H.
    rewrite length_append in H. lia.
  - intros H. apply (f_equal String.length) in H. simpl in H.
    rewrite length_append in H. lia.
  - intros [= -> H]. f_equal. by apply IH.
Qed.

Lemma path_join_inj (dirname a b : string) :
  path_join dirname a = path_join dirname b -> a = b.
Proof.
  unfold path_join. destruct (String.eqb dirname ""); [done|].
  destruct (ends_with "/" dirname); intros H.
  - by apply append_inj_l in H.
  - apply append_inj_l in H. by injection H.
Qed.

Lemma str_int_inj (a b : Z) : str_int a = str_int b -> a = b.
Proof.
  unfold str_int. intros H. apply DecimalZ.to_int_inj.
  assert (Hnil : forall n, Z.to_int n <> Decimal.Pos Decimal.Nil
                           /\ Z.to_int n <> Decimal.Neg Decimal.Nil).
  { intros [|p|p]; cbn; split; try discriminate;
      intros [= Hp]; by apply (DecimalPos.Unsigned.to_uint_nonnil p). }
  apply (f_equal NilZero.int_of_string) in H.
  rewrite !NilZero.isi in H by apply Hnil. by injection H.
Qed.

Lemma weights_file_inj (a b : Z) : weights_file a = weights_file b -> a = b.
Proof.
  unfold weights_file. intros H. apply append_inj_l, append_inj_r in H.
  by apply str_int_inj.
Qed.

Lemma weights_path_inj workdir (a b : Z) :
  weights_path workdir a = weights_path workdir b -> a = b.
Proof. intros H. by apply path_join_inj, weights_file_inj in H. Qed.

Lemma weights_path_not_losses workdir (a b : Z) :
  losses_path workdir a <> weights_path workdir b.
Proof. intros H. apply path_join_inj in H. discriminate H. Qed.

Lemma weights_path_not_training workdir (b : Z) :
  training_path workdir <> weights_path workdir b.
Proof. intros H. apply path_join_inj in H. discriminate H. Qed.

Lemma lookup_append_rows path rows (fs : gmap string workfile) path' :
  path <> path' -> append_rows path rows fs !! path' = fs !! path'.
Proof.
  intros Hne. unfold append_rows.
  destruct (fs !! path) as [[]|]; by rewrite lookup_insert_ne.
Qed.

Section FitFacts.
Context {Train Val : Type}.
Variable train_one_epoch : Z -> list string * outcome Train.
Variable trained_state : Z -> state_dict.
Variable torch_save : Z -> save_result.
Variable validate_one_epoch : Z -> outcome Val.
Variable training_log : Z -> Train -> Val -> outcome string.
Variable workdir : string.







End FitFacts.



(** The same run, computed: [fit] returns, and the working directory
    holds the checkpoints of epochs 1 and 2, that of the interrupted
    epoch 3, the loss logs and the two summary rows. *)
Example fit_interrupted_run :
  let r := fit example_train example_state example_save example_validate example_log
             "run" 5 0 ∅ in
  snd r = Ret tt
  /\ fst r !! "run/weights_1.tar" = Some (WCheckpoint (example_state 1))
  /\ fst r !! "run/weights_2.tar" = Some (WCheckpoint (example_state 2))
  /\ fst r !! "run/weights_4.tar" = None
  /\ fst r !! "run/training.csv" = Some (WLog ["epoch 1"; "epoch 2"]).
Proof. vm_compute. repeat split; reflexivity. Qed.

(** An interrupt raised while the summary row is written is outside the
    [try] block and leaves [fit] as an exception. *)
Example fit_interrupted_while_logging :
  snd (fit example_train example_state example_save (fun _ => Ret tt)
         (fun epoch _ _ => if epoch =? 2 then Raise interrupt else Ret "row")
         "run" 5 0 ∅)
  = Raise interrupt.
Proof. vm_compute. reflexivity. Qed.

(** ** The round trip on the serialisable nodes *)

Lemma name_of_class (c : layer_class) : name_of c = Some (lower (dunder_name c)).
Proof. destruct c; vm_compute; reflexivity. Qed.

Lemma layers_class (c : layer_class) : layers !! lower (dunder_name c) = Some c.
Proof. destruct c; vm_compute; reflexivity. Qed.

Lemma layer_name_class (n : layer) : layer_name n = Ret (lower (dunder_name (class_of n))).
Proof. unfold layer_name. by rewrite name_of_class. Qed.

(** Case analysis on the innermost computation a goal is waiting for. *)
Ltac destruct_outcome :=
  unfold obind;
  repeat match goal with
         | |- context [match ?m with Ret _ => _ | Raise _ => _ end] =>
             lazymatch m with
             | context [match _ with Ret _ => _ | Raise _ => _ end] => fail
             | _ => destruct m
             end
         end.

(** [to_dict], one step unfolded. *)
Lemma to_dict_eq (n : layer) (iw : bool) :
  to_dict n iw
  = match to_dict_method n iw with
    | Some m =>
        let* name := layer_name n in
        let* d := m in
        Ret (VDict (dict_update [("type", VStr name)] d))
    | None => let* name := layer_name n in Ret (VDict [("type", VStr name)])
    end.
Proof.
  assert (E : forall ms,
    (fix each (ms : list layer) : outcome (list value) :=
       match ms with
       | [] => Ret []
       | m :: ms' =>
           let* d := to_dict m iw in let* ds := each ms' in Ret (d :: ds)
       end) ms = map_outcome (fun m => to_dict m iw) ms).
  { induction ms as [|m ms IH]; [reflexivity|].
    cbn [map_outcome]. by rewrite <- IH. }
  destruct n as [| | |ms|[[]|]| | | | | | | | | |]; try reflexivity;
    cbn [to_dict to_dict_method]; by rewrite E.
Qed.

Lemma to_dict_Serial (ms : list layer) (iw : bool) :
  to_dict (Serial ms) iw
  = let* ds := map_outcome (fun m => to_dict m iw) ms in
    Ret (VDict [("type", VStr "serial"); ("sublayers", VList ds)]).
Proof.
  rewrite to_dict_eq, layer_name_class. cbn [to_dict_method class_of obind].
  by destruct (map_outcome _ ms).
Qed.

Lemma to_dict_Reverse_Serial (ms : list layer) (iw : bool) :
  to_dict (Reverse (inl (Serial ms))) iw
  = let* ds := map_outcome (fun m => to_dict m iw) ms in
    Ret (VDict [("type", VStr "reverse"); ("sublayers", VList ds)]).
Proof.
  rewrite to_dict_eq, layer_name_class. cbn [to_dict_method class_of obind].
  by destruct (map_outcome _ ms).
Qed.

Lemma to_dict_Reverse (l : layer) (iw : bool) :
  (forall ms, l <> Serial ms) ->
  to_dict (Reverse (inl l)) iw
  = let* d := to_dict l iw in
    Ret (VDict [("type", VStr "reverse"); ("sublayers", d)]).
Proof.
  intros Hl. rewrite (to_dict_eq (Reverse (inl l))), layer_name_class.
  destruct l; try (by destruct (Hl modules));
    cbn [to_dict_method class_of obind];
    match goal with |- context [to_dict ?x iw] => by destruct (to_dict x iw) end.
Qed.

Lemma to_dict_is_dict (n : layer) (iw : bool) (d : value) :
  to_dict n iw = Ret d -> exists kvs, d = VDict kvs.
Proof.
  rewrite to_dict_eq, layer_name_class.
  destruct (to_dict_method n iw) as [[kvs|e]|]; cbn [obind]; intros [= <-]; eauto.
Qed.

Lemma from_dict_leaf kvs name rest typ n :
  dict_pop "type" kvs = Some (VStr name, rest) ->
  layers !! name = Some typ ->
  dict_get "sublayers" rest = None ->
  call typ (map (fun kv => (fst kv, AVal (snd kv))) rest) = Ret n ->
  from_dict (VDict kvs) None
  = ([Called typ (map (fun kv => (fst kv, AVal (snd kv))) rest)], Ret n).
Proof.
  intros Hpop Hty Hsub Hcall. unfold from_dict.
  rewrite (from_dict_in_typed _ _ _ _ Hpop). unfold lookup_type. cbn [hashable].
  rewrite Hty, mbind_lift_ret. unfold keyword_arguments, with_sublayers.
  rewrite Hsub. cbn [option_map]. unfold mbind, mret, build, mlift. by rewrite Hcall.
Qed.

Lemma from_dict_with_sublayers kvs name rest typ sublayers log a n :
  dict_pop "type" kvs = Some (VStr name, rest) ->
  layers !! name = Some typ ->
  dict_get "sublayers" rest = Some sublayers ->
  from_dict_sublayers layers sublayers = (log, Ret a) ->
  call typ (dict_set "sublayers" a (map (fun kv => (fst kv, AVal (snd kv))) rest)) = Ret n ->
  exists log', from_dict (VDict kvs) None = (log', Ret n).
Proof.
  intros Hpop Hty Hsub Hrec Hcall. unfold from_dict.
  rewrite (from_dict_in_typed _ _ _ _ Hpop). unfold lookup_type. cbn [hashable].
  rewrite Hty, mbind_lift_ret. unfold keyword_arguments, with_sublayers.
  rewrite Hsub. cbn [option_map].
  assert (Hm : dict_mem "sublayers" rest = true) by (unfold dict_mem; by rewrite Hsub).
  rewrite Hm, Hrec. unfold mbind, mret, build, mlift. rewrite Hcall. eauto.
Qed.

(** Induction on layer nodes, through the lists of [Serial] and the
    wrapped node of [Reverse]. *)
Lemma layer_nested_ind (P : layer -> Prop) :
  (forall ms, Forall P ms -> P (Serial ms)) ->
  (forall l, P l -> (forall ms, l = Serial ms -> Forall P ms) -> P (Reverse (inl l))) ->
  (forall n, (forall ms, n <> Serial ms) -> (forall l, n <> Reverse (inl l)) -> P n) ->
  forall n, P n.
Proof.
  intros HSerial HReverse Hleaf.
  fix IH 1. intros n.
  destruct n as [| | |ms|[l|v]| | | | | | | | | |];
    try (apply Hleaf; intros; discriminate).
  - apply HSerial. induction ms as [|m ms IHms]; constructor; [apply IH|exact IHms].
  - apply HReverse; [apply IH|].
    destruct l as [| | |ms'| | | | | | | | | | |]; try (intros; discriminate).
    intros ms [= <-]. induction ms' as [|m ms' IHms]; constructor; [apply IH|exact IHms].
Qed.

Lemma round_trip_each (ms : list layer) :
  Forall round_trips ms ->
  exists ds log, map_outcome (fun m => to_dict m false) ms = Ret ds
                 /\ from_dict_each layers ds = (log, Ret ms).
Proof.
  induction 1 as [|m ms (d & log & Hd & Hf) _ (ds & logs & Hds & Hfs)].
  - by exists [], [].
  - exists (d :: ds), (app log logs). cbn [map_outcome from_dict_each].
    rewrite Hd, Hds. split; [done|].
    unfold from_dict in Hf. rewrite Hf, Hfs. cbn. by rewrite app_nil_r.
Qed.

Lemma round_trip_Serial (ms : list layer) :
  Forall round_trips ms -> round_trips (Serial ms).
Proof.
  intros (ds & log & Hds & Hfs)%round_trip_each. unfold round_trips.
  rewrite to_dict_Serial, Hds. cbn [obind].
  destruct (from_dict_with_sublayers
              [("type", VStr "serial"); ("sublayers", VList ds)] "serial"
              [("sublayers", VList ds)] CSerial (VList ds) log (ALayers ms) (Serial ms))
    as [log' Hlog'];
    [reflexivity|apply (layers_class CSerial)|reflexivity| |reflexivity|eauto].
  cbn [from_dict_sublayers]. rewrite Hfs. cbn. by rewrite app_nil_r.
Qed.

Lemma round_trip_Reverse_Serial (ms : list layer) :
  Forall round_trips ms -> round_trips (Reverse (inl (Serial ms))).
Proof.
  intros (ds & log & Hds & Hfs)%round_trip_each. unfold round_trips.
  rewrite to_dict_Reverse_Serial, Hds. cbn [obind].
  destruct (from_dict_with_sublayers
              [("type", VStr "reverse"); ("sublayers", VList ds)] "reverse"
              [("sublayers", VList ds)] CReverse (VList ds) log (ALayers ms)
              (Reverse (inl (Serial ms))))
    as [log' Hlog'];
    [reflexivity|apply (layers_class CReverse)|reflexivity| |reflexivity|eauto].
  cbn [from_dict_sublayers]. rewrite Hfs. cbn. by rewrite app_nil_r.
Qed.

Lemma round_trip_Reverse (l : layer) :
  (forall ms, l <> Serial ms) -> round_trips l -> round_trips (Reverse (inl l)).
Proof.
  intros Hl (d & log & Hd & Hf). unfold round_trips.
  rewrite (to_dict_Reverse l false Hl), Hd. cbn [obind].
  destruct (to_dict_is_dict _ _ _ Hd) as [kvs ->].
  destruct (from_dict_with_sublayers
              [("type", VStr "reverse"); ("sublayers", VDict kvs)] "reverse"
              [("sublayers", VDict kvs)] CReverse (VDict kvs) log (ALayer l)
              (Reverse (inl l)))
    as [log' Hlog'];
    [reflexivity|apply (layers_class CReverse)|reflexivity| |reflexivity|eauto].
  unfold from_dict in Hf. unfold from_dict_sublayers. rewrite Hf. cbn.
  by rewrite app_nil_r.
Qed.

Lemma serialisable_Serial (ms : list layer) (P : layer -> Prop) :
  Forall (fun m => serialisable m -> P m) ms -> serialisable (Serial ms) -> Forall P ms.
Proof.
  induction 1 as [|m ms Hm _ IH]; [constructor|].
  cbn. intros [H1 H2]. constructor; [by apply Hm|by apply IH].
Qed.

Lemma call_LSTM (size insize : Z) (bias reverse : value) :
  call CLSTM [("size", AVal (VInt size)); ("insize", AVal (VInt insize));
              ("bias", AVal bias); ("reverse", AVal reverse)]
  = Ret (LSTM reverse (mkLSTM size insize bias false)).
Proof.
  unfold call, call_with.
  replace (bind_arguments _ _ _)
    with (Ret (A := list (string * arg))
            [("size", AVal (VInt size)); ("insize", AVal (VInt insize));
             ("bias", AVal bias); ("reverse", AVal reverse)]) by reflexivity.
  cbn [obind init]. unfold LSTM_init, RNNWrapper_init, param. cbn [dict_get String.eqb Ascii.eqb Bool.eqb as_value obind].
  by rewrite andb_false_r.
Qed.

Lemma round_trip_LSTM (reverse bias : value) (size : Z) :
  round_trips (LSTM reverse (mkLSTM size size bias false)).
Proof.
  unfold round_trips. do 2 eexists. split; [vm_compute; reflexivity|].
  apply (from_dict_leaf _ "lstm"
           [("size", VInt size); ("insize", VInt size); ("bias", bias); ("reverse", reverse)]
           CLSTM); [reflexivity|apply (layers_class CLSTM)|reflexivity|].
  apply call_LSTM.
Qed.

Lemma get_activation_default (act : layer + value) :
  default_activation act ->
  exists name, activation_name act = Ret name
               /\ get_activation call0 (AVal name) = Ret act.
Proof.
  intros [-> | [-> | [-> | ->]]]; eexists; (split; [vm_compute; reflexivity|]);
    vm_compute; reflexivity.
Qed.

Lemma round_trip_Convolution (conv : Conv1d) (act : layer + value) :
  default_activation act -> round_trips (Convolution conv act).
Proof.
  destruct conv as [i o k s p b].
  intros [-> | [-> | [-> | ->]]]; unfold round_trips; do 2 eexists;
    (split; [vm_compute; reflexivity|]); vm_compute; reflexivity.
Qed.

Lemma int_pow_nonneg (b e : Z) : 0 <= e -> int_pow b e = Ret (b ^ e).
Proof. intros He. unfold int_pow. by destruct (Z.ltb_spec e 0); [lia|]. Qed.

Lemma call_LinearCRFEncoder (insize nb sl : Z) (bias : bool) (scale name bs : value)
  (act : layer + value) :
  0 <= match bs with VNone => sl | _ => sl + 1 end ->
  get_activation call0 (AVal name) = Ret act ->
  call CLinearCRFEncoder
    [("insize", AVal (VInt insize)); ("n_base", AVal (VInt nb));
     ("state_len", AVal (VInt sl)); ("bias", AVal (VBool bias)); ("scale", AVal scale);
     ("activation", AVal name); ("blank_score", AVal bs)]
  = Ret (LinearCRFEncoder nb sl bs (mkLinear insize (crf_size nb sl bs) bias) act scale).
Proof.
  intros Hsl Hact. unfold call, call_with.
  replace (bind_arguments _ _ _)
    with (Ret (A := list (string * arg))
            [("insize", AVal (VInt insize)); ("n_base", AVal (VInt nb));
             ("state_len", AVal (VInt sl)); ("bias", AVal (VBool bias));
             ("scale", AVal scale); ("activation", AVal name);
             ("blank_score", AVal bs)]) by reflexivity.
  cbn [obind init]. unfold LinearCRFEncoder_init, param.
  cbn [dict_get String.eqb Ascii.eqb Bool.eqb as_value as_int obind].
  assert (Hsize : (match bs with
                   | VNone => let* p := int_pow nb sl in Ret ((nb + 1) * p)
                   | _ => int_pow nb (sl + 1)
                   end) = Ret (crf_size nb sl bs)).
  { destruct bs; cbn [crf_size]; rewrite int_pow_nonneg by done; reflexivity. }
  rewrite Hsize. cbn [obind]. unfold torch_nn_Linear. cbn [as_int as_value obind truthy].
  by rewrite Hact.
Qed.

Lemma round_trip_LinearCRFEncoder nb sl bs linear act sc :
  default_activation act ->
  out_features linear = crf_size nb sl bs ->
  0 <= match bs with VNone => sl | _ => sl + 1 end ->
  round_trips (LinearCRFEncoder nb sl bs linear act sc).
Proof.
  intros Hact Hout Hsl. destruct linear as [i o b]. cbn in Hout. subst o.
  destruct (get_activation_default act Hact) as (name & Hname & Hget).
  unfold round_trips. do 2 eexists. split.
  - rewrite to_dict_eq, layer_name_class. cbn [to_dict_method class_of].
    unfold LinearCRFEncoder_to_dict. rewrite Hname. cbn. reflexivity.
  - apply (from_dict_leaf _ "linearcrfencoder"
             [("insize", VInt i); ("n_base", VInt nb); ("state_len", VInt sl);
              ("bias", VBool b); ("scale", sc); ("activation", name);
              ("blank_score", bs)] CLinearCRFEncoder);
      [reflexivity|apply (layers_class CLinearCRFEncoder)|reflexivity|].
    by apply call_LinearCRFEncoder.
Qed.

(** X1. Every serialisable node is rebuilt by [from_dict] from the document
    [to_dict] gives for it: [from_dict(to_dict(node))] returns a node with
    the class and the hyperparameters of [node], through any nesting of
    [Serial] and [Reverse]. *)
Theorem serialisable_round_trip (n : layer) : serialisable n -> round_trips n.
Proof.
  induction n as [ms IH|l IH1 IH2|n Hnot_serial Hnot_reverse] using layer_nested_ind.
  - intros Hs. apply round_trip_Serial. by apply (serialisable_Serial ms round_trips).
  - intros Hs. destruct l as [| | |ms| | | | | | | | | | |];
      try (apply round_trip_Reverse; [intros; discriminate|by apply IH1]).
    apply round_trip_Reverse_Serial.
    by apply (serialisable_Serial ms round_trips); [apply IH2|].
  - destruct n as [v| |v|ms|[l|v]|conv act|nb sl bs linear act sc| | | | | |
                   |dims|r [i h b bd]];
      cbn [serialisable]; try done.
    + intros ->. unfold round_trips. do 2 eexists. split; vm_compute; reflexivity.
    + intros _. unfold round_trips. do 2 eexists. split; vm_compute; reflexivity.
    + intros ->. unfold round_trips. do 2 eexists. split; vm_compute; reflexivity.
    + by destruct (Hnot_serial ms).
    + by destruct (Hnot_reverse l).
    + apply round_trip_Convolution.
    + intros (Hact & Hout & Hsl). by apply round_trip_LinearCRFEncoder.
    + intros _. unfold round_trips. do 2 eexists. split; vm_compute; reflexivity.
    + cbn. intros [-> ->]. apply round_trip_LSTM.
Qed.

(** ** C6, continued: where the prefix is dealt with *)

Section AssocFacts.
Context {V : Type}.
Implicit Types (d : list (string * V)) (k : string).

Lemma dict_get_None k d : ~ In k (dict_keys d) -> dict_get k d = None.
Proof.
  induction d as [|[k' v] d IH]; cbn; [done|]. intros Hn.
  destruct (String.eqb_spec k' k) as [->|_]; [tauto|]. apply IH. tauto.
Qed.

Lemma dict_mem_In k d : In k (dict_keys d) -> dict_mem k d = true.
Proof.
  unfold dict_mem. induction d as [|[k' v] d IH]; cbn; [done|].
  destruct (String.eqb_spec k' k) as [->|Hne]; [done|]. intros [?|Hin]; [done|auto].
Qed.

(** Setting a key that is not there appends the entry. *)
Lemma dict_set_fresh k (v : V) d :
  ~ In k (dict_keys d) -> dict_set k v d = app d [(k, v)].
Proof.
  induction d as [|[k' v'] d IH]; cbn; [done|]. intros Hn.
  destruct (String.eqb_spec k' k) as [->|_]; [tauto|]. rewrite IH; tauto.
Qed.

Lemma dict_keys_app d d' : dict_keys (app d d') = app (dict_keys d) (dict_keys d').
Proof. apply map_app. Qed.

Lemma dict_keys_combine (ks : list string) (vs : list V) :
  length ks = length vs -> dict_keys (combine ks vs) = ks.
Proof.
  unfold dict_keys. revert vs. induction ks as [|k ks IH]; intros [|v vs]; cbn; try done.
  intros [= H]. by rewrite IH.
Qed.

(** In a dictionary without repeated keys every entry is found under its
    key. *)
Lemma dict_get_combine (ks : list string) (vs : list V) k v i :
  List.NoDup ks -> ks !! i = Some k -> vs !! i = Some v ->
  dict_get k (combine ks vs) = Some v.
Proof.
  intros Hnd. revert vs i. induction Hnd as [|k0 ks Hk0 _ IH]; intros [|v0 vs] [|i];
    cbn; try done.
  - intros [= ->] [= ->]. by rewrite String.eqb_refl.
  - intros Hk Hv. destruct (String.eqb_spec k0 k) as [->|_]; [|by eapply IH].
    destruct Hk0. apply list_elem_of_In. by eapply list_elem_of_lookup_2.
Qed.

End AssocFacts.

Lemma combine_keys_values {V} (d : list (string * V)) :
  combine (dict_keys d) (map snd d) = d.
Proof.
  unfold dict_keys. induction d as [|[k v] d IH]; cbn; [done|by rewrite IH].
Qed.

Lemma map_snd_combine {A B} (xs : list A) (ys : list B) :
  length xs = length ys -> map snd (combine xs ys) = ys.
Proof.
  revert ys. induction xs as [|x xs IH]; intros [|y ys]; cbn; try done.
  intros [= H]. by rewrite IH.
Qed.

Lemma filter_none {A} (f : A -> bool) (l : list A) :
  (forall x, In x l -> f x = false) -> List.filter f l = [].
Proof.
  induction l as [|x l IH]; cbn; [done|]. intros H.
  rewrite (H x) by tauto. apply IH. intros y Hy. apply H. tauto.
Qed.

Lemma shapes_combine (ks : list string) (vals : list tensor) :
  length ks = length vals -> shapes (combine ks vals) = map tensor_shape vals.
Proof.
  unfold shapes. revert vals. induction ks as [|k ks IH]; intros [|v vals]; cbn; try done.
  intros [= H]. by rewrite IH.
Qed.

(** The dictionary comprehension of [load_state]: the tensors of the saved
    dictionary under the names they are paired with. *)
Lemma rename_fold (sd : state_dict) (names : list (string * string)) :
  forall (vals : list tensor) (acc : state_dict),
    length names = length vals ->
    (forall i kk t, names !! i = Some kk -> vals !! i = Some t ->
                    dict_get (fst kk) sd = Some t) ->
    List.NoDup (app (dict_keys acc) (map snd names)) ->
    fold_left
      (fun acc kk =>
         let* d := acc in
         match dict_get (fst kk) sd with
         | Some t => Ret (dict_set (snd kk) t d)
         | None => Raise (KeyError (VStr (fst kk)))
         end) names (Ret acc)
    = Ret (app acc (combine (map snd names) vals)).
Proof.
  induction names as [|[k1 k2] names IH]; intros [|t vals] acc Hlen Hget Hnd;
    cbn in Hlen; try done; cbn [fold_left obind fst snd map combine].
  - by rewrite app_nil_r.
  - pose proof (Hget 0%nat (k1, k2) t eq_refl eq_refl) as H0. cbn in H0.
    rewrite H0.
    assert (Hfresh : ~ In k2 (dict_keys acc)).
    { intros Hin. apply NoDup_remove_2 in Hnd. apply Hnd, in_or_app. by left. }
    rewrite (dict_set_fresh k2 t acc Hfresh).
    transitivity (Ret (A := state_dict)
                    (app (app acc [(k2, t)]) (combine (map snd names) vals)));
      [apply IH|by rewrite <- app_assoc].
    + lia.
    + intros i kk t'. apply (Hget (S i)).
    + rewrite dict_keys_app. cbn. rewrite <- app_assoc. exact Hnd.
Qed.

(** The renaming loop changes nothing when no name contains [module.]. *)
Lemma strip_module_fold (sd acc : state_dict) :
  Forall (fun k => replace "module." "" k = k) (dict_keys sd) ->
  List.NoDup (app (dict_keys acc) (dict_keys sd)) ->
  fold_left (fun acc kv => dict_set (replace "module." "" (fst kv)) (snd kv) acc) sd acc
  = app acc sd.
Proof.
  revert acc. induction sd as [|[k t] sd IH]; intros acc Hfix Hnd;
    cbn [fold_left fst snd]; [by rewrite app_nil_r|].
  unfold dict_keys in Hfix. cbn [map fst] in Hfix. apply Forall_cons in Hfix as [Hk Hfix].
  rewrite Hk.
  assert (Hfresh : ~ In k (dict_keys acc)).
  { intros Hin. unfold dict_keys in Hnd. cbn [map fst] in Hnd.
    apply NoDup_remove_2 in Hnd. apply Hnd, in_or_app. by left. }
  rewrite (dict_set_fresh k t acc Hfresh).
  transitivity (app (app acc [(k, t)]) sd); [apply IH|by rewrite <- app_assoc].
  - exact Hfix.
  - rewrite dict_keys_app. cbn. rewrite <- app_assoc. exact Hnd.
Qed.

Lemma loaded_tensors (g : string -> option tensor) (ks : list string) :
  forall (olds vals : list tensor),
    length ks = length olds -> length ks = length vals ->
    (forall i k v, ks !! i = Some k -> vals !! i = Some v -> g k = Some v) ->
    map (fun kv => (fst kv, match g (fst kv) with Some t => t | None => snd kv end))
      (combine ks olds)
    = combine ks vals.
Proof.
  induction ks as [|k ks IH]; intros [|o olds] [|v vals] Ho Hv Hg; cbn in *; try done.
  rewrite (Hg 0%nat k v eq_refl eq_refl). f_equal.
  apply IH; [lia|lia|]. intros i. apply (Hg (S i)).
Qed.

(** [load_state_dict] accepts a dictionary that has the names of the model
    in order and tensors of the expected shapes. *)
Lemma load_state_dict_exact (m : model) (vals : list tensor) :
  List.NoDup (dict_keys (model_state m)) ->
  length vals = length (model_state m) ->
  map tensor_shape vals = shapes (model_state m) ->
  load_state_dict m (combine (dict_keys (model_state m)) vals)
  = Ret (mkModel (combine (dict_keys (model_state m)) vals)).
Proof.
  intros Hnd Hlen Hshapes. unfold load_state_dict.
  assert (Hklen : length (dict_keys (model_state m)) = length vals).
  { unfold dict_keys. by rewrite length_map. }
  rewrite (dict_keys_combine _ _ Hklen).
  rewrite !filter_none.
  - assert (Hloaded :
      map (fun kv => (fst kv,
                      match dict_get (fst kv) (combine (dict_keys (model_state m)) vals) with
                      | Some t => t
                      | None => snd kv
                      end)) (model_state m)
      = combine (dict_keys (model_state m)) vals).
    { etrans;
        [|apply (loaded_tensors
                   (fun k => dict_get k (combine (dict_keys (model_state m)) vals))
                   (dict_keys (model_state m)) (map snd (model_state m)) vals)].
      - by rewrite combine_keys_values.
      - unfold dict_keys. by rewrite !length_map.
      - done.
      - intros i k v Hk Hv. by eapply dict_get_combine. }
    rewrite Hloaded, (shapes_combine _ _ Hklen), Hshapes.
    by rewrite decide_True.
  - intros k Hk. by rewrite dict_mem_In.
  - intros k Hk. rewrite dict_mem_In; [done|]. by rewrite dict_keys_combine.
Qed.

(** Where no expected name contains [module.], a checkpoint whose keys are
    the expected names behind a common prefix, in the order and with the
    shapes of the model's own state dictionary, loads: every expected name
    receives the tensor saved under the prefixed name. *)
Lemma load_weights_prefixed (prefix : string) (dir : directory) (n : Z) (m : model)
  (saved : state_dict) :
  torch_load dir (weights_file n) = Ret saved ->
  dict_keys saved = map (String.append prefix) (dict_keys (model_state m)) ->
  shapes saved = shapes (model_state m) ->
  List.NoDup (dict_keys (model_state m)) ->
  Forall (fun k => replace "module." "" k = k) (dict_keys (model_state m)) ->
  load_weights dir n m
  = Ret (mkModel (combine (dict_keys (model_state m)) (map snd saved))).
Proof.
  intros Hload Hkeys Hshapes Hnd Hfix. unfold load_weights. rewrite Hload. cbn [obind].
  unfold match_names. rewrite decide_True by done. cbn [obind].
  assert (Hlen : length saved = length (model_state m)).
  { apply (f_equal (@length _)) in Hshapes. unfold shapes in Hshapes.
    by rewrite !length_map in Hshapes. }
  assert (Hks : length (dict_keys saved) = length (dict_keys (model_state m))).
  { unfold dict_keys. by rewrite !length_map. }
  assert (Hnd_saved : List.NoDup (dict_keys saved)).
  { rewrite Hkeys. apply Finite.Injective_map_NoDup; [|done].
    intros a b. apply append_inj_l. }
  assert (Hkv : length (dict_keys (model_state m)) = length (map snd saved)).
  { unfold dict_keys. rewrite !List.length_map. by symmetry. }
  unfold rename.
  rewrite (rename_fold saved _ (map snd saved) []).
  - rewrite map_snd_combine by done. cbn [app obind].
    unfold strip_module. rewrite (strip_module_fold _ []).
    + cbn [app]. apply load_state_dict_exact; [done| |].
      * rewrite List.length_map. exact Hlen.
      * rewrite <- Hshapes. unfold shapes. by rewrite map_map.
    + by rewrite dict_keys_combine.
    + cbn [app dict_keys map]. by rewrite dict_keys_combine.
  - rewrite length_combine, length_map. unfold dict_keys in *. rewrite !length_map in *. lia.
  - intros i [k1 k2] t Hi Ht. cbn [fst].
    rewrite <- (combine_keys_values saved).
    eapply (dict_get_combine _ _ _ _ i); [done| |done].
    apply (f_equal (fmap fst)) in Hi. cbn in Hi.
    rewrite <- list_lookup_fmap in Hi. rewrite <- Hi.
    clear -Hks. revert Hks. generalize (dict_keys saved), (dict_keys (model_state m)), i.
    induction l as [|a l IH]; intros [|b l'] [|j]; cbn; try done. intros [= H]. by apply IH.
  - cbn [app dict_keys map]. by rewrite map_snd_combine.
Qed.
(** * Further properties *)

(** ** [to_dict] and [from_dict] together *)

Lemma serialisable_round_trip_witness :
  serialisable example_network /\ round_trips example_network.
Proof.
  assert (H : serialisable example_network).
  { cbn. unfold default_activation. repeat split; auto. lia. }
  split; [exact H|exact (serialisable_round_trip example_network H)].
Defined.

(** X2. A document written with [include_weights=True] cannot be read
    back: for a [Convolution], a [LinearCRFEncoder] or an [LSTM] the
    ['params'] entry reaches the constructor as a keyword argument, which
    rejects it, and [from_dict] raises the [Exception] that wraps this
    [TypeError]. *)
Theorem weights_document_rejected (node : layer) (d : value) :
  has_parameters (class_of node) = true ->
  to_dict node true = Ret d ->
  exists kwargs,
    dict_mem "params" kwargs = true
    /\ from_dict d None
       = ([Called (class_of node) kwargs],
          Raise (Exn "Exception" (DFailedToBuild (class_of node) kwargs)
                   (Some (TypeError (DUnexpectedKeyword (dunder_name (class_of node))
                                       "params"))))).
Proof.
  rewrite to_dict_eq, layer_name_class.
  destruct node as [| | | | |conv act|nb sl bs linear act sc| | | | | | | |r rnn]; try done;
    intros _; cbn [to_dict_method class_of obind].
  - unfold Convolution_to_dict. destruct (activation_name act) as [name|e]; [|done].
    cbn [obind]. intros [= <-]. eexists. split; [|vm_compute; reflexivity]. reflexivity.
  - unfold LinearCRFEncoder_to_dict. destruct (activation_name act) as [name|e]; [|done].
    cbn [obind]. intros [= <-]. eexists. split; [|vm_compute; reflexivity]. reflexivity.
  - unfold LSTM_to_dict. destruct (truthy (rnn_bias rnn)); [|done].
    cbn [obind]. intros [= <-]. eexists. split; [|vm_compute; reflexivity]. reflexivity.
Qed.

Lemma weights_document_rejected_witness :
  let node := Convolution (mkConv1d 1 4 5 1 2 true) (inl Tanh) in
  let d := VDict [("type", VStr "convolution"); ("insize", VInt 1); ("size", VInt 4);
                  ("bias", VBool true); ("winlen", VInt 5); ("stride", VInt 1);
                  ("padding", VInt 2); ("activation", VStr "tanh");
                  ("params", VDict [("W", VTensor [4; 1; 5]); ("b", VTensor [4])])] in
  has_parameters (class_of node) = true
  /\ to_dict node true = Ret d
  /\ exists kwargs,
       dict_mem "params" kwargs = true
       /\ from_dict d None
          = ([Called CConvolution kwargs],
             Raise (Exn "Exception" (DFailedToBuild CConvolution kwargs)
                      (Some (TypeError (DUnexpectedKeyword "Convolution" "params"))))).
Proof.
  intros node d.
  assert (H1 : has_parameters (class_of node) = true) by reflexivity.
  assert (H2 : to_dict node true = Ret d) by (vm_compute; reflexivity).
  split; [exact H1|]. split; [exact H2|].
  exact (weights_document_rejected node d H1 H2).
Defined.

(** X3. Every document [to_dict] returns starts with the entry ['type'],
    which occurs once and holds the lowercased class name of the node; that
    name resolves, in the registry, to the class of the node. *)
Theorem to_dict_type_resolves (node : layer) (iw : bool) (d : value) :
  to_dict node iw = Ret d ->
  exists rest,
    d = VDict (("type", VStr (lower (dunder_name (class_of node)))) :: rest)
    /\ dict_get "type" rest = None
    /\ lookup_type layers (VStr (lower (dunder_name (class_of node)))) = Ret (class_of node).
Proof.
  intros Hd.
  assert (Hl : lookup_type layers (VStr (lower (dunder_name (class_of node))))
               = Ret (class_of node)).
  { unfold lookup_type. cbn [hashable]. by rewrite layers_class. }
  revert Hd. rewrite to_dict_eq, layer_name_class.
  destruct node as [v| |v|ms|[l|v]|conv act|nb sl bs linear act sc| | | | | | |dims|r rnn];
    cbn [to_dict_method obind];
    try (intros [= <-]; by exists []).
  - destruct (map_outcome _ ms) as [ds|e]; cbn [obind]; [|done].
    intros [= <-]. by eexists.
  - destruct l as [| | |ms| | | | | | | | | | |];
      match goal with
      | |- context [map_outcome ?f ?ms] =>
          destruct (map_outcome f ms) as [ds|e]; cbn [obind]; [|done]
      | |- context [to_dict ?x iw] =>
          destruct (to_dict x iw) as [dx|e]; cbn [obind]; [|done]
      end; intros [= <-]; by eexists.
  - unfold Convolution_to_dict. destruct (activation_name act) as [name|e]; [|done].
    cbn [obind]. intros [= <-]. destruct iw; by eexists.
  - unfold LinearCRFEncoder_to_dict. destruct (activation_name act) as [name|e]; [|done].
    cbn [obind]. intros [= <-]. destruct iw; by eexists.
  - intros [= <-]. by eexists.
  - unfold LSTM_to_dict. destruct iw; [destruct (truthy (rnn_bias rnn))|]; try done;
      cbn [obind]; intros [= <-]; by eexists.
Qed.

Lemma to_dict_type_resolves_witness :
  exists rest,
    VDict [("type", VStr "permute"); ("dims", VList [VInt 1; VInt 0])]
    = VDict (("type", VStr (lower (dunder_name CPermute))) :: rest)
    /\ dict_get "type" rest = None
    /\ lookup_type layers (VStr (lower (dunder_name CPermute))) = Ret CPermute.
Proof.
  exact (to_dict_type_resolves (Permute (VList [VInt 1; VInt 0])) false
           (VDict [("type", VStr "permute"); ("dims", VList [VInt 1; VInt 0])]) eq_refl).
Defined.

(** X4. A node of a class that defines no [to_dict] is written as its type
    name alone, whatever its hyperparameters; reading the document back is
    the call of the class without arguments, which gives the activation with
    its default argument for [ReLU], [Tanh] and [Swish] and fails, a
    required argument missing, for [SHA], [MHA], [LayerScale],
    [FeedForward], [Boom] and [SHABlock]. *)
Theorem no_to_dict_loses_arguments (node : layer) (iw : bool) :
  defines_to_dict (class_of node) = false ->
  to_dict node iw = Ret (VDict [("type", VStr (lower (dunder_name (class_of node))))])
  /\ from_dict (VDict [("type", VStr (lower (dunder_name (class_of node))))]) None
     = ([Called (class_of node) []],
        match class_of node with
        | CReLU => Ret (ReLU (VBool false))
        | CTanh => Ret Tanh
        | CSwish => Ret (Swish (VBool false))
        | c =>
            Raise (Exn "Exception" (DFailedToBuild c [])
                     (Some (TypeError
                              (DMissingArguments (dunder_name c)
                                 [match c with CLayerScale => "features" | _ => "dim" end]))))
        end).
Proof.
  destruct node; try done; intros _; split; vm_compute; reflexivity.
Qed.

Lemma no_to_dict_loses_arguments_witness :
  defines_to_dict (class_of (MHA 512 8 64 float_0)) = false
  /\ to_dict (MHA 512 8 64 float_0) false = Ret (VDict [("type", VStr "mha")])
  /\ from_dict (VDict [("type", VStr "mha")]) None
     = ([Called CMHA []],
        Raise (Exn "Exception" (DFailedToBuild CMHA [])
                 (Some (TypeError (DMissingArguments "MHA" ["dim"]))))).
Proof.
  split; [reflexivity|].
  exact (no_to_dict_loses_arguments (MHA 512 8 64 float_0) false eq_refl).
Defined.

(** X5. [Convolution] takes any string as its activation: a name that is
    not registered is stored as it is, and the node is built. The string has
    no [name] attribute, so [to_dict] on that node raises
    [AttributeError]. *)
Theorem unregistered_activation (insize size winlen : Z) (s : string) :
  s <> "" ->
  layers !! s = None ->
  call CConvolution [("insize", AVal (VInt insize)); ("size", AVal (VInt size));
                     ("winlen", AVal (VInt winlen)); ("activation", AVal (VStr s))]
  = Ret (Convolution (mkConv1d insize size winlen 1 0 true) (inr (VStr s)))
  /\ forall iw,
       to_dict (Convolution (mkConv1d insize size winlen 1 0 true) (inr (VStr s))) iw
       = Raise (AttributeError "object" "name").
Proof.
  intros Hs Hnone. split.
  - unfold call, call_with.
    replace (bind_arguments _ _ _)
      with (Ret (A := list (string * arg))
              [("insize", AVal (VInt insize)); ("size", AVal (VInt size));
               ("winlen", AVal (VInt winlen)); ("stride", AVal (VInt 1));
               ("padding", AVal (VInt 0)); ("bias", AVal (VBool true));
               ("activation", AVal (VStr s))]) by reflexivity.
    cbn [obind init]. unfold Convolution_init, param, torch_nn_Conv1d, get_activation.
    cbn [dict_get String.eqb Ascii.eqb Bool.eqb as_value as_int obind truthy hashable].
    by rewrite Hnone.
  - intros iw. rewrite to_dict_eq, layer_name_class. cbn [to_dict_method class_of obind].
    unfold Convolution_to_dict, activation_name. cbn [truthy].
    destruct (String.eqb_spec s "") as [->|_]; [done|]. reflexivity.
Qed.

Lemma unregistered_activation_witness :
  "gelu" <> ""
  /\ layers !! "gelu" = None
  /\ call CConvolution [("insize", AVal (VInt 1)); ("size", AVal (VInt 4));
                        ("winlen", AVal (VInt 5)); ("activation", AVal (VStr "gelu"))]
     = Ret (Convolution (mkConv1d 1 4 5 1 0 true) (inr (VStr "gelu")))
  /\ to_dict (Convolution (mkConv1d 1 4 5 1 0 true) (inr (VStr "gelu"))) false
     = Raise (AttributeError "object" "name").
Proof.
  assert (H1 : "gelu" <> "") by discriminate.
  assert (H2 : layers !! "gelu" = None) by (vm_compute; reflexivity).
  split; [exact H1|]. split; [exact H2|].
  destruct (unregistered_activation 1 4 5 "gelu" H1 H2) as [Hc Ht].
  split; [exact Hc|exact (Ht false)].
Defined.

(** X6. A document without the key ['type'] is refused by
    [model_dict.pop('type')] with [KeyError('type')], before the registry is
    consulted and before any sublayer is read or any constructor called. *)
Theorem from_dict_missing_type (kvs : list (string * value))
  (layer_types : option (gmap string layer_class)) :
  dict_get "type" kvs = None ->
  from_dict (VDict kvs) layer_types = ([], Raise (KeyError (VStr "type"))).
Proof.
  intros Hnone. unfold from_dict. rewrite from_dict_in_dict. unfold from_dict_body.
  destruct (dict_pop "type" kvs) as [[v rest]|] eqn:Hpop; [|reflexivity].
  apply dict_pop_get in Hpop. congruence.
Qed.

Lemma from_dict_missing_type_witness :
  dict_get "type" [("sublayers", VList [VDict [("type", VStr "tanh")]])] = None
  /\ from_dict (VDict [("sublayers", VList [VDict [("type", VStr "tanh")]])]) None
     = ([], Raise (KeyError (VStr "type"))).
Proof.
  split; [reflexivity|].
  exact (from_dict_missing_type [("sublayers", VList [VDict [("type", VStr "tanh")]])] None
           eq_refl).
Defined.

(** The list comprehension stops at the first sublayer that fails. *)
Lemma from_dict_each_error (layer_types : gmap string layer_class)
  (pre post : list value) (x : value) (built : list layer) (log logx : list event) (e : exn) :
  from_dict_each layer_types pre = (log, Ret built) ->
  from_dict_in layer_types x = (logx, Raise e) ->
  from_dict_each layer_types (app pre (x :: post)) = (app log logx, Raise e).
Proof.
  revert built log. induction pre as [|p pre IH]; intros built log Hpre Hx.
  - cbn in Hpre. injection Hpre as <- <-. cbn [app from_dict_each]. by rewrite Hx.
  - cbn [app from_dict_each] in *.
    destruct (from_dict_in layer_types p) as [logp [l|ep]]; cbn [mbind] in *; [|done].
    destruct (from_dict_each layer_types pre) as [logs [ls|es]] eqn:Hrec; cbn in Hpre;
      [|done].
    injection Hpre as <- <-.
    rewrite (IH ls logs eq_refl Hx). cbn. by rewrite app_nil_r, app_assoc.
Qed.

(** X7. [from_dict] reads the list under ['sublayers'] from left to right
    and the recursive calls stand outside the [try] block: when a sublayer
    fails, the parent fails with the very exception of that sublayer, not
    wrapped a second time; the sublayers after it are not read and the
    constructor of the parent is not called. *)
Theorem from_dict_child_error (layer_types : option (gmap string layer_class))
  (kvs rest : list (string * value)) (name : string) (typ : layer_class)
  (pre post : list value) (x : value) (built : list layer) (log logx : list event) (e : exn) :
  dict_pop "type" kvs = Some (VStr name, rest) ->
  default layers layer_types !! name = Some typ ->
  dict_get "sublayers" rest = Some (VList (app pre (x :: post))) ->
  from_dict_each (default layers layer_types) pre = (log, Ret built) ->
  from_dict x layer_types = (logx, Raise e) ->
  from_dict (VDict kvs) layer_types = (app log logx, Raise e).
Proof.
  intros Hpop Hty Hsub Hpre Hx. unfold from_dict in *.
  replace (match layer_types with Some t => t | None => layers end)
    with (default layers layer_types) in * by (by destruct layer_types).
  rewrite (from_dict_in_typed _ _ _ _ Hpop). unfold lookup_type. cbn [hashable].
  rewrite Hty, mbind_lift_ret. unfold keyword_arguments, with_sublayers.
  rewrite Hsub. cbn [option_map from_dict_sublayers].
  assert (Hm : dict_mem "sublayers" rest = true) by (unfold dict_mem; by rewrite Hsub).
  rewrite Hm, (from_dict_each_error _ _ _ _ _ _ _ _ Hpre Hx). reflexivity.
Qed.

Lemma from_dict_child_error_witness :
  let bad := VDict [("type", VStr "permute")] in
  let rest := [("sublayers", VList [VDict [("type", VStr "tanh")]; bad;
                                    VDict [("type", VStr "relu")]])] in
  let e := Exn "Exception" (DFailedToBuild CPermute [])
             (Some (TypeError (DMissingArguments "Permute" ["dims"]))) in
  from_dict (VDict (("type", VStr "serial") :: rest)) None
  = ([Called CTanh []; Called CPermute []], Raise e).
Proof.
  intros bad rest e.
  exact (from_dict_child_error None (("type", VStr "serial") :: rest) rest "serial" CSerial
           [VDict [("type", VStr "tanh")]] [VDict [("type", VStr "relu")]] bad
           [Tanh] [Called CTanh []] [Called CPermute []] e
           eq_refl eq_refl eq_refl eq_refl eq_refl).
Defined.

(** X8. [register] does not check for a name already taken: of two classes
    whose names agree up to case the one registered later is the one the
    name resolves to, while both carry the name as their [name]
    attribute. *)
Theorem register_same_name_replaces {C : Type} `{EqDecision C} (dunder_name : C -> string)
  (c1 c2 : C) (st : Registry.state) :
  lower (dunder_name c1) = lower (dunder_name c2) ->
  let st' := snd (Registry.register dunder_name c2
                    (snd (Registry.register dunder_name c1 st))) in
  Registry.resolve st' (lower (dunder_name c1)) = Some c2
  /\ Registry.name_attr st' c1 = Some (lower (dunder_name c1))
  /\ Registry.name_attr st' c2 = Some (lower (dunder_name c1)).
Proof.
  intros Heq. cbn. unfold Registry.resolve. cbn. rewrite <- Heq.
  split; [by rewrite lookup_insert_eq|].
  split; [|by rewrite decide_True].
  destruct (decide (c1 = c2)); [done|]. by rewrite decide_True.
Qed.

Lemma register_same_name_replaces_witness :
  let dunder_name := fun b : bool => if b then "LSTM" else "Lstm" in
  let st' := snd (Registry.register dunder_name false
                    (snd (Registry.register dunder_name true Registry.empty))) in
  lower (dunder_name true) = lower (dunder_name false)
  /\ Registry.resolve st' "lstm" = Some false
  /\ Registry.name_attr st' true = Some "lstm"
  /\ Registry.name_attr st' false = Some "lstm".
Proof.
  intros dunder_name st'.
  assert (H : lower (dunder_name true) = lower (dunder_name false)) by reflexivity.
  split; [exact H|].
  exact (register_same_name_replaces dunder_name true false Registry.empty H).
Defined.

(** X9. The registry of [nn.py] holds lowercased names only, and
    [from_dict] looks the ['type'] field up as it is written: a document
    that names a class by its Python identifier ([LSTM], [Convolution],
    ...) is refused with [KeyError], although the class is registered. *)
Theorem from_dict_class_name_rejected (c : layer_class) (kvs : list (string * value)) :
  dict_get "type" kvs = Some (VStr (dunder_name c)) ->
  layers !! lower (dunder_name c) = Some c
  /\ from_dict (VDict kvs) None = ([], Raise (KeyError (VStr (dunder_name c)))).
Proof.
  intros Hty. split; [apply layers_class|].
  destruct (dict_get_pop _ _ _ Hty) as [rest Hpop].
  unfold from_dict. rewrite (from_dict_in_typed _ _ _ _ Hpop).
  unfold lookup_type. cbn [hashable].
  assert (Hnone : layers !! dunder_name c = None) by (destruct c; vm_compute; reflexivity).
  by rewrite Hnone.
Qed.

Lemma from_dict_class_name_rejected_witness :
  layers !! "lstm" = Some CLSTM
  /\ from_dict (VDict [("type", VStr "LSTM"); ("size", VInt 8); ("insize", VInt 8)]) None
     = ([], Raise (KeyError (VStr "LSTM"))).
Proof.
  exact (from_dict_class_name_rejected CLSTM
           [("type", VStr "LSTM"); ("size", VInt 8); ("insize", VInt 8)] eq_refl).
Defined.

Lemma from_dict_each_app (layer_types : gmap string layer_class) xs log ms :
  from_dict_each layer_types xs = (log, Ret ms) ->
  from_dict_sublayers layer_types (VList xs) = (log, Ret (ALayers ms)).
Proof. intros H. cbn [from_dict_sublayers]. rewrite H. cbn. by rewrite app_nil_r. Qed.

(** A document made of a type and its sublayers. *)
Lemma from_dict_in_container (layer_types : gmap string layer_class) (name : string)
  (typ : layer_class) (sublayers : value) (log : list event) (a : arg) :
  layer_types !! name = Some typ ->
  from_dict_sublayers layer_types sublayers = (log, Ret a) ->
  from_dict_in layer_types (VDict [("type", VStr name); ("sublayers", sublayers)])
  = mbind (mlift log (Ret a)) (fun a => build typ [("sublayers", a)]).
Proof.
  intros Hty Hsub.
  rewrite (from_dict_in_typed layer_types [("type", VStr name); ("sublayers", sublayers)]
             (VStr name) [("sublayers", sublayers)] eq_refl).
  unfold lookup_type. cbn [hashable]. rewrite Hty, mbind_lift_ret.
  unfold keyword_arguments, with_sublayers.
  cbn [dict_get dict_mem String.eqb Ascii.eqb Bool.eqb option_map].
  rewrite Hsub. unfold mlift, mbind, mret. cbn [map fst snd dict_set String.eqb Ascii.eqb Bool.eqb].
  destruct (build typ [("sublayers", a)]) as [lg r]. by rewrite app_nil_r.
Qed.

(** X10. [Reverse] wraps a list of sublayers in a [Serial] and takes a
    [Serial] as it is, and [Serial] unpacks the [Serial] it is given: a
    document whose ['sublayers'] is a list and the document whose
    ['sublayers'] is a ['serial'] document with that list deserialise to
    the same node, for [reverse] and for [serial]. [to_dict] writes the list
    form for both, so the second document does not survive
    [to_dict(from_dict(...))]. *)
Theorem nested_serial_is_flattened (outer : string) (xs : list value) (log : list event)
  (ms : list layer) :
  outer = "reverse" \/ outer = "serial" ->
  from_dict_each layers xs = (log, Ret ms) ->
  let flat := VDict [("type", VStr outer); ("sublayers", VList xs)] in
  let nested := VDict [("type", VStr outer);
                       ("sublayers", VDict [("type", VStr "serial");
                                            ("sublayers", VList xs)])] in
  let node := if String.eqb outer "reverse" then Reverse (inl (Serial ms)) else Serial ms in
  snd (from_dict flat None) = Ret node
  /\ snd (from_dict nested None) = Ret node
  /\ (let* ds := map_outcome (fun m => to_dict m false) ms in
      Ret (VDict [("type", VStr outer); ("sublayers", VList ds)]))
     = to_dict node false.
Proof.
  intros Houter Hxs flat nested node.
  pose proof (from_dict_each_app _ _ _ _ Hxs) as Hlist.
  assert (Hinner : from_dict_sublayers layers
                     (VDict [("type", VStr "serial"); ("sublayers", VList xs)])
                   = (app log [Called CSerial [("sublayers", ALayers ms)]],
                      Ret (ALayer (Serial ms)))).
  { unfold from_dict_sublayers.
    rewrite (from_dict_in_container layers "serial" CSerial _ _ _ (layers_class CSerial) Hlist).
    cbn. by rewrite app_nil_r. }
  destruct Houter as [-> | ->]; subst flat nested node; cbn [String.eqb Ascii.eqb Bool.eqb];
    unfold from_dict; (split; [|split]).
  - by rewrite (from_dict_in_container layers "reverse" CReverse _ _ _
                  (layers_class CReverse) Hlist).
  - by rewrite (from_dict_in_container layers "reverse" CReverse _ _ _
                  (layers_class CReverse) Hinner).
  - by rewrite to_dict_Reverse_Serial.
  - by rewrite (from_dict_in_container layers "serial" CSerial _ _ _
                  (layers_class CSerial) Hlist).
  - by rewrite (from_dict_in_container layers "serial" CSerial _ _ _
                  (layers_class CSerial) Hinner).
  - by rewrite to_dict_Serial.
Qed.

Lemma nested_serial_is_flattened_witness :
  let xs := [VDict [("type", VStr "tanh")]; VDict [("type", VStr "relu")]] in
  let node := Reverse (inl (Serial [Tanh; ReLU (VBool false)])) in
  snd (from_dict (VDict [("type", VStr "reverse"); ("sublayers", VList xs)]) None) = Ret node
  /\ snd (from_dict (VDict [("type", VStr "reverse");
                            ("sublayers", VDict [("type", VStr "serial");
                                                 ("sublayers", VList xs)])]) None)
     = Ret node
  /\ Ret (VDict [("type", VStr "reverse"); ("sublayers", VList xs)]) = to_dict node false.
Proof.
  intros xs node.
  exact (nested_serial_is_flattened "reverse" xs [Called CTanh []; Called CReLU []]
           [Tanh; ReLU (VBool false)] (or_introl eq_refl) eq_refl).
Defined.

(** ** [load_state]: renaming the saved parameters *)

(** The loop over [state_dict.items()]: every key is entered with its
    occurrences of [module.] removed. *)
Lemma strip_module_renames (sd acc : state_dict) :
  List.NoDup (app (dict_keys acc) (map (replace "module." "") (dict_keys sd))) ->
  fold_left (fun acc kv => dict_set (replace "module." "" (fst kv)) (snd kv) acc) sd acc
  = app acc (map (fun kv => (replace "module." "" (fst kv), snd kv)) sd).
Proof.
  revert acc. induction sd as [|[k t] sd IH]; intros acc Hnd;
    cbn [fold_left fst snd map]; [by rewrite app_nil_r|].
  unfold dict_keys in Hnd. cbn [map fst] in Hnd.
  assert (Hfresh : ~ In (replace "module." "" k) (dict_keys acc)).
  { intros Hin. apply NoDup_remove_2 in Hnd. apply Hnd, in_or_app. by left. }
  rewrite (dict_set_fresh _ t acc Hfresh).
  transitivity (app (app acc [(replace "module." "" k, t)])
                  (map (fun kv => (replace "module." "" (fst kv), snd kv)) sd));
    [apply IH|by rewrite <- app_assoc].
  rewrite dict_keys_app. cbn. rewrite <- app_assoc. exact Hnd.
Qed.

Lemma NoDup_map_inv {A B} (f : A -> B) (l : list A) :
  List.NoDup (map f l) -> List.NoDup l.
Proof.
  induction l as [|x l IH]; cbn; [constructor|].
  intros Hnd. inversion_clear Hnd as [|? ? Hx Hl]. constructor; [|by apply IH].
  intros Hin. apply Hx, in_map_iff. by exists x.
Qed.

Lemma Forall2_lookup_both {A B} (P : A -> B -> Prop) (l : list A) (k : list B) i x y :
  Forall2 P l k -> l !! i = Some x -> k !! i = Some y -> P x y.
Proof.
  intros H. revert i. induction H as [|a b l k Hab _ IH]; intros [|i]; cbn; try done.
  - by intros [= ->] [= ->].
  - apply IH.
Qed.

(** X11. Whatever name matcher is used: when the names it returns, their
    occurrences of [module.] removed, are the names of the model (in the
    order of the model's state dictionary), and the tensors saved under the
    matched names have the shapes the model expects, the checkpoint loads
    and every parameter of the model receives the tensor saved under the
    name matched with it. *)
Theorem load_weights_matched
  (match_names_by : state_dict -> model -> outcome (list (string * string)))
  (dir : directory) (n : Z) (m : model) (saved : state_dict)
  (names : list (string * string)) (vals : list tensor) :
  torch_load dir (weights_file n) = Ret saved ->
  match_names_by saved m = Ret names ->
  map (fun kk => replace "module." "" (snd kk)) names = dict_keys (model_state m) ->
  List.NoDup (dict_keys (model_state m)) ->
  Forall2 (fun kk t => dict_get (fst kk) saved = Some t) names vals ->
  map tensor_shape vals = shapes (model_state m) ->
  load_weights_by match_names_by dir n m
  = Ret (mkModel (combine (dict_keys (model_state m)) vals)).
Proof.
  intros Hload Hnames Hkeys Hnd Hvals Hshapes.
  unfold load_weights_by. rewrite Hload. cbn [obind]. rewrite Hnames. cbn [obind].
  assert (Hlen : length names = length vals) by (by eapply Forall2_length).
  assert (Hnd2 : List.NoDup (map snd names)).
  { apply (NoDup_map_inv (replace "module." "")). rewrite map_map. by rewrite Hkeys. }
  assert (Hr : rename saved names = Ret (combine (map snd names) vals)).
  { unfold rename. apply (rename_fold saved names vals []); [done| |done].
    intros i kk t Hi Ht. exact (Forall2_lookup_both _ _ _ _ _ _ Hvals Hi Ht). }
  rewrite Hr. cbn [obind]. unfold strip_module.
  assert (Hk2 : dict_keys (combine (map snd names) vals) = map snd names).
  { apply dict_keys_combine. by rewrite length_map. }
  rewrite (strip_module_renames _ []).
  - cbn [app].
    assert (Hre : map (fun kv : string * tensor => (replace "module." "" (fst kv), snd kv))
                    (combine (map snd names) vals)
                  = combine (dict_keys (model_state m)) vals).
    { rewrite <- Hkeys. clear -Hlen. revert vals Hlen.
      induction names as [|kk names IH]; intros [|v vals] Hlen; cbn in *; try done.
      f_equal. apply IH. lia. }
    rewrite Hre. apply load_state_dict_exact; [done| |done].
    apply (f_equal (@length _)) in Hshapes. unfold shapes in Hshapes.
    by rewrite !length_map in Hshapes.
  - cbn [app dict_keys map]. fold (dict_keys (combine (map snd names) vals)).
    rewrite Hk2, map_map. by rewrite Hkeys.
Qed.

Lemma load_weights_matched_witness :
  let m := mkModel [("encoder.w", mkTensor [2] [0; 0]); ("crf.b", mkTensor [1] [0])] in
  let saved := [("module.encoder.w", mkTensor [2] [5; 6]); ("module.crf.b", mkTensor [1] [7])] in
  let dir := [("weights_4.tar", Checkpoint saved)] in
  let match_names_by := fun (sd : state_dict) (m : model) =>
    Ret (combine (dict_keys sd) (map (String.append "module.") (dict_keys (model_state m)))) in
  load_weights_by match_names_by dir 4 m
  = Ret (mkModel [("encoder.w", mkTensor [2] [5; 6]); ("crf.b", mkTensor [1] [7])]).
Proof.
  intros m saved dir match_names_by.
  refine (load_weights_matched match_names_by dir 4 m saved
            [("module.encoder.w", "module.encoder.w"); ("module.crf.b", "module.crf.b")]
            [mkTensor [2] [5; 6]; mkTensor [1] [7]]
            eq_refl eq_refl eq_refl _ _ eq_refl).
  - repeat constructor; cbn; intuition discriminate.
  - repeat constructor.
Defined.

(** ** Checkpoint names between [fit] and [load_state] *)







(** *** A file that matches the pattern without naming an epoch *)














(** ** Validation *)

Lemma map_outcome_In_total {A B} (f : A -> outcome B) (xs : list A) :
  (forall x, In x xs -> exists y, f x = Ret y) ->
  exists ys, map_outcome f xs = Ret ys /\ length ys = length xs.
Proof.
  induction xs as [|x xs IH]; intros H; [by exists []|].
  destruct (H x (or_introl eq_refl)) as [y Hy].
  destruct IH as (ys & Hys & Hlen); [intros z Hz; apply H; by right|].
  exists (y :: ys). cbn [map_outcome]. rewrite Hy, Hys. cbn. by rewrite Hlen.
Qed.

(** X14. [validate_one_step] scores the pairs of [zip(refs, seqs)]: when
    the scoring function returns on the pairs it is called on (those whose
    called sequence is not empty), the step returns every called sequence
    and one reference per target, and as many accuracies as the shorter of
    the two lists has entries. A model that returns fewer sequences than
    the batch has targets leaves the last references without an accuracy,
    and no error is raised. *)
Theorem validate_one_step_truncates {Data Scores Column Target Lengths Loss Acc : Type}
  (forward : Data -> Scores) (criterion : Scores -> list Target -> Lengths -> Loss)
  (decode_batch : option (Scores -> list string)) (decode : Column -> string)
  (permute : Scores -> list Column) (decode_ref : Target -> string)
  (accuracy_by : string -> string -> outcome Acc) (zero : Acc)
  (data : Data) (targets : list Target) (lengths : Lengths) :
  let seqs := called_sequences decode_batch decode permute (forward data) in
  let refs := map decode_ref targets in
  (forall ref seq, In (ref, seq) (combine refs seqs) -> seq <> "" ->
                   exists a, accuracy_by ref seq = Ret a) ->
  exists accs,
    validate_one_step_by forward criterion decode_batch decode permute decode_ref
      accuracy_by zero (data, targets, lengths)
    = Ret (seqs, refs, accs, criterion (forward data) targets lengths)
    /\ length refs = length targets
    /\ length accs = Nat.min (length targets) (length seqs).
Proof.
  intros seqs refs Hacc. unfold validate_one_step_by. fold seqs refs.
  destruct (map_outcome_In_total (score_example_by accuracy_by zero) (combine refs seqs))
    as (accs & Haccs & Hlen).
  { intros [ref seq] Hin. unfold score_example_by.
    destruct seq as [|c seq]; cbn; [eauto|]. by apply Hacc. }
  exists accs. rewrite Haccs. cbn [obind]. split; [done|].
  unfold refs. rewrite length_map. split; [done|].
  rewrite Hlen, length_combine. unfold refs. by rewrite length_map.
Qed.

Lemma validate_one_step_truncates_witness :
  let forward := fun data : list string => data in
  let criterion := fun (_ : list string) (_ : list string) (_ : unit) => tt in
  let accuracy_by := fun ref seq : string => Ret (String.length seq) in
  exists accs,
    validate_one_step_by forward criterion (Some (fun s => s)) (fun c : string => c)
      (fun s => s) (fun t : string => t) accuracy_by 0%nat
      (["ACGT"; ""], ["ACGT"; "AC"; "GG"], tt)
    = Ret (["ACGT"; ""], ["ACGT"; "AC"; "GG"], accs, tt)
    /\ length ["ACGT"; "AC"; "GG"] = 3%nat
    /\ length accs = Nat.min 3 2.
Proof.
  intros forward criterion accuracy_by.
  exact (validate_one_step_truncates forward criterion (Some (fun s => s))
           (fun c : string => c) (fun s => s) (fun t : string => t) accuracy_by 0%nat
           ["ACGT"; ""] ["ACGT"; "AC"; "GG"] tt
           (fun ref seq _ _ => ex_intro _ (String.length seq) eq_refl)).
Defined.

(** ** [fit]: complete runs and runs that end in an exception *)

(** ** [fit]: the files of a run, complete runs, runs that end in an exception *)

Lemma losses_path_not_training workdir (a : Z) :
  losses_path workdir a <> training_path workdir.
Proof.
  unfold losses_path, training_path. intros H%path_join_inj. discriminate H.
Qed.

Lemma writes_own_file_append_rows : writes_own_file append_rows.
Proof. intros path rows fs path' Hne. by apply lookup_append_rows. Qed.

Section FitByFacts.
Context {Train Val : Type}.
Variable csv_log : string -> list string -> gmap string workfile -> gmap string workfile.
Variable train_one_epoch : Z -> list string * outcome Train.
Variable trained_state : Z -> state_dict.
Variable torch_save : Z -> save_result.
Variable validate_one_epoch : Z -> outcome Val.
Variable training_log : Z -> Train -> Val -> outcome string.
Variable workdir : string.

Hypothesis csv_log_own : writes_own_file csv_log.

(** The [try] block of an epoch writes the loss log and the checkpoint of
    the epoch, and nothing else. *)
Lemma try_epoch_by_frame epoch fs path :
  path <> losses_path workdir epoch ->
  path <> weights_path workdir epoch ->
  fst (try_epoch_by csv_log train_one_epoch trained_state torch_save validate_one_epoch
         workdir epoch fs) !! path
  = fs !! path.
Proof.
  intros Hl Hw. unfold try_epoch_by.
  destruct (train_one_epoch epoch) as [rows [t|e]]; cbn [fst]; [|by apply csv_log_own].
  destruct (torch_save epoch) as [|e [|]]; [destruct (validate_one_epoch epoch)|..];
    cbn [fst]; rewrite ?lookup_insert_ne by done; by apply csv_log_own.
Qed.

(** However the loop ends, a file that is neither the summary log nor the
    loss log or the checkpoint of one of its epochs is as it was. *)
Lemma fit_loop_by_frame n : forall epoch fs path,
  path <> training_path workdir ->
  (forall e, epoch <= e < epoch + Z.of_nat n ->
     path <> losses_path workdir e /\ path <> weights_path workdir e) ->
  fst (fit_loop_by csv_log train_one_epoch trained_state torch_save validate_one_epoch
         training_log workdir n epoch fs) !! path
  = fs !! path.
Proof.
  induction n as [|n IH]; intros epoch fs path Htr Hrun; [done|].
  cbn [fit_loop_by].
  pose proof (try_epoch_by_frame epoch fs path
                (proj1 (Hrun epoch ltac:(lia))) (proj2 (Hrun epoch ltac:(lia)))) as Htry.
  destruct (try_epoch_by _ _ _ _ _ _ epoch fs) as [fs1 [[t v]|e]]; cbn [fst] in Htry.
  - destruct (training_log epoch t v) as [row|e]; [|done].
    rewrite IH; [|done|intros e He; apply Hrun; lia].
    by rewrite csv_log_own.
  - by destruct (is_KeyboardInterrupt e).
Qed.

Lemma try_epoch_by_saved epoch fs fs' t v :
  try_epoch_by csv_log train_one_epoch trained_state torch_save validate_one_epoch workdir
    epoch fs = (fs', Ret (t, v)) ->
  fs' !! weights_path workdir epoch = Some (WCheckpoint (trained_state epoch)).
Proof.
  unfold try_epoch_by.
  destruct (train_one_epoch epoch) as [rows [t'|e]]; [|done].
  destruct (torch_save epoch) as [|e b]; [|done].
  destruct (validate_one_epoch epoch) as [v'|e]; [|done].
  intros [= <- _ _]. apply lookup_insert_eq.
Qed.

Lemma try_epoch_by_completes epoch fs :
  epoch_completes train_one_epoch torch_save validate_one_epoch training_log epoch ->
  exists fs1 t v row,
    try_epoch_by csv_log train_one_epoch trained_state torch_save validate_one_epoch workdir
      epoch fs = (fs1, Ret (t, v))
    /\ training_log epoch t v = Ret row.
Proof.
  unfold try_epoch_by. intros (rows & t & v & row & -> & -> & -> & Hlog). eauto 6.
Qed.

(** A checkpoint is no file of another epoch, and no log. *)
Lemma weights_path_frame (e0 epoch : Z) (n : nat) :
  e0 < epoch \/ epoch + Z.of_nat n <= e0 ->
  weights_path workdir e0 <> training_path workdir
  /\ forall e, epoch <= e < epoch + Z.of_nat n ->
       weights_path workdir e0 <> losses_path workdir e
       /\ weights_path workdir e0 <> weights_path workdir e.
Proof.
  intros He0. split.
  - intros H. by apply (weights_path_not_training workdir e0).
  - intros e He. split.
    + intros H. by apply (weights_path_not_losses workdir e e0).
    + intros H%weights_path_inj. lia.
Qed.

(** The loop over [k] epochs that run to their end. *)
Lemma fit_loop_by_completed k : forall epoch fs,
  (forall j, (j < k)%nat ->
     epoch_completes train_one_epoch torch_save validate_one_epoch training_log
       (epoch + Z.of_nat j)) ->
  exists fsk,
    (forall r,
       fit_loop_by csv_log train_one_epoch trained_state torch_save validate_one_epoch
         training_log workdir (k + r) epoch fs
       = fit_loop_by csv_log train_one_epoch trained_state torch_save validate_one_epoch
           training_log workdir r (epoch + Z.of_nat k) fsk)
    /\ (forall j, (j < k)%nat ->
          fsk !! weights_path workdir (epoch + Z.of_nat j)
          = Some (WCheckpoint (trained_state (epoch + Z.of_nat j))))
    /\ (k = 0%nat -> fsk = fs).
Proof.
  induction k as [|k IH]; intros epoch fs Hdone.
  - exists fs. rewrite Z.add_0_r. split; [done|]. split; [intros; lia|done].
  - pose proof (Hdone 0%nat ltac:(lia)) as H0. rewrite Z.add_0_r in H0.
    destruct (try_epoch_by_completes epoch fs H0) as (fs1 & t & v & row & Htry & Hlog).
    destruct (IH (epoch + 1) (csv_log (training_path workdir) [row] fs1))
      as (fsk & Hrun & Hsaved & _).
    { intros j Hj. replace (epoch + 1 + Z.of_nat j) with (epoch + Z.of_nat (S j)) by lia.
      apply Hdone. lia. }
    exists fsk. split; [|split; [|done]].
    + intros r. cbn [Nat.add fit_loop_by]. rewrite Htry, Hlog, Hrun.
      by replace (epoch + 1 + Z.of_nat k) with (epoch + Z.of_nat (S k)) by lia.
    + intros [|j] Hj.
      * rewrite Z.add_0_r.
        pose proof (Hrun 0%nat) as Hk. rewrite Nat.add_0_r in Hk. cbn [fit_loop_by] in Hk.
        destruct (weights_path_frame epoch (epoch + 1) k ltac:(lia)) as [Htr Hothers].
        pose proof (fit_loop_by_frame k (epoch + 1)
                      (csv_log (training_path workdir) [row] fs1)
                      (weights_path workdir epoch) Htr Hothers) as Hframe.
        rewrite Hk in Hframe. cbn [fst] in Hframe. rewrite Hframe.
        rewrite csv_log_own by done. by eapply try_epoch_by_saved.
      * replace (epoch + Z.of_nat (S j)) with (epoch + 1 + Z.of_nat j) by lia.
        apply Hsaved. lia.
Qed.

(** How the loop ends in an epoch in which an exception other than
    [KeyboardInterrupt] leaves the [try] block, or any exception leaves the
    writing of the summary row. *)
Lemma fit_loop_by_raises r epoch fs e :
  (epoch_raises train_one_epoch torch_save validate_one_epoch epoch e
   /\ is_KeyboardInterrupt e = false)
  \/ logging_raises train_one_epoch torch_save validate_one_epoch training_log epoch e ->
  fit_loop_by csv_log train_one_epoch trained_state torch_save validate_one_epoch
    training_log workdir (S r) epoch fs
  = (fst (try_epoch_by csv_log train_one_epoch trained_state torch_save validate_one_epoch
            workdir epoch fs), Raise e).
Proof.
  cbn [fit_loop_by]. unfold try_epoch_by.
  intros [[[(rows & ->)|[(rows & t & b & -> & ->)|(rows & t & -> & -> & ->)]] Hki]
         |(rows & t & v & -> & -> & -> & Hlog)]; cbn [fst]; rewrite ?Hki, ?Hlog; done.
Qed.

End FitByFacts.

(** X15. Whatever its collaborators do and however it ends (normally,
    interrupted, or with an exception), [fit] changes no file but those of
    its run: the summary log [training.csv], and the loss log and the
    checkpoint of the epochs [last_epoch + 1] to [last_epoch + epochs].
    Every other file, the checkpoints of earlier epochs among them, is as
    it was (the logger writing the file it is opened on only). *)
Theorem fit_writes_run_files_only {Train Val : Type}
  (csv_log : string -> list string -> gmap string workfile -> gmap string workfile)
  (train_one_epoch : Z -> list string * outcome Train)
  (trained_state : Z -> state_dict) (torch_save : Z -> save_result)
  (validate_one_epoch : Z -> outcome Val)
  (training_log : Z -> Train -> Val -> outcome string) (workdir : string)
  (epochs last_epoch : Z) (fs : gmap string workfile) (path : string) :
  writes_own_file csv_log ->
  ~ run_file workdir epochs last_epoch path ->
  fst (fit_by csv_log train_one_epoch trained_state torch_save validate_one_epoch
         training_log workdir epochs last_epoch fs) !! path
  = fs !! path.
Proof.
  intros Hown Hpath. unfold fit_by. apply fit_loop_by_frame; [done| |].
  - intros ->. apply Hpath. by left.
  - intros e He. split; intros ->; apply Hpath; right; exists e; (split; [lia|tauto]).
Qed.

Lemma fit_writes_run_files_only_witness :
  let fs : gmap string workfile :=
    {["run/weights_2.tar" := WCheckpoint (example_state 2); "run/config.toml" := WLog []]} in
  let fs' := fst (fit_by append_rows example_train example_state example_save
                    example_validate example_log "run" 5 2 fs) in
  fs' !! "run/weights_2.tar" = Some (WCheckpoint (example_state 2))
  /\ fs' !! "run/config.toml" = Some (WLog []).
Proof.
  intros fs fs'.
  assert (H : forall path, path = "run/weights_2.tar" \/ path = "run/config.toml" ->
                           ~ run_file "run" 5 2 path).
  { intros path Hp [Htr|(e & He & [Hl|Hw])].
    - destruct Hp as [-> | ->]; discriminate Htr.
    - destruct Hp as [-> | ->].
      + by apply (weights_path_not_losses "run" e 2).
      + change "run/config.toml" with (path_join "run" "config.toml") in Hl.
        apply path_join_inj in Hl. discriminate Hl.
    - destruct Hp as [-> | ->].
      + apply (weights_path_inj "run" 2 e) in Hw. lia.
      + change "run/config.toml" with (path_join "run" "config.toml") in Hw.
        apply path_join_inj in Hw. discriminate Hw. }
  split.
  - exact (fit_writes_run_files_only append_rows example_train example_state example_save
             example_validate example_log "run" 5 2 fs "run/weights_2.tar"
             writes_own_file_append_rows (H _ (or_introl eq_refl))).
  - exact (fit_writes_run_files_only append_rows example_train example_state example_save
             example_validate example_log "run" 5 2 fs "run/config.toml"
             writes_own_file_append_rows (H _ (or_intror eq_refl))).
Defined.



(** X17. [fit] catches [KeyboardInterrupt] only, and only inside the [try]
    block: an exception of another class raised while training, saving or
    validating, and any exception raised while the summary row is written,
    leaves [fit] as it is; the epochs after it are not run (no checkpoint
    of theirs is written), and the checkpoints of the epochs completed
    before it are on disk. *)
Theorem fit_propagates {Train Val : Type}
  (csv_log : string -> list string -> gmap string workfile -> gmap string workfile)
  (train_one_epoch : Z -> list string * outcome Train)
  (trained_state : Z -> state_dict) (torch_save : Z -> save_result)
  (validate_one_epoch : Z -> outcome Val)
  (training_log : Z -> Train -> Val -> outcome string) (workdir : string)
  (epochs last_epoch : Z) (fs : gmap string workfile) (k : nat) (e : exn) :
  writes_own_file csv_log ->
  (k < Z.to_nat epochs)%nat ->
  (forall j, (j < k)%nat ->
     epoch_completes train_one_epoch torch_save validate_one_epoch training_log
       (1 + last_epoch + Z.of_nat j)) ->
  (epoch_raises train_one_epoch torch_save validate_one_epoch
     (1 + last_epoch + Z.of_nat k) e
   /\ is_KeyboardInterrupt e = false)
  \/ logging_raises train_one_epoch torch_save validate_one_epoch training_log
       (1 + last_epoch + Z.of_nat k) e ->
  exists fs',
    fit_by csv_log train_one_epoch trained_state torch_save validate_one_epoch training_log
      workdir epochs last_epoch fs = (fs', Raise e)
    /\ (forall j, (j < k)%nat ->
          fs' !! weights_path workdir (1 + last_epoch + Z.of_nat j)
          = Some (WCheckpoint (trained_state (1 + last_epoch + Z.of_nat j))))
    /\ (forall e0, 1 + last_epoch + Z.of_nat k < e0 ->
          fs' !! weights_path workdir e0 = fs !! weights_path workdir e0).
Proof.
  intros Hown Hk Hdone Hraise. unfold fit_by.
  destruct (fit_loop_by_completed csv_log train_one_epoch trained_state torch_save
              validate_one_epoch training_log workdir Hown k (1 + last_epoch) fs Hdone)
    as (fsk & Hrun & Hsaved & _).
  pose proof (Hrun 0%nat) as Hk0. rewrite Nat.add_0_r in Hk0. cbn [fit_loop_by] in Hk0.
  pose proof (fit_loop_by_frame csv_log train_one_epoch trained_state torch_save
                validate_one_epoch training_log workdir Hown k (1 + last_epoch) fs)
    as Hframe.
  rewrite Hk0 in Hframe. cbn [fst] in Hframe.
  specialize (Hrun (Z.to_nat epochs - k)%nat).
  replace (k + (Z.to_nat epochs - k))%nat with (Z.to_nat epochs) in Hrun by lia.
  rewrite Hrun.
  destruct (Z.to_nat epochs - k)%nat as [|r] eqn:Hr; [lia|].
  rewrite (fit_loop_by_raises _ _ _ _ _ _ _ _ _ _ _ Hraise).
  eexists. split; [reflexivity|]. cbn [fst].
  assert (Hother : forall e0, e0 <> 1 + last_epoch + Z.of_nat k ->
             fst (try_epoch_by csv_log train_one_epoch trained_state torch_save
                    validate_one_epoch workdir (1 + last_epoch + Z.of_nat k) fsk)
               !! weights_path workdir e0
             = fsk !! weights_path workdir e0).
  { intros e0 Hne. apply try_epoch_by_frame; [done|..].
    - intros H. by apply (weights_path_not_losses workdir _ _ (eq_sym H)).
    - intros H%weights_path_inj. lia. }
  split.
  - intros j Hj. rewrite Hother by lia. by apply Hsaved.
  - intros e0 He0. rewrite Hother by lia.
    destruct (weights_path_frame workdir e0 (1 + last_epoch) k ltac:(lia)) as [H1 H2].
    exact (Hframe _ H1 H2).
Qed.

Lemma fit_propagates_witness :
  let train := fun epoch : Z =>
    (["chunks,time,grad_norm,loss"],
     if epoch =? 3 then Raise (Exn "RuntimeError" (DText "CUDA out of memory") None)
     else Ret tt) in
  exists fs',
    fit_by append_rows train example_state example_save (fun _ => Ret tt) example_log
      "run" 5 0 ∅
    = (fs', Raise (Exn "RuntimeError" (DText "CUDA out of memory") None))
    /\ (forall j, (j < 2)%nat ->
          fs' !! weights_path "run" (1 + 0 + Z.of_nat j)
          = Some (WCheckpoint (example_state (1 + 0 + Z.of_nat j))))
    /\ fs' !! weights_path "run" 4 = None.
Proof.
  intros train.
  destruct (fit_propagates append_rows train example_state example_save (fun _ => Ret tt)
              example_log "run" 5 0 ∅ 2
              (Exn "RuntimeError" (DText "CUDA out of memory") None)
              writes_own_file_append_rows)
    as (fs' & Hrun & Hsaved & Hlater).
  - vm_compute. lia.
  - intros j Hj. exists ["chunks,time,grad_norm,loss"], tt, tt,
      ("epoch " ++ str_int (1 + 0 + Z.of_nat j)).
    assert (Hj' : j = 0%nat \/ j = 1%nat) by lia.
    destruct Hj' as [-> | ->]; repeat split.
  - left. split; [|reflexivity]. left. by exists ["chunks,time,grad_norm,loss"].
  - exists fs'. split; [exact Hrun|]. split; [exact Hsaved|].
    rewrite (Hlater 4) by (cbn; lia). reflexivity.
Defined.

(** X18. [validate_one_epoch] cannot take an empty validation loader: the
    unpacking of [zip()] into four names raises [ValueError]. In [fit] this
    happens inside the [try] block, after the checkpoint of the epoch was
    saved, and [ValueError] is not caught: the first epoch of the run
    leaves its loss log and its checkpoint behind, no summary row is
    written, and [fit] raises. *)
Theorem fit_empty_validation {Train Batch F : Type}
  (csv_log : string -> list string -> gmap string workfile -> gmap string workfile)
  (train_one_epoch : Z -> list string * outcome Train)
  (trained_state : Z -> state_dict) (torch_save : Z -> save_result)
  (validate_step : Batch -> outcome (list string * list string * list F * losses F))
  (mean median : list F -> F)
  (training_log : Z -> Train -> F * F * F -> outcome string) (workdir : string)
  (epochs last_epoch : Z) (fs : gmap string workfile) (rows : list string) (t : Train) :
  0 < epochs ->
  train_one_epoch (1 + last_epoch) = (rows, Ret t) ->
  torch_save (1 + last_epoch) = Saved ->
  validate_one_epoch validate_step mean median []
  = Raise (ValueError "not enough values to unpack (expected 4, got 0)")
  /\ fit_by csv_log train_one_epoch trained_state torch_save
       (fun _ => validate_one_epoch validate_step mean median []) training_log workdir
       epochs last_epoch fs
     = (<[weights_path workdir (1 + last_epoch)
          := WCheckpoint (trained_state (1 + last_epoch))]>
          (csv_log (losses_path workdir (1 + last_epoch)) rows fs),
        Raise (ValueError "not enough values to unpack (expected 4, got 0)")).
Proof.
  intros Hpos Htrain Hsave. split; [reflexivity|]. unfold fit_by.
  destruct (Z.to_nat epochs) as [|n] eqn:Hn; [lia|].
  cbn [fit_loop_by]. unfold try_epoch_by. rewrite Htrain, Hsave. reflexivity.
Qed.

Lemma fit_empty_validation_witness :
  snd (fit_by append_rows example_train example_state example_save
         (fun _ => validate_one_epoch
                     (fun b : unit => Ret ([], [], [], LossValue 0%Q))
                     (fun _ => 0%Q) (fun _ => 0%Q) [])
         (fun _ _ _ => Ret "row") "run" 3 0 ∅)
  = Raise (ValueError "not enough values to unpack (expected 4, got 0)").
Proof.
  exact (f_equal snd
           (proj2 (fit_empty_validation append_rows example_train example_state example_save
                     (fun b : unit => Ret ([], [], [], LossValue 0%Q))
                     (fun _ => 0%Q) (fun _ => 0%Q) (fun _ _ _ => Ret "row") "run" 3 0 ∅
                     ["chunks,time,grad_norm,loss"] tt ltac:(lia) eq_refl eq_refl))).
Defined.

(** The losses of the batches, read as [validate_one_epoch] reads them. *)
Lemma validate_one_epoch_returns {Batch F : Type}
  (validate_step : Batch -> outcome (list string * list string * list F * losses F))
  (mean median : list F -> F) (valid_loader : list Batch)
  (results : list (list string * list string * list F * losses F)) (ls : list F) :
  valid_loader <> [] ->
  map_outcome validate_step valid_loader = Ret results ->
  map_outcome ctc_loss_of (map snd results) = Ret ls ->
  validate_one_epoch validate_step mean median valid_loader
  = Ret (mean ls, mean (concat (map (fun r => snd (fst r)) results)),
         median (concat (map (fun r => snd (fst r)) results))).
Proof.
  intros Hne Hres Hls. unfold validate_one_epoch. rewrite Hres. cbn [obind].
  destruct results as [|r results].
  - destruct valid_loader as [|b bs]; [done|]. cbn in Hres.
    destruct (validate_step b); [|done]. by destruct (map_outcome validate_step bs).
  - by rewrite Hls.
Qed.

(** ** [ChunkDataSet] *)

Lemma index_in_range {A} (a : list A) (i : Z) :
  0 <= i < Z.of_nat (length a) ->
  exists x, a !! Z.to_nat i = Some x /\ index a i = Ret x.
Proof.
  intros Hi. unfold index.
  destruct (Z.ltb_spec i 0) as [?|_]; [lia|].
  destruct (Z.leb_spec 0 i) as [_|?]; [|lia].
  destruct (Z.ltb_spec i (Z.of_nat (length a))) as [_|?]; [|lia]. cbn [andb].
  destruct (a !! Z.to_nat i) as [x|] eqn:Hx; [eauto|].
  apply lookup_ge_None in Hx. lia.
Qed.

Lemma index_out_of_range {A} (a : list A) (i : Z) :
  Z.of_nat (length a) <= i -> index a i = Raise (IndexError "index out of bounds").
Proof.
  intros Hi. unfold index.
  destruct (Z.ltb_spec i 0) as [?|_]; [lia|].
  destruct (Z.ltb_spec i (Z.of_nat (length a))) as [?|_]; [lia|].
  by rewrite andb_false_r.
Qed.

(** X19. [len(dataset)] is the length of [lengths] alone. Indexing the
    dataset returns for every index from 0 to [len(dataset) - 1] exactly
    when [lengths] is not longer than [chunks] nor than [targets]
    (otherwise a loader that runs over [range(len(dataset))] meets an
    [IndexError]); the item at such an index is the chunk as one channel of
    samples, the target and the length found at that index, each cast. *)
Theorem ChunkDataSet_getitem_in_range {Sample Label Len Sample32 Label64 Len64 : Type}
  (to_float32 : Sample -> Sample32) (to_int64 : Label -> Label64)
  (len_to_int64 : Len -> Len64)
  (chunks : list (list Sample)) (targets : list (list Label)) (lengths : list Len) :
  let self := ChunkDataSet_init chunks targets lengths in
  let getitem := ChunkDataSet_getitem to_float32 to_int64 len_to_int64 self in
  ((forall i, 0 <= i < ChunkDataSet_len self -> exists item, getitem i = Ret item)
   <-> (length lengths <= length chunks /\ length lengths <= length targets)%nat)
  /\ (forall i c t l,
        chunks !! i = Some c -> targets !! i = Some t -> lengths !! i = Some l ->
        getitem (Z.of_nat i) = Ret ([map to_float32 c], map to_int64 t, len_to_int64 l)).
Proof.
  intros self getitem. split; [split|].
  - intros Hall. unfold ChunkDataSet_len in Hall. cbn in Hall.
    split; apply Nat.nlt_ge; intros Hlt.
    + destruct (Hall (Z.of_nat (length chunks)) ltac:(lia)) as [item Hitem].
      unfold getitem, ChunkDataSet_getitem in Hitem. cbn in Hitem.
      rewrite index_out_of_range in Hitem by (rewrite length_map; lia). done.
    + destruct (Hall (Z.of_nat (length targets)) ltac:(lia)) as [item Hitem].
      unfold getitem, ChunkDataSet_getitem in Hitem. cbn [ds_chunks ds_targets self ChunkDataSet_init] in Hitem.
      destruct (index (map _ chunks) _); [|done]. cbn [obind] in Hitem.
      rewrite index_out_of_range in Hitem by lia. done.
  - intros [Hc Ht] i Hi. unfold ChunkDataSet_len in Hi. cbn in Hi.
    unfold getitem, ChunkDataSet_getitem. cbn [ds_chunks ds_targets ds_lengths self ChunkDataSet_init].
    destruct (index_in_range (map (fun row => [row]) chunks) i) as (c & _ & ->);
      [rewrite length_map; lia|].
    destruct (index_in_range targets i) as (t & _ & ->); [lia|].
    destruct (index_in_range lengths i) as (l & _ & ->); [lia|].
    cbn. eauto.
  - intros i c t l Hc Ht Hl.
    unfold getitem, ChunkDataSet_getitem. cbn [ds_chunks ds_targets ds_lengths self ChunkDataSet_init].
    destruct (index_in_range (map (fun row => [row]) chunks) (Z.of_nat i)) as (c' & Hc' & ->).
    { rewrite length_map. apply lookup_lt_Some in Hc. lia. }
    destruct (index_in_range targets (Z.of_nat i)) as (t' & Ht' & ->).
    { apply lookup_lt_Some in Ht. lia. }
    destruct (index_in_range lengths (Z.of_nat i)) as (l' & Hl' & ->).
    { apply lookup_lt_Some in Hl. lia. }
    rewrite Nat2Z.id in Hc', Ht', Hl'.
    rewrite list_lookup_fmap, Hc in Hc'. cbn in Hc'.
    injection Hc' as <-. rewrite Ht in Ht'. injection Ht' as <-.
    rewrite Hl in Hl'. injection Hl' as <-. reflexivity.
Qed.

(** ** The split of the training data *)

(** X20. When the data has no validation directory, [main] cuts each of the
    three arrays at the same position: whatever the value of [split], the
    training part followed by the validation part is the array as it was
    (no chunk is lost and none is in both sets), and, the arrays having one
    length, the sizes of the two datasets add up to it. *)
Theorem split_data_partitions {Sample Label Len : Type} (split : Z)
  (chunks : list (list Sample)) (targets : list (list Label)) (lengths : list Len) :
  length chunks = length lengths ->
  length targets = length lengths ->
  let '(train, valid) := split_data split chunks targets lengths in
  app (ds_chunks train) (ds_chunks valid) = map (fun row => [row]) chunks
  /\ app (ds_targets train) (ds_targets valid) = targets
  /\ app (ds_lengths train) (ds_lengths valid) = lengths
  /\ ChunkDataSet_len train + ChunkDataSet_len valid = Z.of_nat (length lengths)
  /\ length (ds_chunks train) = length (ds_lengths train)
  /\ length (ds_targets train) = length (ds_lengths train)
  /\ length (ds_chunks valid) = length (ds_lengths valid)
  /\ length (ds_targets valid) = length (ds_lengths valid).
Proof.
  intros Hc Ht. unfold split_data, ChunkDataSet_init, ChunkDataSet_len, slice_to, slice_from.
  cbn [ds_chunks ds_targets ds_lengths].
  rewrite <- map_app, !firstn_skipn. rewrite Hc, Ht.
  repeat split.
  - rewrite <- Nat2Z.inj_add, <- length_app, firstn_skipn. reflexivity.
  - rewrite length_map, !length_firstn. lia.
  - rewrite !length_firstn. lia.
  - rewrite length_map, !length_skipn. lia.
  - rewrite !length_skipn. lia.
Qed.

Lemma split_data_partitions_witness :
  let '(train, valid) :=
    split_data 3 [[1; 2]; [3; 4]; [5; 6]; [7; 8]] [[0]; [1]; [2]; [3]] [2; 2; 2; 2] in
  app (ds_lengths train) (ds_lengths valid) = [2; 2; 2; 2]
  /\ ChunkDataSet_len train + ChunkDataSet_len valid = 4.
Proof.
  pose proof (split_data_partitions 3 [[1; 2]; [3; 4]; [5; 6]; [7; 8]]
                [[0]; [1]; [2]; [3]] [2; 2; 2; 2] eq_refl eq_refl) as H.
  cbv beta iota delta [split_data] in H |- *.
  destruct H as (_ & _ & H3 & H4 & _). split; [exact H3|exact H4].
Defined.

(** ** The training loop of an epoch *)

Lemma dict_get_set_ne {V} (k k' : string) (v : V) (d : list (string * V)) :
  k' <> k -> dict_get k (dict_set k' v d) = dict_get k d.
Proof.
  intros Hne. induction d as [|[k0 v0] d IH]; cbn.
  - by destruct (String.eqb_spec k' k).
  - destruct (String.eqb_spec k0 k') as [->|Hk0]; cbn.
    + by destruct (String.eqb_spec k' k).
    + destruct (String.eqb_spec k0 k); [done|exact IH].
Qed.

(** A key that [d] does not have is found in [{**base, **d}] as it is in
    [base]. *)
Lemma dict_get_update_None {V} (k : string) (d base : list (string * V)) :
  dict_get k d = None -> dict_get k (dict_update base d) = dict_get k base.
Proof.
  unfold dict_update. revert base. induction d as [|[k0 v0] d IH]; intros base; [done|].
  cbn [fold_left fst snd dict_get].
  destruct (String.eqb_spec k0 k) as [->|Hne]; [done|]. intros Hd.
  rewrite (IH _ Hd). by apply dict_get_set_ne.
Qed.

Section TrainingFacts.
Context {Batch Trainer F : Type}.
Variable zero_grad : Trainer -> Trainer.
Variable forward_loss : Batch -> Trainer -> outcome (losses F).
Variable optimise : F -> Trainer -> Trainer * outcome F.
Variable model_train : Trainer -> Trainer.
Variable batch_size : Batch -> Z.
Variable perf_counter : nat -> F.
Variable fsub fadd fmul : F -> F -> F.
Variable f_0_01 f_0_99 : F.

(** The criterion gives no loss under the name [chunks]. *)
Hypothesis no_chunks_loss :
  forall batch s d, forward_loss batch s = Ret (LossDict d) -> dict_get "chunks" d = None.

(** A step that returns gives a dictionary with the entry [loss], and no
    entry [chunks]. *)
Lemma train_one_step_loss batch s s' d g :
  train_one_step zero_grad forward_loss optimise batch s = (s', Ret (d, g)) ->
  (exists x, dict_get "loss" d = Some x) /\ dict_get "chunks" d = None.
Proof.
  unfold train_one_step.
  destruct (forward_loss batch (zero_grad s)) as [l|e] eqn:Hf; [|done].
  destruct l as [x|d0].
  - cbn. destruct (optimise x (zero_grad s)) as [s1 [g1|e]]; [|done].
    cbn. intros [= _ <- _]. eauto.
  - destruct (dict_get "loss" d0) as [x|] eqn:Hl; [|done].
    destruct (optimise x (zero_grad s)) as [s1 [g1|e]]; [|done].
    cbn. intros [= _ <- _]. split; [eauto|]. by eapply no_chunks_loss.
Qed.

Lemma train_batch_returns lr batch p p' :
  train_batch zero_grad forward_loss optimise batch_size perf_counter fsub fadd fmul
    f_0_01 f_0_99 true lr batch p = (p', Ret tt) ->
  chunks_seen p' = chunks_seen p + batch_size batch
  /\ scheduler_steps p' = ((if lr then 1 else 0) + scheduler_steps p)%nat
  /\ clock_readings p' = S (clock_readings p)
  /\ smoothed_loss p' <> None
  /\ exists row, logged p' = app (logged p) [row]
                 /\ dict_get "chunks" row = Some (CInt (chunks_seen p + batch_size batch)).
Proof.
  unfold train_batch.
  destruct (train_one_step _ _ _ batch (trainer p)) as [s [[d g]|e]] eqn:Hstep; [|done].
  destruct (train_one_step_loss _ _ _ _ _ Hstep) as [[x Hx] Hc].
  rewrite Hx. intros [= <-]. cbn.
  repeat split; [by destruct lr|done|].
  eexists. split; [reflexivity|].
  rewrite dict_get_update_None; [done|].
  assert (Hnone : dict_get "chunks" (map (fun kv : string * F => (fst kv, CNum (snd kv))) d)
                  = None).
  { clear -Hc. induction d as [|[k v] d IH]; [done|]. cbn in *.
    destruct (String.eqb k "chunks"); [done|by apply IH]. }
  exact Hnone.
Qed.

Lemma chunks_after_S (batch : Batch) (rest : list Batch) (k : nat) :
  chunks_after batch_size (batch :: rest) (S k)
  = batch_size batch + chunks_after batch_size rest k.
Proof. reflexivity. Qed.

Lemma train_batches_returns lr (train_loader : list Batch) : forall p p',
  train_batches zero_grad forward_loss optimise batch_size perf_counter fsub fadd fmul
    f_0_01 f_0_99 true lr train_loader p = (p', Ret tt) ->
  chunks_seen p' = chunks_seen p + chunks_after batch_size train_loader (length train_loader)
  /\ scheduler_steps p'
     = ((if lr then length train_loader else 0) + scheduler_steps p)%nat
  /\ clock_readings p' = (length train_loader + clock_readings p)%nat
  /\ (smoothed_loss p' = None <-> smoothed_loss p = None /\ train_loader = [])
  /\ exists rows,
       logged p' = app (logged p) rows
       /\ length rows = length train_loader
       /\ forall k row, rows !! k = Some row ->
            dict_get "chunks" row
            = Some (CInt (chunks_seen p + chunks_after batch_size train_loader (S k))).
Proof.
  induction train_loader as [|batch rest IH]; intros p p'.
  - cbn [train_batches]. intros [= <-]. cbn. rewrite Z.add_0_r.
    repeat split; try done; try tauto; try by destruct lr.
    exists []. by rewrite app_nil_r.
  - cbn [train_batches].
    destruct (train_batch _ _ _ _ _ _ _ _ _ _ true lr batch p) as [p1 [[]|e]] eqn:Hb; [|done].
    intros Hrest.
    destruct (train_batch_returns _ _ _ _ Hb) as (Hc1 & Hs1 & Hk1 & Hsm1 & row & Hl1 & Hrow).
    destruct (IH _ _ Hrest) as (Hc & Hs & Hk & Hsm & rows & Hl & Hlen & Hrows).
    rewrite Hc, Hc1, Hs, Hs1, Hk, Hk1. cbn [length]. rewrite chunks_after_S.
    split; [lia|]. split; [destruct lr; lia|]. split; [lia|]. split.
    { split; [intros H; apply Hsm in H; tauto|intros [_ H]; done]. }
    exists (row :: rows). rewrite Hl, Hl1, <- app_assoc. split; [done|].
    split; [cbn; by rewrite Hlen|].
    intros [|k] row' Hk'.
    + cbn in Hk'. injection Hk' as <-. rewrite Hrow. do 2 f_equal.
      unfold chunks_after. cbn. destruct rest; cbn; lia.
    + cbn in Hk'. rewrite (Hrows _ _ Hk'), Hc1. rewrite (chunks_after_S batch rest (S k)).
      do 2 f_equal. lia.
Qed.

End TrainingFacts.

(** X21. In an epoch that [train_one_epoch] runs to its end with a loss
    log (the criterion giving no loss under the name [chunks]): the log
    receives one row per batch, and the [chunks] entry of the row of a
    batch is the number of chunks in the batches up to and including it;
    the scheduler, when there is one, is stepped once per batch; the
    smoothed loss returned is [None] exactly when the loader has no batch;
    and the duration is taken at the reading of the clock that follows the
    one reading per row. *)
Theorem train_one_epoch_log {Batch Trainer F : Type}
  (zero_grad : Trainer -> Trainer) (forward_loss : Batch -> Trainer -> outcome (losses F))
  (optimise : F -> Trainer -> Trainer * outcome F) (model_train : Trainer -> Trainer)
  (batch_size : Batch -> Z) (perf_counter : nat -> F) (fsub fadd fmul : F -> F -> F)
  (f_0_01 f_0_99 : F) (lr_scheduler : bool) (train_loader : list Batch) (s : Trainer)
  (p : progress) (smoothed : option F) (duration : F) :
  (forall batch s d, forward_loss batch s = Ret (LossDict d) -> dict_get "chunks" d = None) ->
  train_one_epoch zero_grad forward_loss optimise model_train batch_size perf_counter
    fsub fadd fmul f_0_01 f_0_99 true lr_scheduler train_loader s
  = (p, Ret (smoothed, duration)) ->
  length (logged p) = length train_loader
  /\ (forall k row, logged p !! k = Some row ->
        dict_get "chunks" row = Some (CInt (chunks_after batch_size train_loader (S k))))
  /\ chunks_seen p = chunks_after batch_size train_loader (length train_loader)
  /\ scheduler_steps p = (if lr_scheduler then length train_loader else 0%nat)
  /\ (smoothed = None <-> train_loader = [])
  /\ duration = fsub (perf_counter (S (length train_loader))) (perf_counter 0%nat).
Proof.
  intros Hno. unfold train_one_epoch.
  destruct (train_batches _ _ _ _ _ _ _ _ _ _ true lr_scheduler train_loader _)
    as [p1 [[]|e]] eqn:Hrun; [|done].
  cbn [obind]. intros [= <- <- <-].
  destruct (train_batches_returns _ _ _ _ _ _ _ _ _ _ Hno _ _ _ _ Hrun)
    as (Hc & Hs & Hk & Hsm & rows & Hl & Hlen & Hrows).
  cbn in Hc, Hs, Hk, Hsm, Hl, Hrows. subst rows.
  rewrite Hc, Hs, Hk, Z.add_0_l, !Nat.add_0_r, Hlen.
  split; [done|]. split.
  { intros k row Hrow. by rewrite (Hrows _ _ Hrow). }
  split; [done|]. split; [done|]. split; [rewrite Hsm; tauto|].
  by rewrite Nat.add_1_r.
Qed.

Lemma train_one_epoch_log_witness :
  let forward_loss := fun (batch : list Z) (s : Z) => Ret (LossValue (s + 1)) in
  let optimise := fun (x s : Z) => (s + x, Ret 2) in
  let run := train_one_epoch (fun s => s) forward_loss optimise (fun s => s)
               (fun batch => Z.of_nat (length batch)) Z.of_nat Z.sub Z.add Z.mul 1 99
               true true [[1; 2; 3]; [4; 5]] 0 in
  snd run = Ret (Some 101, 3)
  /\ length (logged (fst run)) = 2%nat
  /\ chunks_seen (fst run) = 5
  /\ scheduler_steps (fst run) = 2%nat.
Proof.
  intros forward_loss optimise run.
  assert (Hrun : run = (fst run, Ret (Some 101, 3))) by (vm_compute; reflexivity).
  destruct (train_one_epoch_log (fun s => s) forward_loss optimise (fun s => s)
              (fun batch => Z.of_nat (length batch)) Z.of_nat Z.sub Z.add Z.mul 1 99
              true [[1; 2; 3]; [4; 5]] 0 (fst run) (Some 101) 3
              ltac:(discriminate) Hrun)
    as (Hlen & _ & Hchunks & Hsteps & _).
  split; [exact (f_equal snd Hrun)|]. split; [exact Hlen|]. split; [exact Hchunks|exact Hsteps].
Defined.

Section TrainingErrors.
Context {Batch Trainer F : Type}.
Variable zero_grad : Trainer -> Trainer.
Variable forward_loss : Batch -> Trainer -> outcome (losses F).
Variable optimise : F -> Trainer -> Trainer * outcome F.
Variable batch_size : Batch -> Z.
Variable perf_counter : nat -> F.
Variable fsub fadd fmul : F -> F -> F.
Variable f_0_01 f_0_99 : F.





End TrainingErrors.



(** ** Resuming: [load_state] after [fit] *)




Section ResumeFacts.
Context {Train Val : Type}.
Variable csv_log : string -> list string -> gmap string workfile -> gmap string workfile.
Variable train_one_epoch : Z -> list string * outcome Train.
Variable trained_state : Z -> state_dict.
Variable torch_save : Z -> save_result.
Variable validate_one_epoch : Z -> outcome Val.
Variable training_log : Z -> Train -> Val -> outcome string.
Variable workdir : string.

Hypothesis csv_log_own : writes_own_file csv_log.



End ResumeFacts.







(** ** Activations and the registry passed to [from_dict] *)

(** X24. The registry passed to [from_dict] as [layer_types] decides the
    ['type'] fields only. The activation of a [Convolution] is looked up by
    its constructor in the global [layers]: under any [layer_types] that
    maps the type name of the document to [Convolution], an activation name
    registered in [layers] gives the instance of the class [layers] has
    under that name, whatever [layer_types] holds (or does not hold) under
    it. *)
Theorem activation_ignores_layer_types (layer_types : gmap string layer_class)
  (type_name activation : string) (c : layer_class) (l : layer) (insize size winlen : Z) :
  layer_types !! type_name = Some CConvolution ->
  layers !! activation = Some c ->
  call0 c = Ret l ->
  let doc := VDict [("type", VStr type_name); ("insize", VInt insize); ("size", VInt size);
                    ("winlen", VInt winlen); ("activation", VStr activation)] in
  snd (from_dict doc (Some layer_types))
  = Ret (Convolution (mkConv1d insize size winlen 1 0 true) (inl l)).
Proof.
  intros Hty Hact Hcall doc. unfold from_dict, doc.
  rewrite (from_dict_in_typed layer_types
             [("type", VStr type_name); ("insize", VInt insize); ("size", VInt size);
              ("winlen", VInt winlen); ("activation", VStr activation)]
             (VStr type_name)
             [("insize", VInt insize); ("size", VInt size); ("winlen", VInt winlen);
              ("activation", VStr activation)] eq_refl).
  unfold lookup_type. cbn [hashable]. rewrite Hty, mbind_lift_ret.
  unfold keyword_arguments, with_sublayers.
  cbn [dict_get String.eqb Ascii.eqb Bool.eqb option_map map fst snd].
  unfold mbind, mret, build, mlift. cbn [snd].
  assert (Hc : call CConvolution
                 [("insize", AVal (VInt insize)); ("size", AVal (VInt size));
                  ("winlen", AVal (VInt winlen)); ("activation", AVal (VStr activation))]
               = Ret (Convolution (mkConv1d insize size winlen 1 0 true) (inl l))).
  { unfold call, call_with.
    replace (bind_arguments _ _ _)
      with (Ret (A := list (string * arg))
              [("insize", AVal (VInt insize)); ("size", AVal (VInt size));
               ("winlen", AVal (VInt winlen)); ("stride", AVal (VInt 1));
               ("padding", AVal (VInt 0)); ("bias", AVal (VBool true));
               ("activation", AVal (VStr activation))]) by reflexivity.
    cbn [obind init]. unfold Convolution_init, param, torch_nn_Conv1d, get_activation.
    cbn [dict_get String.eqb Ascii.eqb Bool.eqb as_value as_int obind truthy hashable].
    by rewrite Hact, Hcall. }
  by rewrite Hc.
Qed.

Lemma activation_ignores_layer_types_witness :
  let layer_types : gmap string layer_class := {["conv" := CConvolution; "relu" := CTanh]} in
  snd (from_dict (VDict [("type", VStr "conv"); ("insize", VInt 1); ("size", VInt 4);
                         ("winlen", VInt 5); ("activation", VStr "relu")])
         (Some layer_types))
  = Ret (Convolution (mkConv1d 1 4 5 1 0 true) (inl (ReLU (VBool false)))).
Proof.
  intros layer_types.
  refine (activation_ignores_layer_types layer_types "conv" "relu" CReLU (ReLU (VBool false))
            1 4 5 _ _ _); vm_compute; reflexivity.
Defined.
